(** * viamupnp: discovery of UPnP devices and matching against queries

    A shallow embedding of the two source variants of package [viamupnp]:

    - [src/find.go]: [FindHost] searches network by network and returns the
      hostnames together with a map from each hostname to the query that
      found it;
    - [src/unnamed/part_000]: [FindHost] enumerates all networks first and
      expands the [Endpoints] of a matching query into [hostname/endpoint]
      entries.

    Go strings are byte sequences and are modelled by [string] (a list of
    8-bit [ascii]).  The functions [matches], [UPNPDevice.Matches],
    [readDeviceDesc] and [parseDeviceDesc] have the same text in both files
    and are embedded once, in [Module Common]. *)

From Stdlib Require Import String Ascii List ZArith Lia Bool.
From stdpp Require Import base option list strings gmap.

Local Open Scope string_scope.
Local Open Scope list_scope.

(** ** The [strings] package *)

Module strings.

  (** [strings.HasPrefix(s, prefix)]:
      [len(s) >= len(prefix) && s[:len(prefix)] == prefix]. *)
Definition HasPrefix (s prefix : string) : bool :=
  (String.length prefix <=? String.length s)%nat
  && String.eqb (substring 0 (String.length prefix) s) prefix.

  (** [strings.HasSuffix(s, suffix)]:
      [len(s) >= len(suffix) && s[len(s)-len(suffix):] == suffix]. *)
Definition HasSuffix (s suffix : string) : bool :=
  (String.length suffix <=? String.length s)%nat
  && String.eqb
       (substring (String.length s - String.length suffix)
                  (String.length suffix) s)
       suffix.

End strings.

(** ** The [slices] package *)

Module slices.

  (** [slices.Contains(s, v)] on a [[]string]: some element equals [v]. *)
Fixpoint Contains (s : list string) (v : string) : bool :=
  match s with
  | [] => false
  | x :: s' => if String.eqb v x then true else Contains s' v
  end.

End slices.

(** ** External collaborators

    The discovery transport, the HTTP client, the XML decoder and the URL
    parser are libraries outside the repository.  Their calls are taken as
    operations of an environment: those that touch the network thread a
    [World]; the decoders are functions of their input. *)

(** The error value a library call hands back. *)
Definition cause : Type := string.

(** Outcome of a library call of Go type [(A, error)]. *)
Inductive call (A : Type) : Type :=
| Returned (a : A)
| Failed (e : cause).
Arguments Returned {A} a.
Arguments Failed {A} e.

Module ssdp.

  (** [ssdp.Service]: the exported fields of an advertisement. *)
Record Service : Type := mkService {
  Type_ : string;
  USN : string;
  Location : string;
  Server : string
}.

  (** The search targets [ssdp.All] and [ssdp.RootDevice]. *)
Definition All : string := "ssdp:all".
Definition RootDevice : string := "upnp:rootdevice".

End ssdp.

Module http.

  (** [http.StatusOK]. *)
Definition StatusOK : Z := 200.

  (** [http.MethodGet]. *)
Definition MethodGet : string := "GET".

  (** The part of [http.Response] the code reads. *)
Record Response (Body : Type) : Type := mkResponse {
  StatusCode : Z;
  Body_ : Body
}.
Arguments mkResponse {Body} _ _.
Arguments StatusCode {Body} _.
Arguments Body_ {Body} _.

End http.

Module xml.

  (** [xml.Name]. *)
Record Name : Type := mkName { Space : string; Local_ : string }.

End xml.

(** ** Code shared by the two variants *)

Module Common.

  (** [func matches(query string, s string) bool]
      (find.go 86-97, part_000 81-92).  The slice
      [query[0 : len(query)-2]] is [substring 0 (len query - 2) query]. *)
Definition matches (query s : string) : bool :=
  if String.eqb query s then true
  else if strings.HasSuffix query ".*" then
    let query := substring 0 (String.length query - 2) query in
    strings.HasPrefix s query
  else false.

  (** [type deviceDesc struct] and its two anonymous struct fields. *)
Record specVersion : Type := mkSpecVersion { Major : Z; Minor : Z }.

Record device : Type := mkDevice {
  Manufacturer : string;
  ModelName : string;
  SerialNumber : string
}.

Record deviceDesc : Type := mkDeviceDesc {
  XMLName : xml.Name;
  SpecVersion : specVersion;
  Device : device
}.

  (** [type UPNPDevice struct].  [Desc] is a pointer: [None] is [nil]. *)
Record UPNPDevice : Type := mkUPNPDevice {
  Service : ssdp.Service;
  Desc : option deviceDesc
}.

  (** The operations of the libraries. *)
Class Env : Type := {
  World : Type;
  Request : Type;
  Body : Type;
  URL : Type;
  (** [ssdp.Search(searchType, waitSec, localAddr)] *)
  ssdp_Search :
    string -> Z -> string -> World -> call (list ssdp.Service) * World;
  (** [http.NewRequestWithContext(ctx, method, url, nil)] *)
  http_NewRequestWithContext : string -> string -> call Request;
  (** [cli.Do(req)] *)
  http_Client_Do : Request -> World -> call (http.Response Body) * World;
  (** [io.ReadAll(resp.Body)] *)
  io_ReadAll : Body -> World -> call string * World;
  (** [resp.Body.Close()] *)
  Body_Close : Body -> World -> World;
  (** [xml.Unmarshal(data, &desc)] on a zero [deviceDesc] *)
  xml_Unmarshal : string -> call deviceDesc;
  (** [url.Parse(rawURL)] and [u.Hostname()] *)
  url_Parse : string -> call URL;
  URL_Hostname : URL -> string
}.

  (** The [context.Context] as far as the code looks into it: the outcome of
      [ctx.Value(FindAllTestKey).([]UPNPDevice)], [None] when the key is
      absent or holds another type. *)
Record Context : Type := mkContext {
  Value_FindAllTestKey : option (list UPNPDevice)
}.

  (** A device record with a descriptor ([Desc] is not nil), and a context
      whose test value, if any, holds only such records. *)
Definition described (a : UPNPDevice) : Prop := Desc a <> None.

Definition Context_described (ctx : Context) : Prop :=
  match Value_FindAllTestKey ctx with
  | Some all => Forall described all
  | None => True
  end.

  (** Go [error] values, by the place that builds them; [Q] is the variant's
      [DeviceQuery].
      - [ErrLibrary e]: an error of a library returned as it is;
      - [ErrCantFetch]: ["can't fetch xml(%s): %w"];
      - [ErrNotOK]: ["http fetch (%s) not ok: %v"];
      - [ErrCantReadBody]: ["can't read body from (%s): %v"];
      - [ErrBadXML]: ["bad xml from (%s): %w"];
      - [ErrNoMatch]: ["no match found for queries: %v"]. *)
Inductive error (Q : Type) : Type :=
| ErrLibrary (e : cause)
| ErrCantFetch (url : string) (e : cause)
| ErrNotOK (url : string) (status : Z)
| ErrCantReadBody (url : string) (status : Z)
| ErrBadXML (url : string) (e : cause)
| ErrNoMatch (queries : list Q).
Arguments ErrLibrary {Q} e.
Arguments ErrCantFetch {Q} url e.
Arguments ErrNotOK {Q} url status.
Arguments ErrCantReadBody {Q} url status.
Arguments ErrBadXML {Q} url e.
Arguments ErrNoMatch {Q} queries.

  (** What the code writes to the logger and to standard output.
      - [Debugf_found_service]: ["found service (%s) at %s"];
      - [Warnf_cannot_read_description]: ["cannot read description %v"];
      - [Debugf_got_description]: ["got description %v"];
      - [Warnf_invalid_location]: ["invalid location %s"];
      - [Println_yo_all]: [fmt.Println("yo all: ", len(all))]. *)
Inductive LogEntry (Q : Type) : Type :=
| Debugf_found_service (ty loc : string)
| Warnf_cannot_read_description (err : error Q)
| Debugf_got_description (desc : option deviceDesc)
| Warnf_invalid_location (loc : string)
| Println_yo_all (n : nat).
Arguments Debugf_found_service {Q} ty loc.
Arguments Warnf_cannot_read_description {Q} err.
Arguments Debugf_got_description {Q} desc.
Arguments Warnf_invalid_location {Q} loc.
Arguments Println_yo_all {Q} n.

  (** A Go call either returns or panics (here: a nil pointer dereference). *)
Inductive Res (A : Type) : Type :=
| Ok (a : A)
| Panic.
Arguments Ok {A} a.
Arguments Panic {A}.

Section Monad.
  Context {E : Env} {Q : Type}.

  (** Computations: from a world to an outcome, the world after, and the
      entries logged on the way. *)
Definition M (A : Type) : Type := World -> Res A * World * list (LogEntry Q).

Definition ret {A : Type} (a : A) : M A := fun w => (Ok a, w, []).

Definition bind {A B : Type} (m : M A) (f : A -> M B) : M B :=
  fun w =>
    match m w with
    | (Ok a, w1, l1) =>
        match f a w1 with
        | (r, w2, l2) => (r, w2, (l1 ++ l2)%list)
        end
    | (Panic, w1, l1) => (Panic, w1, l1)
    end.

Definition panic {A : Type} : M A := fun w => (Panic, w, []).

Definition log (e : LogEntry Q) : M unit := fun w => (Ok tt, w, [e]).

  (** A library call on the world. *)
Definition perform {A : Type} (f : World -> A * World) : M A :=
  fun w => match f w with (a, w1) => (Ok a, w1, []) end.

  (** Dereferencing: [None] is the panic. *)
Definition orPanic {A : Type} (o : option A) : M A :=
  match o with
  | Some a => ret a
  | None => panic
  end.

End Monad.
Arguments M {E} Q A.

  (** [x ← c; k] and [c;; k] sequence computations of [M]. *)
#[global] Instance M_ret {E : Env} {Q : Type} : MRet (M Q) := @ret E Q.
#[global] Instance M_bind {E : Env} {Q : Type} : MBind (M Q) :=
  fun A B f m => bind m f.

Section ReadDeviceDesc.
  Context {E : Env} {Q : Type}.

  (** [func parseDeviceDesc(url string, data []byte)], returning a
      [deviceDesc] pointer and an [error]
      (find.go 198-206, part_000 196-204). *)
Definition parseDeviceDesc (url data : string)
  : option deviceDesc * option (error Q) :=
  match xml_Unmarshal data with
  | Failed err => (None, Some (ErrBadXML url err))
  | Returned desc => (Some desc, None)
  end.

  (** [func readDeviceDesc(ctx context.Context, url string)], returning a
      [deviceDesc] pointer and an [error]
      (find.go 171-196, part_000 169-194).  The deferred
      [resp.Body.Close()] runs on every return after [cli.Do] succeeded. *)
Definition readDeviceDesc (ctx : Context) (url : string)
  : M Q (option deviceDesc * option (error Q)) :=
  match http_NewRequestWithContext http.MethodGet url with
  | Failed err => ret (None, Some (ErrLibrary err))
  | Returned req =>
      resp ← perform (http_Client_Do req);
      match resp with
      | Failed err => ret (None, Some (ErrCantFetch url err))
      | Returned resp =>
          r ← (if negb (http.StatusCode resp =? http.StatusOK)%Z then
                  ret (None, Some (ErrNotOK url (http.StatusCode resp)))
                else
                  data ← perform (io_ReadAll (http.Body_ resp));
                  match data with
                  | Failed _ =>
                      ret (None,
                           Some (ErrCantReadBody url (http.StatusCode resp)))
                  | Returned data => ret (parseDeviceDesc url data)
                  end);
          perform (fun w => (tt, Body_Close (http.Body_ resp) w));;
          ret r
      end
  end.

End ReadDeviceDesc.

End Common.

Import Common.

(** ** The variant of [src/find.go]: hostnames with the query that found them *)

Module FindGo.

  (** [type DeviceQuery struct] (find.go 20-25). *)
Record DeviceQuery : Type := mkDeviceQuery {
  ModelName : string;
  Manufacturer : string;
  SerialNumber : string;
  Network : string
}.

  (** [func parseNetworks(queries []DeviceQuery) []string] (find.go 33-41). *)
Fixpoint parseNetworks_loop (queries : list DeviceQuery)
    (networks : list string) : list string :=
  match queries with
  | [] => networks
  | query :: rest =>
      if negb (slices.Contains networks (Network query)) then
        parseNetworks_loop rest (networks ++ [Network query])%list
      else parseNetworks_loop rest networks
  end.

Definition parseNetworks (queries : list DeviceQuery) : list string :=
  parseNetworks_loop queries [].

  (** [func (pc *UPNPDevice) Matches(query DeviceQuery) bool]
      (find.go 100-114).  [&&] evaluates its right operand, and with it
      [pc.Desc.Device], only when the query field is not empty. *)
Definition Matches (pc : UPNPDevice) (query : DeviceQuery) : option bool :=
  c1 ← (if negb (String.eqb (ModelName query) "") then
          desc ← Desc pc;
          Some (negb (matches (ModelName query)
                              (Common.ModelName (Device desc))))
        else Some false);
  if (c1 : bool) then Some false else
  c2 ← (if negb (String.eqb (Manufacturer query) "") then
          desc ← Desc pc;
          Some (negb (matches (Manufacturer query)
                              (Common.Manufacturer (Device desc))))
        else Some false);
  if (c2 : bool) then Some false else
  c3 ← (if negb (String.eqb (SerialNumber query) "") then
          desc ← Desc pc;
          Some (negb (matches (SerialNumber query)
                              (Common.SerialNumber (Device desc))))
        else Some false);
  if (c3 : bool) then Some false else
  Some true.

Section WithEnv.
  Context {E : Env}.

#[local] Abbreviation error := (Common.error DeviceQuery).
#[local] Abbreviation M := (Common.M DeviceQuery).

  (** The loop of [findAll] over the advertisements (find.go 141-153). *)
Fixpoint findAll_loop (ctx : Context) (list_ : list ssdp.Service)
    (all : list UPNPDevice) : M (list UPNPDevice) :=
  match list_ with
  | [] => ret all
  | srv :: rest =>
      log (Debugf_found_service (ssdp.Type_ srv) (ssdp.Location srv));;
      '(desc, err) ← readDeviceDesc ctx (ssdp.Location srv);
      match err with
      | Some err =>
          log (Warnf_cannot_read_description err);;
          findAll_loop ctx rest all
      | None =>
          log (Debugf_got_description desc);;
          findAll_loop ctx rest (all ++ [mkUPNPDevice srv desc])%list
      end
  end.

  (** [func findAll(ctx, logger, network string, rootOnly bool)]
      (find.go 122-156). *)
Definition findAll (ctx : Context) (network : string) (rootOnly : bool)
  : M (list UPNPDevice * option error) :=
  match Value_FindAllTestKey ctx with
  | Some all => ret (all, None)
  | None =>
      let searchType := if rootOnly then ssdp.RootDevice else ssdp.All in
      r ← perform (ssdp_Search searchType 1 network);
      match r with
      | Failed err => ret ([], Some (ErrLibrary err))
      | Returned list_ =>
          all ← findAll_loop ctx list_ [];
          ret (all, None)
      end
  end.

  (** The loop of [FindHost] over the queries for one device [a]
      (find.go 60-76). *)
Fixpoint FindHost_queries (a : UPNPDevice) (queries : list DeviceQuery)
    (hostnames : list string) (foundQueries : gmap string DeviceQuery)
  : M (list string * gmap string DeviceQuery) :=
  match queries with
  | [] => ret (hostnames, foundQueries)
  | query :: rest =>
      m ← orPanic (Matches a query);
      if (m : bool) then
        match url_Parse (ssdp.Location (Service a)) with
        | Failed _ =>
            log (Warnf_invalid_location (ssdp.Location (Service a)));;
            FindHost_queries a rest hostnames foundQueries
        | Returned u =>
            if negb (slices.Contains hostnames (URL_Hostname u)) then
              FindHost_queries a rest
                (hostnames ++ [URL_Hostname u])%list
                (<[URL_Hostname u := query]> foundQueries)
            else FindHost_queries a rest hostnames foundQueries
        end
      else FindHost_queries a rest hostnames foundQueries
  end.

  (** The loop of [FindHost] over the devices of one network
      (find.go 58-77). *)
Fixpoint FindHost_devices (all : list UPNPDevice) (queries : list DeviceQuery)
    (hostnames : list string) (foundQueries : gmap string DeviceQuery)
  : M (list string * gmap string DeviceQuery) :=
  match all with
  | [] => ret (hostnames, foundQueries)
  | a :: rest =>
      '(hostnames, foundQueries) ←
        FindHost_queries a queries hostnames foundQueries;
      FindHost_devices rest queries hostnames foundQueries
  end.

  (** The loop of [FindHost] over the networks (find.go 51-78).  It ends
      either by the [return] of line 55, [inl err], or after the last
      network with the hostnames and the map built so far, [inr]. *)
Fixpoint FindHost_networks (ctx : Context) (queries : list DeviceQuery)
    (rootOnly : bool) (networks : list string)
    (hostnames : list string) (foundQueries : gmap string DeviceQuery)
  : M (error + list string * gmap string DeviceQuery) :=
  match networks with
  | [] => ret (inr (hostnames, foundQueries))
  | network :: rest =>
      '(all, err) ← findAll ctx network rootOnly;
      match err with
      | Some err => ret (inl err)
      | None =>
          '(hostnames, foundQueries) ←
            FindHost_devices all queries hostnames foundQueries;
          FindHost_networks ctx queries rootOnly rest hostnames foundQueries
      end
  end.

  (** [func FindHost(ctx, logger, queries []DeviceQuery, rootOnly bool)]
      (find.go 46-84): the hostnames, the map from hostname to query
      ([None] is the nil map) and the error. *)
Definition FindHost (ctx : Context) (queries : list DeviceQuery)
    (rootOnly : bool)
  : M (list string * option (gmap string DeviceQuery) * option error) :=
  let networks := parseNetworks queries in
  r ← FindHost_networks ctx queries rootOnly networks [] ∅;
  match r with
  | inl err => ret ([], None, Some err)
  | inr (hostnames, foundQueries) =>
      if (0 <? length hostnames)%nat then
        ret (hostnames, Some foundQueries, None)
      else ret ([], None, Some (ErrNoMatch queries))
  end.

  (** *** What the loops of [FindHost] compute, step by step *)

  (** The device records the loop over the networks visits: the results of
      [findAll] network after network, up to the first error. *)
Fixpoint discover (ctx : Context) (rootOnly : bool) (networks : list string)
  : M (error + list UPNPDevice) :=
  match networks with
  | [] => ret (inr [])
  | network :: rest =>
      '(all, err) ← findAll ctx network rootOnly;
      match err with
      | Some err => ret (inl err)
      | None =>
          r ← discover ctx rootOnly rest;
          match r with
          | inl err => ret (inl err)
          | inr more => ret (inr (all ++ more)%list)
          end
      end
  end.

  (** The hostname of a device record, when its location parses. *)
Definition hostOf (a : UPNPDevice) : option string :=
  match url_Parse (ssdp.Location (Service a)) with
  | Returned u => Some (URL_Hostname u)
  | Failed _ => None
  end.

  (** The matches of one device, in the order of the queries: each is the
      hostname of the device and the query it matched. *)
Definition matchesOf (a : UPNPDevice) (queries : list DeviceQuery)
  : list (string * DeviceQuery) :=
  flat_map
    (fun query =>
       match Matches a query, hostOf a with
       | Some true, Some h => [(h, query)]
       | _, _ => []
       end)
    queries.

  (** The matches in iteration order, device-major and query-minor. *)
Definition matchEvents (queries : list DeviceQuery) (devs : list UPNPDevice)
  : list (string * DeviceQuery) :=
  flat_map (fun a => matchesOf a queries) devs.

  (** Lines 70-73: what one match does to the hostnames and the map. *)
Definition record (acc : list string * gmap string DeviceQuery)
    (ev : string * DeviceQuery) : list string * gmap string DeviceQuery :=
  if negb (slices.Contains (fst acc) (fst ev)) then
    ((fst acc ++ [fst ev])%list, <[fst ev := snd ev]> (snd acc))
  else acc.

  (** The query of the first match at hostname [h]. *)
Definition firstQuery (h : string) (events : list (string * DeviceQuery))
  : option DeviceQuery :=
  snd <$> List.find (fun ev => String.eqb (fst ev) h) events.

End WithEnv.

End FindGo.

(** ** The variant of [src/unnamed/part_000]: endpoint expansion *)

Module Part000.

  (** [type DeviceQuery struct] (part_000 20-26). *)
Record DeviceQuery : Type := mkDeviceQuery {
  ModelName : string;
  Manufacturer : string;
  SerialNumber : string;
  Network : string;
  Endpoints : list string
}.

  (** [func parseNetworks(queries []DeviceQuery) []string] (part_000 34-42):
      the condition is [query.Network != "" && slices.Contains(...)]. *)
Fixpoint parseNetworks_loop (queries : list DeviceQuery)
    (networks : list string) : list string :=
  match queries with
  | [] => networks
  | query :: rest =>
      if negb (String.eqb (Network query) "")
         && slices.Contains networks (Network query) then
        parseNetworks_loop rest (networks ++ [Network query])%list
      else parseNetworks_loop rest networks
  end.

Definition parseNetworks (queries : list DeviceQuery) : list string :=
  parseNetworks_loop queries [].

  (** [func (pc *UPNPDevice) Matches(query DeviceQuery) bool]
      (part_000 95-109). *)
Definition Matches (pc : UPNPDevice) (query : DeviceQuery) : option bool :=
  c1 ← (if negb (String.eqb (ModelName query) "") then
          desc ← Desc pc;
          Some (negb (matches (ModelName query)
                              (Common.ModelName (Device desc))))
        else Some false);
  if (c1 : bool) then Some false else
  c2 ← (if negb (String.eqb (Manufacturer query) "") then
          desc ← Desc pc;
          Some (negb (matches (Manufacturer query)
                              (Common.Manufacturer (Device desc))))
        else Some false);
  if (c2 : bool) then Some false else
  c3 ← (if negb (String.eqb (SerialNumber query) "") then
          desc ← Desc pc;
          Some (negb (matches (SerialNumber query)
                              (Common.SerialNumber (Device desc))))
        else Some false);
  if (c3 : bool) then Some false else
  Some true.

  (** [fmt.Sprintf("%s/%s", hostname, endpoint)]. *)
Definition Sprintf_s_slash_s (hostname endpoint : string) : string :=
  hostname +:+ "/" +:+ endpoint.

  (** The loop over [query.Endpoints] (part_000 64-66). *)
Fixpoint FindHost_endpoints (hostname : string) (endpoints : list string)
    (hostnames : list string) : list string :=
  match endpoints with
  | [] => hostnames
  | endpoint :: rest =>
      FindHost_endpoints hostname rest
        (hostnames ++ [Sprintf_s_slash_s hostname endpoint])%list
  end.

Section WithEnv.
  Context {E : Env}.

#[local] Abbreviation error := (Common.error DeviceQuery).
#[local] Abbreviation M := (Common.M DeviceQuery).

  (** The loop of [findAll] over the advertisements of one search
      (part_000 137-149). *)
Fixpoint findAll_services (ctx : Context) (list_ : list ssdp.Service)
    (all : list UPNPDevice) : M (list UPNPDevice) :=
  match list_ with
  | [] => ret all
  | srv :: rest =>
      log (Debugf_found_service (ssdp.Type_ srv) (ssdp.Location srv));;
      '(desc, err) ← readDeviceDesc ctx (ssdp.Location srv);
      match err with
      | Some err =>
          log (Warnf_cannot_read_description err);;
          findAll_services ctx rest all
      | None =>
          log (Debugf_got_description desc);;
          findAll_services ctx rest (all ++ [mkUPNPDevice srv desc])%list
      end
  end.

  (** The loop of [findAll] over the networks (part_000 131-150).  It ends
      either by the [return] of line 134, [inl err], or after the last
      network with the device records, [inr all]. *)
Fixpoint findAll_networks (ctx : Context) (searchType : string)
    (networks : list string) (all : list UPNPDevice)
  : M (error + list UPNPDevice) :=
  match networks with
  | [] => ret (inr all)
  | network :: rest =>
      r ← perform (ssdp_Search searchType 1 network);
      match r with
      | Failed err => ret (inl (ErrLibrary err))
      | Returned list_ =>
          all ← findAll_services ctx list_ all;
          findAll_networks ctx searchType rest all
      end
  end.

  (** [func findAll(ctx, logger, networks []string, rootOnly bool)]
      (part_000 117-154). *)
Definition findAll (ctx : Context) (networks : list string) (rootOnly : bool)
  : M (list UPNPDevice * option error) :=
  match Value_FindAllTestKey ctx with
  | Some all => ret (all, None)
  | None =>
      let searchType := if rootOnly then ssdp.RootDevice else ssdp.All in
      r ← findAll_networks ctx searchType networks [];
      match r with
      | inl err => ret ([], Some err)
      | inr all =>
          log (Println_yo_all (length all));;
          ret (all, None)
      end
  end.

  (** The loop of [FindHost] over the queries for one device [a]
      (part_000 55-72). *)
Fixpoint FindHost_queries (a : UPNPDevice) (queries : list DeviceQuery)
    (hostnames : list string) : M (list string) :=
  match queries with
  | [] => ret hostnames
  | query :: rest =>
      m ← orPanic (Matches a query);
      if (m : bool) then
        match url_Parse (ssdp.Location (Service a)) with
        | Failed _ =>
            log (Warnf_invalid_location (ssdp.Location (Service a)));;
            FindHost_queries a rest hostnames
        | Returned u =>
            if (0 <? length (Endpoints query))%nat then
              FindHost_queries a rest
                (FindHost_endpoints (URL_Hostname u) (Endpoints query)
                                    hostnames)
            else
              FindHost_queries a rest (hostnames ++ [URL_Hostname u])%list
        end
      else FindHost_queries a rest hostnames
  end.

  (** The loop of [FindHost] over the devices (part_000 54-73). *)
Fixpoint FindHost_devices (all : list UPNPDevice) (queries : list DeviceQuery)
    (hostnames : list string) : M (list string) :=
  match all with
  | [] => ret hostnames
  | a :: rest =>
      hostnames ← FindHost_queries a queries hostnames;
      FindHost_devices rest queries hostnames
  end.

  (** [func FindHost(ctx, logger, queries []DeviceQuery, rootOnly bool)]
      (part_000 45-79). *)
Definition FindHost (ctx : Context) (queries : list DeviceQuery)
    (rootOnly : bool) : M (list string * option error) :=
  let networks := parseNetworks queries in
  '(all, err) ← findAll ctx networks rootOnly;
  match err with
  | Some err => ret ([], Some err)
  | None =>
      hostnames ← FindHost_devices all queries [];
      if (0 <? length hostnames)%nat then ret (hostnames, None)
      else ret ([], Some (ErrNoMatch queries))
  end.

End WithEnv.

End Part000.

(** ** Distinct elements in order of first appearance *)

  (** The head comes first; the distinct elements of the tail follow,
      without the head. *)
Fixpoint distinct_in_order (l : list string) : list string :=
  match l with
  | [] => []
  | x :: t =>
      x :: List.filter (fun y => negb (String.eqb y x)) (distinct_in_order t)
  end.

  (** One step of the loops that keep the first appearance of each string. *)
Definition add_distinct (acc : list string) (x : string) : list string :=
  if negb (slices.Contains acc x) then acc ++ [x] else acc.

  (** The set of networks in the words of the specification: the distinct
      non-empty network identifiers, in order of first appearance. *)
Definition distinct_nonempty (networks : list string) : list string :=
  distinct_in_order
    (List.filter (fun n => negb (String.eqb n "")) networks).

(** ** Properties of a loop over advertisements

    Stated once for the loop of [findAll] in find.go and the one in
    part_000, which differ only in the type of their queries. *)

Section LoopProperties.
  Context {E : Env} {Q : Type}.
  Variable loop :
    Context -> list ssdp.Service -> list UPNPDevice -> M Q (list UPNPDevice).

  (** When the fetch for [srv] fails at its turn, the loop over
      [l1 ++ srv :: l2] logs the failure and returns what the loop over [l2]
      returns from the records of [l1]: no record for [srv], and no error. *)
Definition drops_failed_fetch : Prop :=
  forall (ctx : Context) (l1 : list ssdp.Service) (srv : ssdp.Service)
         (l2 : list ssdp.Service) (all all1 : list UPNPDevice)
         (w w1 w2 : World) (lg1 lg2 : list (LogEntry Q))
         (desc : option deviceDesc) (err : error Q),
    loop ctx l1 all w = (Ok all1, w1, lg1) ->
    readDeviceDesc ctx (ssdp.Location srv) w1
    = (Ok (desc, Some err), w2, lg2) ->
    exists (more : list UPNPDevice) (w3 : World) (lg3 : list (LogEntry Q)),
      loop ctx l2 all1 w2 = (Ok (all1 ++ more), w3, lg3)
      /\ loop ctx (l1 ++ srv :: l2) all w
         = (Ok (all1 ++ more), w3,
            lg1 ++ Debugf_found_service (ssdp.Type_ srv) (ssdp.Location srv)
                :: lg2 ++ Warnf_cannot_read_description err :: lg3).

  (** When the fetch for [srv] succeeds at its turn, its record is in the
      list the loop returns, after the records of the advertisements
      before it. *)
Definition keeps_resolved : Prop :=
  forall (ctx : Context) (l1 : list ssdp.Service) (srv : ssdp.Service)
         (l2 : list ssdp.Service) (all all1 : list UPNPDevice)
         (w w1 w2 : World) (lg1 lg2 : list (LogEntry Q))
         (desc : option deviceDesc),
    loop ctx l1 all w = (Ok all1, w1, lg1) ->
    readDeviceDesc ctx (ssdp.Location srv) w1 = (Ok (desc, None), w2, lg2) ->
    exists (more : list UPNPDevice) (w3 : World) (lg3 : list (LogEntry Q)),
      loop ctx (l1 ++ srv :: l2) all w
      = (Ok (all1 ++ mkUPNPDevice srv desc :: more), w3, lg3).

End LoopProperties.

(** ** What the loops of [FindHost] in part_000 append *)

Section Part000Entries.
  Context {E : Env}.

  (** The hostname of a device record, when its location parses. *)
Definition Part000_hostOf (a : UPNPDevice) : option string :=
  match url_Parse (ssdp.Location (Service a)) with
  | Returned u => Some (URL_Hostname u)
  | Failed _ => None
  end.

  (** Lines 63-70: the entries of one match, one for each endpoint of the
      query or, without endpoints, the hostname. *)
Definition Part000_entry (hostname : string) (query : Part000.DeviceQuery)
  : list string :=
  if (0 <? length (Part000.Endpoints query))%nat then
    map (Part000.Sprintf_s_slash_s hostname) (Part000.Endpoints query)
  else [hostname].

  (** The entries of one device, in the order of the queries. *)
Definition Part000_entriesOf (a : UPNPDevice)
    (queries : list Part000.DeviceQuery) : list string :=
  flat_map
    (fun query =>
       match Part000.Matches a query, Part000_hostOf a with
       | Some true, Some h => Part000_entry h query
       | _, _ => []
       end)
    queries.

  (** The entries in iteration order, device-major and query-minor. *)
Definition Part000_entries (queries : list Part000.DeviceQuery)
    (devs : list UPNPDevice) : list string :=
  flat_map (fun a => Part000_entriesOf a queries) devs.

End Part000Entries.

(** ** A query of part_000 as a query of find.go *)

  (** The query with the same four fields and no endpoints. *)
Definition withoutEndpoints (q : Part000.DeviceQuery) : FindGo.DeviceQuery :=
  FindGo.mkDeviceQuery (Part000.ModelName q) (Part000.Manufacturer q)
                       (Part000.SerialNumber q) (Part000.Network q).

(** ** The searches of a call

    What "no search failed" and "a search failed" mean, read off the calls
    of [ssdp.Search]: the networks are searched in order, each in the world
    the fetches for the network before leave. *)

Section Searches.
  Context {E : Env}.

  (** Every search of find.go returns: [devs] are the records of the
      networks, in order, and [w'] is the world after the last fetch. *)
Inductive FindGo_all_searched (ctx : Context) (rootOnly : bool)
  : list string -> World -> list UPNPDevice -> World -> Prop :=
| FindGo_searched_nil (w : World) :
    FindGo_all_searched ctx rootOnly [] w [] w
| FindGo_searched_cons (network : string) (rest : list string)
    (w w1 w2 w3 : World) (list_ : list ssdp.Service)
    (all more : list UPNPDevice) (lg : list (LogEntry FindGo.DeviceQuery)) :
    ssdp_Search (if rootOnly then ssdp.RootDevice else ssdp.All) 1 network w
    = (Returned list_, w1) ->
    FindGo.findAll_loop ctx list_ [] w1 = (Ok all, w2, lg) ->
    FindGo_all_searched ctx rootOnly rest w2 more w3 ->
    FindGo_all_searched ctx rootOnly (network :: rest) w (all ++ more) w3.

  (** The first search of find.go that fails, with its error [c] and the
      world [w'] it leaves; the searches before it return. *)
Inductive FindGo_search_failed (ctx : Context) (rootOnly : bool)
  : list string -> World -> cause -> World -> Prop :=
| FindGo_failed_here (network : string) (rest : list string) (w w1 : World)
    (c : cause) :
    ssdp_Search (if rootOnly then ssdp.RootDevice else ssdp.All) 1 network w
    = (Failed c, w1) ->
    FindGo_search_failed ctx rootOnly (network :: rest) w c w1
| FindGo_failed_later (network : string) (rest : list string)
    (w w1 w2 w3 : World) (list_ : list ssdp.Service) (all : list UPNPDevice)
    (lg : list (LogEntry FindGo.DeviceQuery)) (c : cause) :
    ssdp_Search (if rootOnly then ssdp.RootDevice else ssdp.All) 1 network w
    = (Returned list_, w1) ->
    FindGo.findAll_loop ctx list_ [] w1 = (Ok all, w2, lg) ->
    FindGo_search_failed ctx rootOnly rest w2 c w3 ->
    FindGo_search_failed ctx rootOnly (network :: rest) w c w3.

End Searches.

(** ** A small simulated network

    Two interfaces answer a search, any other interface fails.  The world
    is the list of the library calls made so far. *)

Module Sim.

Definition descOf (manufacturer model serial : string) : deviceDesc :=
  mkDeviceDesc (xml.mkName "" "root") (mkSpecVersion 1 0)
               (mkDevice manufacturer model serial).

Definition advert (location : string) : ssdp.Service :=
  ssdp.mkService "upnp:rootdevice" "uuid:1" location "sim/1.0".

Definition search (searchType : string) (waitSec : Z) (localAddr : string)
    (w : list string) : call (list ssdp.Service) * list string :=
  (if String.eqb localAddr "eth0" then
     Returned [advert "http://10.0.0.5:80/desc.xml";
               advert "http://10.0.0.6:80/desc.xml";
               advert "http://10.0.0.7:80/desc.xml"]
   else if String.eqb localAddr "wlan0" then
     Returned [advert "http://cam1:8080/desc.xml"]
   else Failed "no such interface",
   (w ++ ["search " +:+ localAddr])%list).

Definition newRequest (method url : string) : call string :=
  if String.eqb url "" then Failed "empty url" else Returned url.

Definition do (req : string) (w : list string)
  : call (http.Response string) * list string :=
  (if String.eqb req "http://10.0.0.5:80/desc.xml" then
     Returned (http.mkResponse 200 "<CamX200/>")
   else if String.eqb req "http://10.0.0.6:80/desc.xml" then
     Returned (http.mkResponse 204 "")
   else if String.eqb req "http://10.0.0.7:80/desc.xml" then
     Returned (http.mkResponse 200 "<Door7/>")
   else if String.eqb req "http://cam1:8080/desc.xml" then
     Returned (http.mkResponse 200 "<CamX300/>")
   else Failed "connection refused",
   (w ++ ["GET " +:+ req])%list).

Definition readAll (body : string) (w : list string)
  : call string * list string :=
  (Returned body, (w ++ ["read"])%list).

Definition close (body : string) (w : list string) : list string :=
  (w ++ ["close"])%list.

Definition unmarshal (data : string) : call deviceDesc :=
  if String.eqb data "<CamX200/>" then Returned (descOf "Acme" "CamX200" "SN1")
  else if String.eqb data "<CamX300/>" then
    Returned (descOf "Acme" "CamX300" "SN2")
  else if String.eqb data "<Door7/>" then
    Returned (descOf "Bolt" "Door7" "SN3")
  else Failed "EOF".

Definition parse (rawURL : string) : call string :=
  if String.eqb rawURL "http://10.0.0.5:80/desc.xml" then Returned "10.0.0.5"
  else if String.eqb rawURL "http://10.0.0.6:80/desc.xml" then
    Returned "10.0.0.6"
  else if String.eqb rawURL "http://10.0.0.7:80/desc.xml" then
    Returned "10.0.0.7"
  else if String.eqb rawURL "http://cam1:8080/desc.xml" then Returned "cam1"
  else Failed "missing protocol scheme".

Definition env : Env := {|
  World := list string;
  Request := string;
  Body := string;
  URL := string;
  ssdp_Search := search;
  http_NewRequestWithContext := newRequest;
  http_Client_Do := do;
  io_ReadAll := readAll;
  Body_Close := close;
  xml_Unmarshal := unmarshal;
  url_Parse := parse;
  URL_Hostname := fun host => host
|}.

  (** No test value in the context. *)
Definition background : Context := mkContext None.

End Sim.

(** ** Facts about strings *)

Section StringFacts.

Lemma substring_0_app (p t : string) :
  substring 0 (String.length p) (p +:+ t) = p.
Proof.
  induction p as [|c p IH]; simpl.
  - destruct t; reflexivity.
  - f_equal. exact IH.
Qed.

Lemma substring_skip_app (p t : string) :
  substring (String.length p) (String.length t) (p +:+ t) = t.
Proof.
  induction p as [|c p IH]; simpl.
  - induction t as [|c t IHt]; simpl; [reflexivity | f_equal; exact IHt].
  - exact IH.
Qed.

Lemma length_append (p t : string) :
  String.length (p +:+ t) = String.length p + String.length t.
Proof. induction p as [|c p IH]; simpl; [reflexivity | f_equal; exact IH]. Qed.

Lemma substring_full (s : string) : substring 0 (String.length s) s = s.
Proof. induction s as [|c s IH]; simpl; [reflexivity | f_equal; exact IH]. Qed.

Lemma substring_split (n : nat) (s : string) :
  n <= String.length s ->
  s = substring 0 n s +:+ substring n (String.length s - n) s.
Proof.
  revert s. induction n as [|n IH]; intros s Hn.
  - rewrite Nat.sub_0_r, substring_full.
    destruct s; reflexivity.
  - destruct s as [|c s]; simpl in *; [lia|].
    change (String c s
            = String c (substring 0 n s +:+ substring n (String.length s - n) s)).
    f_equal. apply IH. lia.
Qed.

Lemma HasPrefix_spec (s p : string) :
  strings.HasPrefix s p = true <-> exists t, s = p +:+ t.
Proof.
  unfold strings.HasPrefix. rewrite andb_true_iff, Nat.leb_le, String.eqb_eq.
  split.
  - intros [Hlen Hsub].
    exists (substring (String.length p) (String.length s - String.length p) s).
    rewrite <- Hsub at 1. apply substring_split. exact Hlen.
  - intros [t ->]. split.
    + rewrite length_append. lia.
    + apply substring_0_app.
Qed.

Lemma HasSuffix_spec (s x : string) :
  strings.HasSuffix s x = true <-> exists p, s = p +:+ x.
Proof.
  unfold strings.HasSuffix. rewrite andb_true_iff, Nat.leb_le, String.eqb_eq.
  split.
  - intros [Hlen Hsub].
    exists (substring 0 (String.length s - String.length x) s).
    pose proof (substring_split (String.length s - String.length x) s) as H.
    replace (String.length s - (String.length s - String.length x))
      with (String.length x) in H by lia.
    rewrite Hsub in H. apply H. lia.
  - intros [p ->]. split.
    + rewrite length_append. lia.
    + rewrite length_append.
      replace (String.length p + String.length x - String.length x)
        with (String.length p) by lia.
      apply substring_skip_app.
Qed.

Lemma append_inj_l (p q x : string) : p +:+ x = q +:+ x -> p = q.
Proof.
  revert q. induction p as [|c p IH]; intros [|d q] H.
  - reflexivity.
  - exfalso. apply (f_equal String.length) in H.
    rewrite !length_append in H. simpl in H. lia.
  - exfalso. apply (f_equal String.length) in H.
    rewrite !length_append in H. simpl in H. lia.
  - change (String c (p +:+ x) = String d (q +:+ x)) in H.
    injection H as -> H. f_equal. apply IH. exact H.
Qed.

End StringFacts.

(** ** The field-level matcher *)

(** C2. [matches P s] is true exactly when [P] equals [s], or [P] ends with
    the two-character suffix [".*"] and [s] starts with [P] stripped of that
    suffix. *)
Theorem matches_iff (P s : string) :
  Common.matches P s = true <->
  P = s \/ exists p, P = p +:+ ".*" /\ exists t, s = p +:+ t.
Proof.
  unfold Common.matches.
  destruct (String.eqb_spec P s) as [->|Hne]; [tauto|].
  destruct (strings.HasSuffix P ".*") eqn:Hsuf.
  - apply HasSuffix_spec in Hsuf as [p ->].
    rewrite length_append. simpl String.length.
    replace (String.length p + 2 - 2) with (String.length p) by lia.
    rewrite substring_0_app, HasPrefix_spec.
    split.
    + intros Ht. right. exists p. split; [reflexivity | exact Ht].
    + intros [Heq | (q & Hq & Ht)]; [contradiction|].
      apply append_inj_l in Hq. subst q. exact Ht.
  - split; [discriminate|].
    intros [Heq | (p & -> & _)]; [contradiction|].
    assert (strings.HasSuffix (p +:+ ".*") ".*" = true) as Hx
      by (apply HasSuffix_spec; eexists; reflexivity).
    congruence.
Qed.

(** ** Facts about [slices.Contains] and first appearances *)

Section Distinct.

Lemma Contains_In (s : list string) (v : string) :
  slices.Contains s v = true <-> In v s.
Proof.
  induction s as [|x s IH]; simpl.
  - split; [discriminate | tauto].
  - destruct (String.eqb_spec v x) as [->|Hne].
    + tauto.
    + rewrite IH. split; [tauto|]. intros [Hx|Hin]; [congruence | exact Hin].
Qed.

Lemma Contains_app (s t : list string) (v : string) :
  slices.Contains (s ++ t) v = slices.Contains s v || slices.Contains t v.
Proof.
  induction s as [|x s IH]; simpl; [reflexivity|].
  destruct (String.eqb v x); [reflexivity | exact IH].
Qed.

Lemma filter_filter {A : Type} (f g : A -> bool) (l : list A) :
  List.filter f (List.filter g l) = List.filter (fun y => g y && f y) l.
Proof.
  induction l as [|x l IH]; simpl; [reflexivity|].
  destruct (g x); simpl; [destruct (f x)|]; rewrite IH; reflexivity.
Qed.

Lemma fold_add_distinct (l acc : list string) :
  fold_left add_distinct l acc
  = acc ++ List.filter (fun y => negb (slices.Contains acc y))
                       (distinct_in_order l).
Proof.
  revert acc. induction l as [|x t IH]; intros acc; simpl.
  - rewrite app_nil_r. reflexivity.
  - rewrite IH. unfold add_distinct.
    destruct (slices.Contains acc x) eqn:Hx; simpl.
    + f_equal. rewrite filter_filter. apply List.filter_ext. intros y.
      destruct (String.eqb_spec y x) as [->|Hne]; simpl; [|reflexivity].
      rewrite Hx. reflexivity.
    + rewrite <- app_assoc. simpl. do 2 f_equal.
      rewrite filter_filter. apply List.filter_ext. intros y.
      rewrite Contains_app. simpl.
      destruct (slices.Contains acc y), (String.eqb y x); reflexivity.
Qed.

Lemma distinct_in_order_In (l : list string) (x : string) :
  In x (distinct_in_order l) <-> In x l.
Proof.
  induction l as [|y t IH]; simpl; [tauto|].
  rewrite List.filter_In, IH, negb_true_iff.
  destruct (String.eqb_spec x y) as [->|Hne]; [tauto|].
  split; [tauto|]. intros [Hy|Hin]; [congruence | tauto].
Qed.

Lemma distinct_in_order_NoDup (l : list string) :
  List.NoDup (distinct_in_order l).
Proof.
  induction l as [|y t IH]; simpl; constructor.
  - rewrite List.filter_In, negb_true_iff, String.eqb_refl.
    intros [_ H]. discriminate.
  - apply List.NoDup_filter. exact IH.
Qed.

Lemma distinct_in_order_filter (p : string -> bool) (l : list string) :
  List.filter p (distinct_in_order l) = distinct_in_order (List.filter p l).
Proof.
  induction l as [|x t IH]; simpl; [reflexivity|].
  destruct (p x) eqn:Hp; simpl.
  - f_equal. rewrite <- IH, !filter_filter.
    apply List.filter_ext. intros y. apply andb_comm.
  - rewrite <- IH, filter_filter. apply List.filter_ext. intros y.
    destruct (String.eqb_spec y x) as [->|Hne]; simpl; [|reflexivity].
    rewrite Hp. reflexivity.
Qed.

Lemma FindGo_parseNetworks_loop_fold (queries : list FindGo.DeviceQuery)
    (networks : list string) :
  FindGo.parseNetworks_loop queries networks
  = fold_left add_distinct (map FindGo.Network queries) networks.
Proof.
  revert networks. induction queries as [|q rest IH]; intros networks; simpl.
  - reflexivity.
  - unfold add_distinct at 2.
    destruct (negb (slices.Contains networks (FindGo.Network q))); apply IH.
Qed.

Lemma Part000_parseNetworks_loop_nil (queries : list Part000.DeviceQuery) :
  Part000.parseNetworks_loop queries [] = [].
Proof.
  induction queries as [|q rest IH]; simpl; [reflexivity|].
  rewrite andb_false_r. exact IH.
Qed.

End Distinct.

(** ** The set of networks *)

(** C1, as the code has it.  In find.go, [parseNetworks] returns the distinct
    [Network] fields of the queries, the empty one included, each exactly
    once and in order of first appearance; without the empty identifier this
    is the set of distinct non-empty networks.  The batch with networks
    eth0, eth0, wlan0 yields eth0, wlan0. *)
Theorem parseNetworks_distinct_in_order (queries : list FindGo.DeviceQuery) :
  FindGo.parseNetworks queries
  = distinct_in_order (map FindGo.Network queries)
  /\ List.NoDup (FindGo.parseNetworks queries)
  /\ (forall n : string,
        In n (FindGo.parseNetworks queries)
        <-> exists q, In q queries /\ FindGo.Network q = n)
  /\ List.filter (fun n => negb (String.eqb n ""))
                 (FindGo.parseNetworks queries)
     = distinct_nonempty (map FindGo.Network queries)
  /\ FindGo.parseNetworks
       [FindGo.mkDeviceQuery "" "" "" "eth0";
        FindGo.mkDeviceQuery "" "" "" "eth0";
        FindGo.mkDeviceQuery "" "" "" "wlan0"]
     = ["eth0"; "wlan0"].
Proof.
  assert (FindGo.parseNetworks queries
          = distinct_in_order (map FindGo.Network queries)) as Heq.
  { unfold FindGo.parseNetworks.
    rewrite FindGo_parseNetworks_loop_fold, fold_add_distinct. simpl.
    clear. induction (distinct_in_order _) as [|x l IH]; simpl;
      [reflexivity | f_equal; exact IH]. }
  rewrite Heq. repeat split.
  - apply distinct_in_order_NoDup.
  - rewrite distinct_in_order_In, List.in_map_iff.
    intros (q & Hq & Hin). exists q. tauto.
  - rewrite distinct_in_order_In, List.in_map_iff.
    intros (q & Hin & Hq). exists q. tauto.
  - apply distinct_in_order_filter.
Qed.

(** C1 fails as stated: in find.go a query with an empty [Network] puts the
    empty identifier into the set, and in part_000 the batch with networks
    eth0, eth0, wlan0 yields no network at all. *)
Lemma parseNetworks_not_distinct_nonempty :
  FindGo.parseNetworks [FindGo.mkDeviceQuery "CamX.*" "" "" ""]
  <> distinct_nonempty
       (map FindGo.Network [FindGo.mkDeviceQuery "CamX.*" "" "" ""])
  /\ Part000.parseNetworks
       [Part000.mkDeviceQuery "" "" "" "eth0" [];
        Part000.mkDeviceQuery "" "" "" "eth0" [];
        Part000.mkDeviceQuery "" "" "" "wlan0" []]
     <> ["eth0"; "wlan0"].
Proof. split; vm_compute; discriminate. Qed.

(** C9. In part_000, [parseNetworks] returns the empty list for every
    batch, so [findAll], without the test value in the context, searches no
    network and returns no device record and no error. *)
Theorem parseNetworks_part000_empty (E : Env) (ctx : Context)
    (queries : list Part000.DeviceQuery) (rootOnly : bool) (w : World)
    (Hctx : Value_FindAllTestKey ctx = None) :
  Part000.parseNetworks queries = []
  /\ Part000.findAll ctx (Part000.parseNetworks queries) rootOnly w
     = (Ok ([], None), w, [Println_yo_all 0]).
Proof.
  assert (Part000.parseNetworks queries = []) as Hnil
    by apply Part000_parseNetworks_loop_nil.
  split; [exact Hnil|].
  rewrite Hnil. unfold Part000.findAll. rewrite Hctx. reflexivity.
Qed.

Lemma parseNetworks_part000_empty_witness :
  Part000.parseNetworks
    [Part000.mkDeviceQuery "CamX.*" "" "" "eth0" [];
     Part000.mkDeviceQuery "" "Acme" "" "eth0" ["a"]]
  = []
  /\ Part000.findAll (E := Sim.env) Sim.background
       (Part000.parseNetworks
          [Part000.mkDeviceQuery "CamX.*" "" "" "eth0" [];
           Part000.mkDeviceQuery "" "Acme" "" "eth0" ["a"]])
       true []
     = (Ok ([], None), [], [Println_yo_all 0]).
Proof.
  apply (parseNetworks_part000_empty Sim.env Sim.background
           [Part000.mkDeviceQuery "CamX.*" "" "" "eth0" [];
            Part000.mkDeviceQuery "" "Acme" "" "eth0" ["a"]]
           true []).
  reflexivity.
Defined.

(** ** The matcher of device records *)

(** C3. On a device record with a descriptor, [Matches] returns true exactly
    when each of [ModelName], [Manufacturer] and [SerialNumber] of the query
    is empty or satisfies [matches] against the same field of the
    descriptor; a query with these three fields empty matches every device
    record; [Network] and [Endpoints] do not change the result.  Both
    variants. *)
Theorem Matches_iff (pc : UPNPDevice) (desc : deviceDesc)
    (Hdesc : Desc pc = Some desc) :
  (forall query : FindGo.DeviceQuery,
     exists b : bool,
       FindGo.Matches pc query = Some b
       /\ (b = true <->
           (FindGo.ModelName query = ""
            \/ matches (FindGo.ModelName query) (ModelName (Device desc))
               = true)
           /\ (FindGo.Manufacturer query = ""
               \/ matches (FindGo.Manufacturer query)
                          (Manufacturer (Device desc)) = true)
           /\ (FindGo.SerialNumber query = ""
               \/ matches (FindGo.SerialNumber query)
                          (SerialNumber (Device desc)) = true)))
  /\ (forall query : Part000.DeviceQuery,
        exists b : bool,
          Part000.Matches pc query = Some b
          /\ (b = true <->
              (Part000.ModelName query = ""
               \/ matches (Part000.ModelName query) (ModelName (Device desc))
                  = true)
              /\ (Part000.Manufacturer query = ""
                  \/ matches (Part000.Manufacturer query)
                             (Manufacturer (Device desc)) = true)
              /\ (Part000.SerialNumber query = ""
                  \/ matches (Part000.SerialNumber query)
                             (SerialNumber (Device desc)) = true)))
  /\ (forall (a : UPNPDevice) (network : string) (endpoints : list string),
        FindGo.Matches a (FindGo.mkDeviceQuery "" "" "" network) = Some true
        /\ Part000.Matches a
             (Part000.mkDeviceQuery "" "" "" network endpoints)
           = Some true)
  /\ (forall (model manufacturer serial network network' : string)
             (endpoints endpoints' : list string),
        FindGo.Matches pc
          (FindGo.mkDeviceQuery model manufacturer serial network)
        = FindGo.Matches pc
            (FindGo.mkDeviceQuery model manufacturer serial network')
        /\ Part000.Matches pc
             (Part000.mkDeviceQuery model manufacturer serial network
                                    endpoints)
           = Part000.Matches pc
               (Part000.mkDeviceQuery model manufacturer serial network'
                                      endpoints')).
Proof.
  split; [|split; [|split]].
  - intros [m f s n]. unfold FindGo.Matches. rewrite Hdesc. simpl.
    destruct (String.eqb_spec m "") as [->|Hm],
             (String.eqb_spec f "") as [->|Hf],
             (String.eqb_spec s "") as [->|Hs]; simpl;
      repeat match goal with
             | |- context [matches ?q ?x] => destruct (matches q x); simpl
             end;
      eexists; (split; [reflexivity|]); intuition congruence.
  - intros [m f s n e]. unfold Part000.Matches. rewrite Hdesc. simpl.
    destruct (String.eqb_spec m "") as [->|Hm],
             (String.eqb_spec f "") as [->|Hf],
             (String.eqb_spec s "") as [->|Hs]; simpl;
      repeat match goal with
             | |- context [matches ?q ?x] => destruct (matches q x); simpl
             end;
      eexists; (split; [reflexivity|]); intuition congruence.
  - intros a network endpoints. split; reflexivity.
  - intros. split; reflexivity.
Qed.

Lemma Matches_iff_witness :
  exists b : bool,
    FindGo.Matches
      (mkUPNPDevice (Sim.advert "http://10.0.0.5:80/desc.xml")
                    (Some (Sim.descOf "Acme" "CamX200" "SN1")))
      (FindGo.mkDeviceQuery "CamX.*" "" "SN2" "eth0")
    = Some b
    /\ (b = true <->
        ("CamX.*" = "" \/ matches "CamX.*" "CamX200" = true)
        /\ ("" = "" \/ matches "" "Acme" = true)
        /\ ("SN2" = "" \/ matches "SN2" "SN1" = true)).
Proof.
  apply (proj1 (Matches_iff
                  (mkUPNPDevice (Sim.advert "http://10.0.0.5:80/desc.xml")
                                (Some (Sim.descOf "Acme" "CamX200" "SN1")))
                  (Sim.descOf "Acme" "CamX200" "SN1")
                  eq_refl)
               (FindGo.mkDeviceQuery "CamX.*" "" "SN2" "eth0")).
Defined.

(** ** The descriptor fetcher *)

Section Fetch.
  Context {E : Env} {Q : Type}.

Lemma readDeviceDesc_returns (ctx : Context) (url : string) (w : World) :
  exists (r : option deviceDesc * option (error Q)) (w' : World),
    readDeviceDesc ctx url w = (Ok r, w', [])
    /\ (snd r = None -> is_Some (fst r))
    /\ (is_Some (snd r) -> fst r = None).
Proof.
  unfold readDeviceDesc.
  destruct (http_NewRequestWithContext http.MethodGet url) as [req|err].
  2:{ eexists _, _. split; [reflexivity|]. simpl. split; [discriminate|done]. }
  unfold mbind, M_bind, bind, perform, ret.
  destruct (http_Client_Do req w) as [[resp|err] w1].
  2:{ eexists _, _. split; [reflexivity|]. simpl. split; [discriminate|done]. }
  destruct (negb (http.StatusCode resp =? http.StatusOK)%Z).
  { eexists _, _. split; [reflexivity|]. simpl. split; [discriminate|done]. }
  destruct (io_ReadAll (http.Body_ resp) w1) as [[data|err] w2].
  2:{ eexists _, _. split; [reflexivity|]. simpl. split; [discriminate|done]. }
  unfold parseDeviceDesc.
  destruct (xml_Unmarshal data) as [desc|err];
    eexists _, _; (split; [reflexivity|]); simpl.
  - split; [eauto | intros [? ?]; discriminate].
  - split; [discriminate|done].
Qed.

End Fetch.

(** C10. [readDeviceDesc] takes only status 200 as success: when the
    response has another status, 201 or 204 included, it returns no
    descriptor and the error that carries the URL and the status; and
    whenever it returns without an error the descriptor pointer is not nil. *)
Theorem readDeviceDesc_only_200 (E : Env) (Q : Type) (ctx : Context)
    (url : string) (req : Request) (resp : http.Response Body)
    (w w1 : World)
    (Hreq : http_NewRequestWithContext http.MethodGet url = Returned req)
    (Hdo : http_Client_Do req w = (Returned resp, w1))
    (Hstatus : http.StatusCode resp <> 200%Z) :
  readDeviceDesc (Q := Q) ctx url w
  = (Ok (None, Some (ErrNotOK url (http.StatusCode resp))),
     Body_Close (http.Body_ resp) w1, [])
  /\ (forall (ctx' : Context) (url' : string) (w' w'' : World)
             (desc : option deviceDesc) (lg : list (LogEntry Q)),
        readDeviceDesc (Q := Q) ctx' url' w' = (Ok (desc, None), w'', lg) ->
        desc <> None).
Proof.
  split.
  - unfold readDeviceDesc. rewrite Hreq.
    unfold mbind, M_bind, bind, perform, ret. rewrite Hdo.
    destruct (Z.eqb_spec (http.StatusCode resp) http.StatusOK) as [Heq|Hne].
    + contradiction.
    + reflexivity.
  - intros ctx' url' w' w'' desc lg Hrun.
    destruct (readDeviceDesc_returns (Q := Q) ctx' url' w')
      as ([d e] & w2 & Heq & Hsome & _).
    rewrite Heq in Hrun. injection Hrun as -> -> _ _. simpl in Hsome.
    destruct (Hsome eq_refl) as [x ->]. discriminate.
Qed.

Lemma readDeviceDesc_only_200_witness :
  readDeviceDesc (E := Sim.env) (Q := FindGo.DeviceQuery) Sim.background
    "http://10.0.0.6:80/desc.xml" []
  = (Ok (None, Some (ErrNotOK "http://10.0.0.6:80/desc.xml" 204)),
     ["GET http://10.0.0.6:80/desc.xml"; "close"], []).
Proof.
  apply (proj1 (readDeviceDesc_only_200 Sim.env FindGo.DeviceQuery
                  Sim.background "http://10.0.0.6:80/desc.xml"
                  "http://10.0.0.6:80/desc.xml"
                  (http.mkResponse 204 "")
                  [] ["GET http://10.0.0.6:80/desc.xml"]
                  eq_refl eq_refl ltac:(discriminate))).
Defined.

(** ** The enumeration of device records *)

Ltac run_monad :=
  unfold mbind, M_bind, bind, ret, log, perform, orPanic, panic; simpl.

Ltac loop_cons Hfetch Hrest :=
  simpl; unfold mbind, M_bind, bind, log; simpl;
  rewrite Hfetch; simpl; rewrite Hrest; reflexivity.

Section Enumeration.
  Context {E : Env}.

Lemma FindGo_findAll_loop_fail ctx srv rest all w desc err w1 lg r w2 lg2 :
  readDeviceDesc ctx (ssdp.Location srv) w = (Ok (desc, Some err), w1, lg) ->
  FindGo.findAll_loop ctx rest all w1 = (r, w2, lg2) ->
  FindGo.findAll_loop ctx (srv :: rest) all w
  = (r, w2,
     Debugf_found_service (ssdp.Type_ srv) (ssdp.Location srv)
     :: lg ++ Warnf_cannot_read_description err :: lg2).
Proof. intros Hfetch Hrest. loop_cons Hfetch Hrest. Qed.

Lemma FindGo_findAll_loop_ok ctx srv rest all w desc w1 lg r w2 lg2 :
  readDeviceDesc ctx (ssdp.Location srv) w = (Ok (desc, None), w1, lg) ->
  FindGo.findAll_loop ctx rest (all ++ [mkUPNPDevice srv desc]) w1
  = (r, w2, lg2) ->
  FindGo.findAll_loop ctx (srv :: rest) all w
  = (r, w2,
     Debugf_found_service (ssdp.Type_ srv) (ssdp.Location srv)
     :: lg ++ Debugf_got_description desc :: lg2).
Proof. intros Hfetch Hrest. loop_cons Hfetch Hrest. Qed.

Lemma Part000_findAll_services_fail ctx srv rest all w desc err w1 lg
    r w2 lg2 :
  readDeviceDesc ctx (ssdp.Location srv) w = (Ok (desc, Some err), w1, lg) ->
  Part000.findAll_services ctx rest all w1 = (r, w2, lg2) ->
  Part000.findAll_services ctx (srv :: rest) all w
  = (r, w2,
     Debugf_found_service (ssdp.Type_ srv) (ssdp.Location srv)
     :: lg ++ Warnf_cannot_read_description err :: lg2).
Proof. intros Hfetch Hrest. loop_cons Hfetch Hrest. Qed.

Lemma Part000_findAll_services_ok ctx srv rest all w desc w1 lg r w2 lg2 :
  readDeviceDesc ctx (ssdp.Location srv) w = (Ok (desc, None), w1, lg) ->
  Part000.findAll_services ctx rest (all ++ [mkUPNPDevice srv desc]) w1
  = (r, w2, lg2) ->
  Part000.findAll_services ctx (srv :: rest) all w
  = (r, w2,
     Debugf_found_service (ssdp.Type_ srv) (ssdp.Location srv)
     :: lg ++ Debugf_got_description desc :: lg2).
Proof. intros Hfetch Hrest. loop_cons Hfetch Hrest. Qed.

  (** The loop returns, keeps the records it starts with, and every record
      it adds has a descriptor. *)
Lemma FindGo_findAll_loop_returns ctx list_ all w :
  exists more w' lg,
    FindGo.findAll_loop ctx list_ all w = (Ok (all ++ more), w', lg)
    /\ Forall (fun a => Desc a <> None) more.
Proof.
  revert all w. induction list_ as [|srv rest IH]; intros all w.
  - exists [], w, []. rewrite app_nil_r. split; [reflexivity | constructor].
  - destruct (readDeviceDesc_returns (Q := FindGo.DeviceQuery) ctx
                (ssdp.Location srv) w) as ([desc [err|]] & w1 & Hf & Hs & _).
    + destruct (IH all w1) as (more & w' & lg & Hrest & Hmore).
      exists more, w'. eexists. split; [|exact Hmore].
      eapply FindGo_findAll_loop_fail; eassumption.
    + destruct (IH (all ++ [mkUPNPDevice srv desc]) w1)
        as (more & w' & lg & Hrest & Hmore).
      exists (mkUPNPDevice srv desc :: more), w'. eexists. split.
      * rewrite <- app_assoc in Hrest.
        eapply FindGo_findAll_loop_ok; eassumption.
      * constructor; [|exact Hmore]. simpl.
        destruct (Hs eq_refl) as [x Hx]. simpl in Hx. rewrite Hx. discriminate.
Qed.

Lemma Part000_findAll_services_returns ctx list_ all w :
  exists more w' lg,
    Part000.findAll_services ctx list_ all w = (Ok (all ++ more), w', lg)
    /\ Forall (fun a => Desc a <> None) more.
Proof.
  revert all w. induction list_ as [|srv rest IH]; intros all w.
  - exists [], w, []. rewrite app_nil_r. split; [reflexivity | constructor].
  - destruct (readDeviceDesc_returns (Q := Part000.DeviceQuery) ctx
                (ssdp.Location srv) w) as ([desc [err|]] & w1 & Hf & Hs & _).
    + destruct (IH all w1) as (more & w' & lg & Hrest & Hmore).
      exists more, w'. eexists. split; [|exact Hmore].
      eapply Part000_findAll_services_fail; eassumption.
    + destruct (IH (all ++ [mkUPNPDevice srv desc]) w1)
        as (more & w' & lg & Hrest & Hmore).
      exists (mkUPNPDevice srv desc :: more), w'. eexists. split.
      * rewrite <- app_assoc in Hrest.
        eapply Part000_findAll_services_ok; eassumption.
      * constructor; [|exact Hmore]. simpl.
        destruct (Hs eq_refl) as [x Hx]. simpl in Hx. rewrite Hx. discriminate.
Qed.

  (** The loop over [l1 ++ l2] is the loop over [l1] followed by the loop
      over [l2]. *)
Lemma FindGo_findAll_loop_app ctx l1 l2 all w all1 w1 lg1 r w2 lg2 :
  FindGo.findAll_loop ctx l1 all w = (Ok all1, w1, lg1) ->
  FindGo.findAll_loop ctx l2 all1 w1 = (r, w2, lg2) ->
  FindGo.findAll_loop ctx (l1 ++ l2) all w = (r, w2, lg1 ++ lg2).
Proof.
  revert all w lg1. induction l1 as [|srv rest IH]; intros all w lg1 H1 H2.
  - injection H1 as -> -> <-. exact H2.
  - destruct (readDeviceDesc_returns (Q := FindGo.DeviceQuery) ctx
                (ssdp.Location srv) w) as ([desc [err|]] & w0 & Hf & _).
    + destruct (FindGo.findAll_loop ctx rest all w0) as [[r0 w3] lg3] eqn:Hr.
      rewrite (FindGo_findAll_loop_fail _ _ _ _ _ _ _ _ _ _ _ _ Hf Hr) in H1.
      injection H1 as -> -> <-.
      rewrite <- app_comm_cons.
      erewrite FindGo_findAll_loop_fail;
        [| exact Hf | eapply IH; [exact Hr | exact H2]].
      reflexivity.
    + destruct (FindGo.findAll_loop ctx rest (all ++ [mkUPNPDevice srv desc])
                  w0) as [[r0 w3] lg3] eqn:Hr.
      rewrite (FindGo_findAll_loop_ok _ _ _ _ _ _ _ _ _ _ _ Hf Hr) in H1.
      injection H1 as -> -> <-.
      rewrite <- app_comm_cons.
      erewrite FindGo_findAll_loop_ok;
        [| exact Hf | eapply IH; [exact Hr | exact H2]].
      reflexivity.
Qed.

Lemma Part000_findAll_services_app ctx l1 l2 all w all1 w1 lg1 r w2 lg2 :
  Part000.findAll_services ctx l1 all w = (Ok all1, w1, lg1) ->
  Part000.findAll_services ctx l2 all1 w1 = (r, w2, lg2) ->
  Part000.findAll_services ctx (l1 ++ l2) all w = (r, w2, lg1 ++ lg2).
Proof.
  revert all w lg1. induction l1 as [|srv rest IH]; intros all w lg1 H1 H2.
  - injection H1 as -> -> <-. exact H2.
  - destruct (readDeviceDesc_returns (Q := Part000.DeviceQuery) ctx
                (ssdp.Location srv) w) as ([desc [err|]] & w0 & Hf & _).
    + destruct (Part000.findAll_services ctx rest all w0)
        as [[r0 w3] lg3] eqn:Hr.
      rewrite (Part000_findAll_services_fail _ _ _ _ _ _ _ _ _ _ _ _ Hf Hr)
        in H1.
      injection H1 as -> -> <-.
      rewrite <- app_comm_cons.
      erewrite Part000_findAll_services_fail;
        [| exact Hf | eapply IH; [exact Hr | exact H2]].
      reflexivity.
    + destruct (Part000.findAll_services ctx rest
                  (all ++ [mkUPNPDevice srv desc]) w0)
        as [[r0 w3] lg3] eqn:Hr.
      rewrite (Part000_findAll_services_ok _ _ _ _ _ _ _ _ _ _ _ Hf Hr) in H1.
      injection H1 as -> -> <-.
      rewrite <- app_comm_cons.
      erewrite Part000_findAll_services_ok;
        [| exact Hf | eapply IH; [exact Hr | exact H2]].
      reflexivity.
Qed.

End Enumeration.

Section EnumerationErrors.
  Context {E : Env}.

Lemma FindGo_findAll_error ctx network rootOnly w all e w' lg :
  FindGo.findAll ctx network rootOnly w = (Ok (all, Some e), w', lg) ->
  exists c : cause,
    e = ErrLibrary c
    /\ ssdp_Search (if rootOnly then ssdp.RootDevice else ssdp.All) 1
                   network w
       = (Failed c, w').
Proof.
  unfold FindGo.findAll.
  destruct (Value_FindAllTestKey ctx) as [dev|]; [discriminate|].
  run_monad.
  destruct (ssdp_Search _ 1 network w) as [[list_|c] w1].
  - destruct (FindGo_findAll_loop_returns ctx list_ [] w1)
      as (more & w2 & lg2 & -> & _).
    discriminate.
  - intros H. injection H as _ <- <- _. exists c. split; reflexivity.
Qed.

Lemma FindGo_findAll_search_ok (ctx : Context) (network : string)
    (rootOnly : bool) (w : World) list_ w1 :
  Value_FindAllTestKey ctx = None ->
  ssdp_Search (if rootOnly then ssdp.RootDevice else ssdp.All) 1 network w
  = (Returned list_, w1) ->
  exists all w' lg,
    FindGo.findAll_loop ctx list_ [] w1 = (Ok all, w', lg)
    /\ FindGo.findAll ctx network rootOnly w = (Ok (all, None), w', lg)
    /\ Forall (fun a => Desc a <> None) all.
Proof.
  intros Hctx Hsearch. unfold FindGo.findAll. rewrite Hctx. run_monad.
  rewrite Hsearch.
  destruct (FindGo_findAll_loop_returns ctx list_ [] w1)
    as (more & w2 & lg2 & -> & Hmore).
  exists more, w2, lg2. rewrite app_nil_r. repeat split. exact Hmore.
Qed.

Lemma Part000_findAll_networks_error ctx searchType networks all w e w' lg :
  Part000.findAll_networks ctx searchType networks all w
  = (Ok (inl e), w', lg) ->
  exists (c : cause) (network : string) (w0 : World),
    e = ErrLibrary c /\ In network networks
    /\ ssdp_Search searchType 1 network w0 = (Failed c, w').
Proof.
  revert all w lg. induction networks as [|network rest IH]; intros all w lg.
  - discriminate.
  - simpl. run_monad.
    destruct (ssdp_Search searchType 1 network w) as [[list_|c] w1] eqn:Hs.
    + destruct (Part000_findAll_services_returns ctx list_ all w1)
        as (more & w2 & lg2 & -> & _).
      destruct (Part000.findAll_networks ctx searchType rest (all ++ more) w2)
        as [[r w3] lg3] eqn:Hr.
      intros H. injection H as -> -> _.
      destruct (IH _ _ _ Hr) as (c & n & w0 & He & Hin & Hf).
      exists c, n, w0. simpl. tauto.
    + intros H. injection H as <- <- _.
      exists c, network, w. simpl. tauto.
Qed.

Lemma Part000_findAll_search_ok (ctx : Context) (network : string)
    (rootOnly : bool) (w : World) list_ w1 :
  Value_FindAllTestKey ctx = None ->
  ssdp_Search (if rootOnly then ssdp.RootDevice else ssdp.All) 1 network w
  = (Returned list_, w1) ->
  exists all w' lg,
    Part000.findAll_services ctx list_ [] w1 = (Ok all, w', lg)
    /\ Part000.findAll ctx [network] rootOnly w
       = (Ok (all, None), w', lg ++ [Println_yo_all (length all)]).
Proof.
  intros Hctx Hsearch. unfold Part000.findAll. rewrite Hctx.
  cbn [Part000.findAll_networks]. run_monad. rewrite Hsearch.
  destruct (Part000_findAll_services_returns ctx list_ [] w1)
    as (more & w2 & lg2 & -> & _).
  exists more, w2, lg2. simpl. rewrite !app_nil_r. split; reflexivity.
Qed.

End EnumerationErrors.

(** C6. After a successful search, a failure to fetch or decode the
    descriptor of one advertisement drops that advertisement only: the loop
    goes on and returns what the remaining advertisements yield, an
    advertisement whose descriptor resolves yields its device record,
    [findAll] returns the records of the loop without an error, and an error
    of [findAll] is always the error of a search, never of a fetch.  Both
    variants. *)
Theorem findAll_isolates_fetch_failure (E : Env) :
  drops_failed_fetch FindGo.findAll_loop
  /\ keeps_resolved FindGo.findAll_loop
  /\ drops_failed_fetch Part000.findAll_services
  /\ keeps_resolved Part000.findAll_services
  /\ (forall (ctx : Context) (network : string) (rootOnly : bool)
             (w w1 : World) (list_ : list ssdp.Service),
        Value_FindAllTestKey ctx = None ->
        ssdp_Search (if rootOnly then ssdp.RootDevice else ssdp.All) 1
                    network w
        = (Returned list_, w1) ->
        (exists all w' lg,
           FindGo.findAll_loop ctx list_ [] w1 = (Ok all, w', lg)
           /\ FindGo.findAll ctx network rootOnly w
              = (Ok (all, None), w', lg))
        /\ (exists all w' lg,
              Part000.findAll_services ctx list_ [] w1 = (Ok all, w', lg)
              /\ Part000.findAll ctx [network] rootOnly w
                 = (Ok (all, None), w',
                    lg ++ [Println_yo_all (length all)])))
  /\ (forall ctx network rootOnly w all e w' lg,
        FindGo.findAll ctx network rootOnly w = (Ok (all, Some e), w', lg) ->
        exists c : cause,
          e = ErrLibrary c
          /\ ssdp_Search (if rootOnly then ssdp.RootDevice else ssdp.All) 1
                         network w
             = (Failed c, w'))
  /\ (forall ctx networks rootOnly w all e w' lg,
        Part000.findAll ctx networks rootOnly w = (Ok (all, Some e), w', lg) ->
        exists (c : cause) (network : string) (w0 : World),
          e = ErrLibrary c /\ In network networks
          /\ ssdp_Search (if rootOnly then ssdp.RootDevice else ssdp.All) 1
                         network w0
             = (Failed c, w')).
Proof.
  repeat apply conj.
  - intros ctx l1 srv l2 all all1 w w1 w2 lg1 lg2 desc err H1 Hf.
    destruct (FindGo_findAll_loop_returns ctx l2 all1 w2)
      as (more & w3 & lg3 & Hrest & _).
    exists more, w3, lg3. split; [exact Hrest|].
    eapply FindGo_findAll_loop_app; [exact H1|].
    eapply FindGo_findAll_loop_fail; eassumption.
  - intros ctx l1 srv l2 all all1 w w1 w2 lg1 lg2 desc H1 Hf.
    destruct (FindGo_findAll_loop_returns ctx l2
                (all1 ++ [mkUPNPDevice srv desc]) w2)
      as (more & w3 & lg3 & Hrest & _).
    rewrite <- app_assoc in Hrest.
    exists more, w3. eexists.
    eapply FindGo_findAll_loop_app; [exact H1|].
    eapply FindGo_findAll_loop_ok; eassumption.
  - intros ctx l1 srv l2 all all1 w w1 w2 lg1 lg2 desc err H1 Hf.
    destruct (Part000_findAll_services_returns ctx l2 all1 w2)
      as (more & w3 & lg3 & Hrest & _).
    exists more, w3, lg3. split; [exact Hrest|].
    eapply Part000_findAll_services_app; [exact H1|].
    eapply Part000_findAll_services_fail; eassumption.
  - intros ctx l1 srv l2 all all1 w w1 w2 lg1 lg2 desc H1 Hf.
    destruct (Part000_findAll_services_returns ctx l2
                (all1 ++ [mkUPNPDevice srv desc]) w2)
      as (more & w3 & lg3 & Hrest & _).
    rewrite <- app_assoc in Hrest.
    exists more, w3. eexists.
    eapply Part000_findAll_services_app; [exact H1|].
    eapply Part000_findAll_services_ok; eassumption.
  - intros ctx network rootOnly w w1 list_ Hctx Hsearch. split.
    + destruct (FindGo_findAll_search_ok _ _ _ _ _ _ Hctx Hsearch)
        as (all & w' & lg & Hloop & Hfind & _).
      exists all, w', lg. split; assumption.
    + apply Part000_findAll_search_ok; assumption.
  - intros ctx network rootOnly w all e w' lg.
    apply FindGo_findAll_error.
  - intros ctx networks rootOnly w all e w' lg. unfold Part000.findAll.
    destruct (Value_FindAllTestKey ctx) as [dev|]; [discriminate|].
    run_monad.
    destruct (Part000.findAll_networks ctx _ networks [] w)
      as [[[[e0|all0]|] w1] lg1] eqn:Hr; try discriminate.
    intros H. injection H as _ <- <- _.
    eapply Part000_findAll_networks_error. exact Hr.
Qed.

Lemma findAll_isolates_fetch_failure_witness :
  exists more w3 lg3,
    FindGo.findAll_loop (E := Sim.env) Sim.background
      [Sim.advert "http://10.0.0.7:80/desc.xml"]
      [mkUPNPDevice (Sim.advert "http://10.0.0.5:80/desc.xml")
                    (Some (Sim.descOf "Acme" "CamX200" "SN1"))]
      ["search eth0"; "GET http://10.0.0.5:80/desc.xml"; "read"; "close";
       "GET http://10.0.0.6:80/desc.xml"; "close"]
    = (Ok ([mkUPNPDevice (Sim.advert "http://10.0.0.5:80/desc.xml")
                         (Some (Sim.descOf "Acme" "CamX200" "SN1"))]
           ++ more), w3, lg3)
    /\ FindGo.findAll_loop (E := Sim.env) Sim.background
         ([Sim.advert "http://10.0.0.5:80/desc.xml"]
          ++ Sim.advert "http://10.0.0.6:80/desc.xml"
             :: [Sim.advert "http://10.0.0.7:80/desc.xml"])
         [] ["search eth0"]
       = (Ok ([mkUPNPDevice (Sim.advert "http://10.0.0.5:80/desc.xml")
                            (Some (Sim.descOf "Acme" "CamX200" "SN1"))]
              ++ more), w3,
          [Debugf_found_service "upnp:rootdevice"
             "http://10.0.0.5:80/desc.xml";
           Debugf_got_description (Some (Sim.descOf "Acme" "CamX200" "SN1"))]
          ++ Debugf_found_service "upnp:rootdevice"
               "http://10.0.0.6:80/desc.xml"
             :: [] ++ Warnf_cannot_read_description
                        (ErrNotOK "http://10.0.0.6:80/desc.xml" 204)
                :: lg3).
Proof.
  apply (proj1 (findAll_isolates_fetch_failure Sim.env) Sim.background
           [Sim.advert "http://10.0.0.5:80/desc.xml"]
           (Sim.advert "http://10.0.0.6:80/desc.xml")
           [Sim.advert "http://10.0.0.7:80/desc.xml"]
           []
           [mkUPNPDevice (Sim.advert "http://10.0.0.5:80/desc.xml")
                         (Some (Sim.descOf "Acme" "CamX200" "SN1"))]
           ["search eth0"]
           ["search eth0"; "GET http://10.0.0.5:80/desc.xml"; "read"; "close"]
           ["search eth0"; "GET http://10.0.0.5:80/desc.xml"; "read"; "close";
            "GET http://10.0.0.6:80/desc.xml"; "close"]
           [Debugf_found_service "upnp:rootdevice"
              "http://10.0.0.5:80/desc.xml";
            Debugf_got_description (Some (Sim.descOf "Acme" "CamX200" "SN1"))]
           [] None (ErrNotOK "http://10.0.0.6:80/desc.xml" 204)).
  - reflexivity.
  - reflexivity.
Defined.

(** ** Discovery failures *)

Section Networks.
  Context {E : Env}.

Lemma FindGo_FindHost_networks_app ctx queries rootOnly pre post hs fq w
    hs1 fq1 w1 lg1 r w2 lg2 :
  FindGo.FindHost_networks ctx queries rootOnly pre hs fq w
  = (Ok (inr (hs1, fq1)), w1, lg1) ->
  FindGo.FindHost_networks ctx queries rootOnly post hs1 fq1 w1
  = (r, w2, lg2) ->
  FindGo.FindHost_networks ctx queries rootOnly (pre ++ post) hs fq w
  = (r, w2, lg1 ++ lg2).
Proof.
  revert hs fq w lg1. induction pre as [|network rest IH];
    intros hs fq w lg1 H1 H2.
  - injection H1 as -> -> -> <-. exact H2.
  - simpl in H1 |- *. unfold mbind, M_bind, bind in H1 |- *.
    destruct (FindGo.findAll ctx network rootOnly w)
      as [[[[all [err|]]|] w3] lg3]; try discriminate.
    destruct (FindGo.FindHost_devices all queries hs fq w3)
      as [[[[hs4 fq4]|] w4] lg4]; try discriminate.
    destruct (FindGo.FindHost_networks ctx queries rootOnly rest hs4 fq4 w4)
      as [[r5 w5] lg5] eqn:H5.
    injection H1 as -> -> <-.
    rewrite (IH _ _ _ _ H5 H2). rewrite <- !app_assoc. reflexivity.
Qed.

Lemma FindGo_findAll_search_fails (ctx : Context) (network : string)
    (rootOnly : bool) (w w1 : World) (c : cause) :
  Value_FindAllTestKey ctx = None ->
  ssdp_Search (if rootOnly then ssdp.RootDevice else ssdp.All) 1 network w
  = (Failed c, w1) ->
  FindGo.findAll ctx network rootOnly w
  = (Ok ([], Some (ErrLibrary c)), w1, []).
Proof.
  intros Hctx Hs. unfold FindGo.findAll. rewrite Hctx. run_monad.
  rewrite Hs. reflexivity.
Qed.

Lemma Part000_findAll_networks_app ctx searchType pre post all w all1 w1 lg1
    r w2 lg2 :
  Part000.findAll_networks ctx searchType pre all w
  = (Ok (inr all1), w1, lg1) ->
  Part000.findAll_networks ctx searchType post all1 w1 = (r, w2, lg2) ->
  Part000.findAll_networks ctx searchType (pre ++ post) all w
  = (r, w2, lg1 ++ lg2).
Proof.
  revert all w lg1. induction pre as [|network rest IH];
    intros all w lg1 H1 H2.
  - injection H1 as -> -> <-. exact H2.
  - simpl in H1 |- *. unfold mbind, M_bind, bind, perform in H1 |- *.
    destruct (ssdp_Search searchType 1 network w) as [[list_|c] w3];
      try discriminate.
    destruct (Part000.findAll_services ctx list_ all w3)
      as [[[all4|] w4] lg4]; try discriminate.
    destruct (Part000.findAll_networks ctx searchType rest all4 w4)
      as [[r5 w5] lg5] eqn:H5.
    injection H1 as -> -> <-.
    rewrite (IH _ _ _ H5 H2). simpl. rewrite <- !app_assoc. reflexivity.
Qed.

End Networks.

(** C5. When the search of a network fails, the call stops there and
    returns that error with an empty list: in find.go [FindHost] returns
    the error, no hostname and the nil map, whatever was collected from the
    networks before; in part_000 [findAll] returns the error and no device
    record.  The world is the one the failed search leaves: no later network
    is searched and no descriptor is fetched. *)
Theorem search_failure_aborts (E : Env) (ctx : Context) (rootOnly : bool)
    (queries : list FindGo.DeviceQuery) (pre post : list string)
    (network : string) (hostnames : list string)
    (foundQueries : gmap string FindGo.DeviceQuery)
    (w w1 w2 : World) (lg : list (LogEntry FindGo.DeviceQuery)) (c : cause)
    (Hctx : Value_FindAllTestKey ctx = None)
    (Hnetworks : FindGo.parseNetworks queries = pre ++ network :: post)
    (Hbefore : FindGo.FindHost_networks ctx queries rootOnly pre [] ∅ w
               = (Ok (inr (hostnames, foundQueries)), w1, lg))
    (Hfails : ssdp_Search (if rootOnly then ssdp.RootDevice else ssdp.All) 1
                          network w1
              = (Failed c, w2)) :
  FindGo.FindHost ctx queries rootOnly w
  = (Ok ([], None, Some (ErrLibrary c)), w2, lg)
  /\ (forall (pre' post' : list string) (network' : string)
             (all : list UPNPDevice) (v v1 v2 : World)
             (lg' : list (LogEntry Part000.DeviceQuery)) (c' : cause),
        Part000.findAll_networks ctx
          (if rootOnly then ssdp.RootDevice else ssdp.All) pre' [] v
        = (Ok (inr all), v1, lg') ->
        ssdp_Search (if rootOnly then ssdp.RootDevice else ssdp.All) 1
                    network' v1
        = (Failed c', v2) ->
        Part000.findAll ctx (pre' ++ network' :: post') rootOnly v
        = (Ok ([], Some (ErrLibrary c')), v2, lg')).
Proof.
  split.
  - unfold FindGo.FindHost. rewrite Hnetworks.
    assert (FindGo.FindHost_networks ctx queries rootOnly (network :: post)
              hostnames foundQueries w1
            = (Ok (inl (ErrLibrary c)), w2, [])) as Hstop.
    { simpl. unfold mbind, M_bind, bind.
      rewrite (FindGo_findAll_search_fails _ _ _ _ _ _ Hctx Hfails).
      reflexivity. }
    unfold mbind, M_bind, bind.
    rewrite (FindGo_FindHost_networks_app _ _ _ _ _ _ _ _ _ _ _ _ _ _ _
               Hbefore Hstop).
    simpl. rewrite !app_nil_r. reflexivity.
  - intros pre' post' network' all v v1 v2 lg' c' Hpre Hfails'.
    unfold Part000.findAll. rewrite Hctx.
    assert (Part000.findAll_networks ctx
              (if rootOnly then ssdp.RootDevice else ssdp.All)
              (network' :: post') all v1
            = (Ok (inl (ErrLibrary c')), v2, [])) as Hstop.
    { simpl. unfold mbind, M_bind, bind, perform. rewrite Hfails'.
      reflexivity. }
    unfold mbind, M_bind, bind.
    rewrite (Part000_findAll_networks_app _ _ _ _ _ _ _ _ _ _ _ _
               Hpre Hstop).
    simpl. rewrite !app_nil_r. reflexivity.
Qed.

Lemma search_failure_aborts_witness :
  FindGo.FindHost (E := Sim.env) Sim.background
    [FindGo.mkDeviceQuery "CamX.*" "" "" "eth0";
     FindGo.mkDeviceQuery "" "" "" "lo9";
     FindGo.mkDeviceQuery "" "" "" "wlan0"]
    true []
  = (Ok ([], None, Some (ErrLibrary "no such interface")),
     ["search eth0"; "GET http://10.0.0.5:80/desc.xml"; "read"; "close";
      "GET http://10.0.0.6:80/desc.xml"; "close";
      "GET http://10.0.0.7:80/desc.xml"; "read"; "close"; "search lo9"],
     [Debugf_found_service "upnp:rootdevice" "http://10.0.0.5:80/desc.xml";
      Debugf_got_description (Some (Sim.descOf "Acme" "CamX200" "SN1"));
      Debugf_found_service "upnp:rootdevice" "http://10.0.0.6:80/desc.xml";
      Warnf_cannot_read_description
        (ErrNotOK "http://10.0.0.6:80/desc.xml" 204);
      Debugf_found_service "upnp:rootdevice" "http://10.0.0.7:80/desc.xml";
      Debugf_got_description (Some (Sim.descOf "Bolt" "Door7" "SN3"))])
  /\ Part000.findAll (E := Sim.env) Sim.background
       (["eth0"] ++ "lo9" :: ["wlan0"]) true []
     = (Ok ([], Some (ErrLibrary "no such interface")),
        ["search eth0"; "GET http://10.0.0.5:80/desc.xml"; "read"; "close";
         "GET http://10.0.0.6:80/desc.xml"; "close";
         "GET http://10.0.0.7:80/desc.xml"; "read"; "close"; "search lo9"],
        [Debugf_found_service "upnp:rootdevice" "http://10.0.0.5:80/desc.xml";
         Debugf_got_description (Some (Sim.descOf "Acme" "CamX200" "SN1"));
         Debugf_found_service "upnp:rootdevice" "http://10.0.0.6:80/desc.xml";
         Warnf_cannot_read_description
           (ErrNotOK "http://10.0.0.6:80/desc.xml" 204);
         Debugf_found_service "upnp:rootdevice" "http://10.0.0.7:80/desc.xml";
         Debugf_got_description (Some (Sim.descOf "Bolt" "Door7" "SN3"))]).
Proof.
  assert (FindGo.FindHost_networks (E := Sim.env) Sim.background
            [FindGo.mkDeviceQuery "CamX.*" "" "" "eth0";
             FindGo.mkDeviceQuery "" "" "" "lo9";
             FindGo.mkDeviceQuery "" "" "" "wlan0"]
            true ["eth0"] [] ∅ []
          = (Ok (inr (["10.0.0.5"; "10.0.0.7"],
                      <["10.0.0.7" := FindGo.mkDeviceQuery "" "" "" "lo9"]>
                        (<["10.0.0.5" :=
                             FindGo.mkDeviceQuery "CamX.*" "" "" "eth0"]>
                           ∅))),
             ["search eth0"; "GET http://10.0.0.5:80/desc.xml"; "read";
              "close"; "GET http://10.0.0.6:80/desc.xml"; "close";
              "GET http://10.0.0.7:80/desc.xml"; "read"; "close"],
             [Debugf_found_service "upnp:rootdevice"
                "http://10.0.0.5:80/desc.xml";
              Debugf_got_description
                (Some (Sim.descOf "Acme" "CamX200" "SN1"));
              Debugf_found_service "upnp:rootdevice"
                "http://10.0.0.6:80/desc.xml";
              Warnf_cannot_read_description
                (ErrNotOK "http://10.0.0.6:80/desc.xml" 204);
              Debugf_found_service "upnp:rootdevice"
                "http://10.0.0.7:80/desc.xml";
              Debugf_got_description
                (Some (Sim.descOf "Bolt" "Door7" "SN3"))]))
    as Hbefore by (vm_compute; reflexivity).
  destruct (search_failure_aborts Sim.env Sim.background true
              [FindGo.mkDeviceQuery "CamX.*" "" "" "eth0";
               FindGo.mkDeviceQuery "" "" "" "lo9";
               FindGo.mkDeviceQuery "" "" "" "wlan0"]
              ["eth0"] ["wlan0"] "lo9" _ _ _ _
              ["search eth0"; "GET http://10.0.0.5:80/desc.xml"; "read";
               "close"; "GET http://10.0.0.6:80/desc.xml"; "close";
               "GET http://10.0.0.7:80/desc.xml"; "read"; "close";
               "search lo9"]
              _ "no such interface" eq_refl eq_refl Hbefore eq_refl)
    as [Hfind Hpart].
  split.
  - exact Hfind.
  - eapply (Hpart ["eth0"] ["wlan0"] "lo9"); reflexivity.
Defined.

(** ** Endpoint expansion *)

Section Endpoints.
  Context {E : Env}.

Lemma Part000_FindHost_endpoints_map (h : string) (eps hs : list string) :
  Part000.FindHost_endpoints h eps hs
  = hs ++ map (Part000.Sprintf_s_slash_s h) eps.
Proof.
  revert hs. induction eps as [|e eps IH]; intros hs; simpl.
  - rewrite app_nil_r. reflexivity.
  - rewrite IH, <- app_assoc. reflexivity.
Qed.

Lemma Part000_FindHost_queries_grows a queries hs w hs' w' lg :
  Part000.FindHost_queries a queries hs w = (Ok hs', w', lg) ->
  w' = w
  /\ exists more,
       hs' = hs ++ more
       /\ forall q u e,
            In q queries -> Part000.Matches a q = Some true ->
            url_Parse (ssdp.Location (Service a)) = Returned u ->
            In e (Part000.Endpoints q) ->
            In (Part000.Sprintf_s_slash_s (URL_Hostname u) e) more.
Proof.
  revert hs lg. induction queries as [|q rest IH]; intros hs lg.
  - simpl. intros H. injection H as <- <- _. split; [reflexivity|].
    exists []. rewrite app_nil_r. split; [reflexivity|]. intros ? ? ? [].
  - simpl. unfold mbind, M_bind, bind, orPanic.
    destruct (Part000.Matches a q) as [[|]|] eqn:Hm; simpl.
    + destruct (url_Parse (ssdp.Location (Service a))) as [u0|c] eqn:Hu.
      * destruct (0 <? length (Part000.Endpoints q))%nat eqn:Hlen.
        -- rewrite Part000_FindHost_endpoints_map.
           destruct (Part000.FindHost_queries a rest _ w) as [[r1 w1] l1] eqn:Hr.
           intros H. injection H as -> -> _.
           destruct (IH _ _ Hr) as (-> & more & -> & Hin).
           split; [reflexivity|]. eexists. rewrite <- app_assoc.
           split; [reflexivity|].
           intros q' u e [<-|Hq] Hm' Hu' He.
           ++ injection Hu' as <-. apply in_or_app. left.
              apply in_map. exact He.
           ++ apply in_or_app. right. eapply Hin; eassumption.
        -- destruct (Part000.FindHost_queries a rest _ w) as [[r1 w1] l1] eqn:Hr.
           intros H. injection H as -> -> _.
           destruct (IH _ _ Hr) as (-> & more & -> & Hin).
           split; [reflexivity|]. eexists. rewrite <- app_assoc.
           split; [reflexivity|].
           intros q' u e [<-|Hq] Hm' Hu' He.
           ++ apply Nat.ltb_ge in Hlen.
              destruct (Part000.Endpoints q); [destruct He | simpl in Hlen; lia].
           ++ apply in_or_app. right. eapply Hin; eassumption.
      * unfold log. simpl.
        destruct (Part000.FindHost_queries a rest _ w) as [[r1 w1] l1] eqn:Hr.
        intros H. injection H as -> -> _.
        destruct (IH _ _ Hr) as (-> & more & -> & Hin).
        split; [reflexivity|]. exists more. split; [reflexivity|].
        intros q' u e [<-|Hq] Hm' Hu' He; [discriminate|].
        eapply Hin; eassumption.
    + destruct (Part000.FindHost_queries a rest _ w) as [[r1 w1] l1] eqn:Hr.
      intros H. injection H as -> -> _.
      destruct (IH _ _ Hr) as (-> & more & -> & Hin).
      split; [reflexivity|]. exists more. split; [reflexivity|].
      intros q' u e [<-|Hq] Hm' Hu' He; [congruence|].
      eapply Hin; eassumption.
    + discriminate.
Qed.

Lemma Part000_FindHost_devices_grows all queries hs w hs' w' lg :
  Part000.FindHost_devices all queries hs w = (Ok hs', w', lg) ->
  w' = w
  /\ exists more,
       hs' = hs ++ more
       /\ forall a q u e,
            In a all -> In q queries -> Part000.Matches a q = Some true ->
            url_Parse (ssdp.Location (Service a)) = Returned u ->
            In e (Part000.Endpoints q) ->
            In (Part000.Sprintf_s_slash_s (URL_Hostname u) e) more.
Proof.
  revert hs w lg. induction all as [|a rest IH]; intros hs w lg.
  - simpl. intros H. injection H as <- <- _. split; [reflexivity|].
    exists []. rewrite app_nil_r. split; [reflexivity|]. intros ? ? ? ? [].
  - simpl. unfold mbind, M_bind, bind.
    destruct (Part000.FindHost_queries a queries hs w)
      as [[[hs1|] w1] l1] eqn:Hq; [|discriminate].
    destruct (Part000.FindHost_devices rest queries hs1 w1)
      as [[r2 w2] l2] eqn:Hr.
    intros H. injection H as -> -> _.
    destruct (Part000_FindHost_queries_grows _ _ _ _ _ _ _ Hq)
      as (-> & more1 & -> & Hin1).
    destruct (IH _ _ _ Hr) as (-> & more2 & -> & Hin2).
    split; [reflexivity|]. exists (more1 ++ more2).
    rewrite <- app_assoc. split; [reflexivity|].
    intros a' q u e [<-|Ha] Hq' Hm Hu He; apply in_or_app.
    + left. eapply Hin1; eassumption.
    + right. eapply Hin2; eassumption.
Qed.

Lemma Sprintf_s_slash_s_neq (h e : string) :
  Part000.Sprintf_s_slash_s h e <> h.
Proof.
  intros H. apply (f_equal String.length) in H.
  unfold Part000.Sprintf_s_slash_s in H. rewrite !length_append in H.
  simpl in H. lia.
Qed.

End Endpoints.

(** The scenario of the specification: a query with endpoints a and b that
    matches the device at cam1, handed to [FindHost] through the context. *)
Example FindHost_endpoints_cam1 :
  Part000.FindHost (E := Sim.env)
    (mkContext
       (Some [mkUPNPDevice (Sim.advert "http://cam1:8080/desc.xml")
                           (Some (Sim.descOf "Acme" "CamX300" "SN2"))]))
    [Part000.mkDeviceQuery "CamX.*" "" "" "wlan0" ["a"; "b"]] true []
  = (Ok (["cam1/a"; "cam1/b"], None), [], []).
Proof. reflexivity. Qed.

(** ** The loops of [FindHost] in find.go *)

Section Matching.
  Context {E : Env}.

Lemma FindGo_matchesOf_cons a q rest :
  FindGo.matchesOf a (q :: rest)
  = match FindGo.Matches a q, FindGo.hostOf a with
    | Some true, Some h => [(h, q)]
    | _, _ => []
    end ++ FindGo.matchesOf a rest.
Proof. reflexivity. Qed.

Lemma FindGo_FindHost_queries_fold a queries hs fq w hs' fq' w' lg :
  FindGo.FindHost_queries a queries hs fq w = (Ok (hs', fq'), w', lg) ->
  w' = w
  /\ (hs', fq') = fold_left FindGo.record (FindGo.matchesOf a queries) (hs, fq).
Proof.
  revert hs fq lg. induction queries as [|q rest IH]; intros hs fq lg.
  - simpl. intros H. injection H as <- <- <- _. split; reflexivity.
  - rewrite FindGo_matchesOf_cons, fold_left_app.
    cbn [FindGo.FindHost_queries].
    unfold mbind, M_bind, bind, orPanic, FindGo.hostOf.
    destruct (FindGo.Matches a q) as [[|]|] eqn:Hm; cbn [ret panic].
    + destruct (url_Parse (ssdp.Location (Service a))) as [u|c] eqn:Hu.
      * cbn [fold_left]. unfold FindGo.record at 2. cbn [fst snd].
        destruct (negb (slices.Contains hs (URL_Hostname u)));
          destruct (FindGo.FindHost_queries a rest _ _ w)
            as [[r1 w1] l1] eqn:Hr;
          intros H; injection H as -> -> _; exact (IH _ _ _ Hr).
      * unfold log.
        destruct (FindGo.FindHost_queries a rest hs fq w)
          as [[r1 w1] l1] eqn:Hr.
        intros H. injection H as -> -> _. exact (IH _ _ _ Hr).
    + destruct (FindGo.FindHost_queries a rest hs fq w)
        as [[r1 w1] l1] eqn:Hr.
      intros H. injection H as -> -> _. exact (IH _ _ _ Hr).
    + discriminate.
Qed.

Lemma FindGo_FindHost_devices_fold all queries hs fq w hs' fq' w' lg :
  FindGo.FindHost_devices all queries hs fq w = (Ok (hs', fq'), w', lg) ->
  w' = w
  /\ (hs', fq')
     = fold_left FindGo.record (FindGo.matchEvents queries all) (hs, fq).
Proof.
  revert hs fq w lg. induction all as [|a rest IH]; intros hs fq w lg.
  - simpl. intros H. injection H as <- <- <- _. split; reflexivity.
  - cbn [FindGo.FindHost_devices FindGo.matchEvents flat_map].
    rewrite fold_left_app. unfold mbind, M_bind, bind.
    destruct (FindGo.FindHost_queries a queries hs fq w)
      as [[[[hs1 fq1]|] w1] l1] eqn:Hq; [|discriminate].
    destruct (FindGo.FindHost_devices rest queries hs1 fq1 w1)
      as [[r2 w2] l2] eqn:Hr.
    intros H. injection H as -> -> _.
    destruct (FindGo_FindHost_queries_fold _ _ _ _ _ _ _ _ _ Hq) as [-> <-].
    exact (IH _ _ _ _ Hr).
Qed.

Lemma FindGo_matchEvents_app queries (devs more : list UPNPDevice) :
  FindGo.matchEvents queries (devs ++ more)
  = FindGo.matchEvents queries devs ++ FindGo.matchEvents queries more.
Proof. unfold FindGo.matchEvents. apply flat_map_app. Qed.

  (** The loop over the networks visits the device records of [discover] and
      folds [record] over their matches; when it stops at an error, so does
      [discover]. *)
Lemma FindGo_FindHost_networks_discover ctx queries rootOnly networks hs fq w
    r w' lg :
  FindGo.FindHost_networks ctx queries rootOnly networks hs fq w
  = (Ok r, w', lg) ->
  match r with
  | inl err =>
      exists lg0,
        FindGo.discover ctx rootOnly networks w = (Ok (inl err), w', lg0)
  | inr acc =>
      exists devs lg0,
        FindGo.discover ctx rootOnly networks w = (Ok (inr devs), w', lg0)
        /\ acc = fold_left FindGo.record (FindGo.matchEvents queries devs)
                           (hs, fq)
  end.
Proof.
  revert hs fq w lg.
  induction networks as [|network rest IH]; intros hs fq w lg.
  - simpl. intros H. injection H as <- <- _.
    exists [], []. split; reflexivity.
  - cbn [FindGo.FindHost_networks FindGo.discover].
    unfold mbind, M_bind, bind.
    destruct (FindGo.findAll ctx network rootOnly w)
      as [[[[all [err|]]|] w1] l1]; [| |discriminate].
    + cbn [ret]. intros H. injection H as <- <- _. eexists. reflexivity.
    + destruct (FindGo.FindHost_devices all queries hs fq w1)
        as [[[[hs1 fq1]|] w2] l2] eqn:Hd; [|discriminate].
      destruct (FindGo_FindHost_devices_fold _ _ _ _ _ _ _ _ _ Hd)
        as [-> Hacc].
      destruct (FindGo.FindHost_networks ctx queries rootOnly rest hs1 fq1 w1)
        as [[r3 w3] l3] eqn:Hn.
      intros H. injection H as -> -> _.
      specialize (IH _ _ _ _ Hn). destruct r as [err|acc].
      * destruct IH as [lg0 ->]. eexists. reflexivity.
      * destruct IH as (devs & lg0 & -> & ->).
        eexists _, _. split; [reflexivity|].
        rewrite FindGo_matchEvents_app, fold_left_app, <- Hacc. reflexivity.
Qed.

Lemma FindGo_FindHost_queries_nomatch a queries hs fq w :
  (forall q, In q queries -> FindGo.Matches a q = Some false) ->
  FindGo.FindHost_queries a queries hs fq w = (Ok (hs, fq), w, []).
Proof.
  induction queries as [|q rest IH]; intros Hno; [reflexivity|].
  cbn [FindGo.FindHost_queries]. unfold mbind, M_bind, bind, orPanic.
  rewrite (Hno q (or_introl eq_refl)). cbn [ret].
  rewrite IH by (intros q' Hq'; apply Hno; right; exact Hq').
  reflexivity.
Qed.

Lemma FindGo_FindHost_devices_nomatch all queries hs fq w :
  (forall a q, In a all -> In q queries -> FindGo.Matches a q = Some false) ->
  FindGo.FindHost_devices all queries hs fq w = (Ok (hs, fq), w, []).
Proof.
  induction all as [|a rest IH]; intros Hno; [reflexivity|].
  cbn [FindGo.FindHost_devices]. unfold mbind, M_bind, bind.
  rewrite FindGo_FindHost_queries_nomatch
    by (intros q Hq; apply Hno; [left; reflexivity | exact Hq]).
  rewrite IH by (intros a' q Ha Hq; apply Hno; [right; exact Ha | exact Hq]).
  reflexivity.
Qed.

Lemma FindGo_FindHost_networks_nomatch ctx queries rootOnly networks hs fq w
    devs w' lg0 :
  FindGo.discover ctx rootOnly networks w = (Ok (inr devs), w', lg0) ->
  (forall a q, In a devs -> In q queries -> FindGo.Matches a q = Some false) ->
  exists lg,
    FindGo.FindHost_networks ctx queries rootOnly networks hs fq w
    = (Ok (inr (hs, fq)), w', lg).
Proof.
  revert w devs lg0.
  induction networks as [|network rest IH]; intros w devs lg0.
  - simpl. intros H _. injection H as _ <- _. eexists. reflexivity.
  - cbn [FindGo.FindHost_networks FindGo.discover].
    unfold mbind, M_bind, bind.
    destruct (FindGo.findAll ctx network rootOnly w)
      as [[[[all [err|]]|] w1] l1]; [discriminate| |discriminate].
    destruct (FindGo.discover ctx rootOnly rest w1)
      as [[[[err|more]|] w2] l2] eqn:Hd; try discriminate.
    cbn [ret]. intros H Hno. injection H as <- <- _.
    rewrite FindGo_FindHost_devices_nomatch
      by (intros a q Ha Hq; apply Hno;
          [apply in_or_app; left; exact Ha | exact Hq]).
    destruct (IH _ _ _ Hd) as [lg Hn].
    { intros a q Ha Hq. apply Hno; [apply in_or_app; right; exact Ha|exact Hq]. }
    rewrite Hn. eexists. reflexivity.
Qed.

End Matching.

(** ** First matches *)

Lemma fold_add_distinct_nil (l : list string) :
  fold_left add_distinct l [] = distinct_in_order l.
Proof.
  rewrite fold_add_distinct. simpl.
  induction (distinct_in_order l) as [|x t IH]; simpl;
    [reflexivity | f_equal; exact IH].
Qed.

Lemma FindGo_fold_record_fst (evs : list (string * FindGo.DeviceQuery))
    (acc : list string * gmap string FindGo.DeviceQuery) :
  fst (fold_left FindGo.record evs acc)
  = fold_left add_distinct (map fst evs) (fst acc).
Proof.
  revert acc. induction evs as [|ev evs IH]; intros acc; simpl.
  - reflexivity.
  - rewrite IH. f_equal. unfold FindGo.record, add_distinct.
    destruct (negb (slices.Contains (fst acc) (fst ev))); reflexivity.
Qed.

Lemma FindGo_fold_record_lookup (evs : list (string * FindGo.DeviceQuery))
    (acc : list string * gmap string FindGo.DeviceQuery) (h : string) :
  (forall k, In k (fst acc) <-> is_Some (snd acc !! k)) ->
  snd (fold_left FindGo.record evs acc) !! h
  = match snd acc !! h with
    | Some q => Some q
    | None => FindGo.firstQuery h evs
    end.
Proof.
  revert acc. induction evs as [|[h0 q0] evs IH]; intros [hs fq] Hdom.
  - simpl. destruct (fq !! h); reflexivity.
  - cbn [fold_left]. unfold FindGo.record at 2. cbn [fst snd] in *.
    unfold FindGo.firstQuery. cbn [List.find fst].
    destruct (slices.Contains hs h0) eqn:Hc; cbn [negb].
    + rewrite IH by exact Hdom. cbn [snd].
      destruct (fq !! h) as [q|] eqn:Hq; [reflexivity|].
      destruct (String.eqb_spec h0 h) as [->|Hne]; [|reflexivity].
      apply Contains_In, Hdom in Hc. rewrite Hq in Hc.
      destruct Hc as [? ?]. discriminate.
    + rewrite IH; cbn [fst snd].
      * destruct (String.eqb_spec h0 h) as [->|Hne].
        -- rewrite lookup_insert_eq.
           destruct (fq !! h) as [q|] eqn:Hq; [|reflexivity].
           assert (In h hs) as Hin by (apply Hdom; eauto).
           apply Contains_In in Hin. congruence.
        -- rewrite lookup_insert_ne by exact Hne. reflexivity.
      * intros k. rewrite in_app_iff, Hdom. simpl.
        destruct (String.eqb_spec h0 k) as [->|Hne].
        -- rewrite lookup_insert_eq. split; [eauto | tauto].
        -- rewrite lookup_insert_ne by exact Hne.
           split; [intros [H|[H|[]]]; [exact H | contradiction] | tauto].
Qed.

Lemma FindGo_firstQuery_is_Some (h : string)
    (evs : list (string * FindGo.DeviceQuery)) :
  is_Some (FindGo.firstQuery h evs) <-> In h (map fst evs).
Proof.
  unfold FindGo.firstQuery.
  induction evs as [|[h0 q0] evs IH]; simpl.
  - split; [intros [? ?]; discriminate | tauto].
  - destruct (String.eqb_spec h0 h) as [->|Hne]; simpl.
    + split; [tauto | eauto].
    + rewrite IH. split; [tauto | intros [?|?]; [contradiction | assumption]].
Qed.

(** C7. In find.go the hostnames [FindHost] returns are pairwise distinct;
    they are the hostnames of the matches in order of first appearance, and
    the map sends each of them to the query of its first match in the
    iteration order (device-major, query-minor); a match at a hostname
    already in the list changes neither the list nor the map. *)
Theorem FindHost_first_match (E : Env) (ctx : Context)
    (queries : list FindGo.DeviceQuery) (rootOnly : bool) (w w' : World)
    (hostnames : list string)
    (found : option (gmap string FindGo.DeviceQuery))
    (err : option (error FindGo.DeviceQuery))
    (lg : list (LogEntry FindGo.DeviceQuery))
    (Hrun : FindGo.FindHost ctx queries rootOnly w
            = (Ok (hostnames, found, err), w', lg)) :
  List.NoDup hostnames
  /\ (err = None ->
      exists devs lg0 m,
        FindGo.discover ctx rootOnly (FindGo.parseNetworks queries) w
        = (Ok (inr devs), w', lg0)
        /\ found = Some m
        /\ hostnames
           = distinct_in_order (map fst (FindGo.matchEvents queries devs))
        /\ (forall h : string,
              m !! h = FindGo.firstQuery h (FindGo.matchEvents queries devs))
        /\ (forall h : string, In h hostnames <-> is_Some (m !! h)))
  /\ (forall (a : UPNPDevice) (query : FindGo.DeviceQuery)
             (rest : list FindGo.DeviceQuery) (hs : list string)
             (fq : gmap string FindGo.DeviceQuery) (u : URL) (w0 : World),
        FindGo.Matches a query = Some true ->
        url_Parse (ssdp.Location (Service a)) = Returned u ->
        In (URL_Hostname u) hs ->
        FindGo.FindHost_queries a (query :: rest) hs fq w0
        = FindGo.FindHost_queries a rest hs fq w0).
Proof.
  assert (List.NoDup hostnames
          /\ (err = None ->
              exists devs lg0 m,
                FindGo.discover ctx rootOnly (FindGo.parseNetworks queries) w
                = (Ok (inr devs), w', lg0)
                /\ found = Some m
                /\ hostnames
                   = distinct_in_order
                       (map fst (FindGo.matchEvents queries devs))
                /\ (forall h : string,
                      m !! h
                      = FindGo.firstQuery h (FindGo.matchEvents queries devs))
                /\ (forall h : string, In h hostnames <-> is_Some (m !! h))))
    as [Hnodup Hfirst].
  { unfold FindGo.FindHost in Hrun. unfold mbind, M_bind, bind in Hrun.
    destruct (FindGo.FindHost_networks ctx queries rootOnly
                (FindGo.parseNetworks queries) [] ∅ w)
      as [[[[e|[hs fq]]|] w1] l1] eqn:Hn; [| |discriminate].
    - injection Hrun as <- _ <- _ _.
      split; [constructor | discriminate].
    - apply FindGo_FindHost_networks_discover in Hn.
      destruct Hn as (devs & lg0 & Hd & Hacc).
      assert (hs = distinct_in_order
                     (map fst (FindGo.matchEvents queries devs))) as Hhs.
      { apply (f_equal fst) in Hacc. simpl in Hacc.
        rewrite FindGo_fold_record_fst in Hacc. simpl in Hacc.
        rewrite fold_add_distinct_nil in Hacc. exact Hacc. }
      assert (forall h : string,
                fq !! h
                = FindGo.firstQuery h (FindGo.matchEvents queries devs))
        as Hfq.
      { intros h. apply (f_equal snd) in Hacc. simpl in Hacc. rewrite Hacc.
        rewrite FindGo_fold_record_lookup.
        - simpl. rewrite lookup_empty. reflexivity.
        - intros k. simpl. rewrite lookup_empty.
          split; [tauto | intros [? ?]; discriminate]. }
      destruct (0 <? length hs)%nat.
      + injection Hrun as <- <- <- <- _.
        split; [rewrite Hhs; apply distinct_in_order_NoDup|].
        intros _. exists devs, lg0, fq.
        repeat split; try assumption.
        * rewrite Hfq, FindGo_firstQuery_is_Some, Hhs, distinct_in_order_In.
          tauto.
        * rewrite Hfq, FindGo_firstQuery_is_Some, Hhs, distinct_in_order_In.
          tauto.
      + injection Hrun as <- _ <- _ _.
        split; [constructor | discriminate]. }
  split; [exact Hnodup|]. split; [exact Hfirst|].
  intros a query rest hs fq u w0 Hm Hu Hin.
  cbn [FindGo.FindHost_queries]. unfold mbind, M_bind, bind, orPanic.
  rewrite Hm. cbn [ret]. rewrite Hu.
  apply Contains_In in Hin. rewrite Hin. cbn [negb].
  destruct (FindGo.FindHost_queries a rest hs fq w0) as [[r1 w1] l1].
  reflexivity.
Qed.

Lemma FindHost_first_match_witness :
  List.NoDup ["10.0.0.5"; "10.0.0.7"; "cam1"]
  /\ exists m : gmap string FindGo.DeviceQuery,
       Some (<["cam1" := FindGo.mkDeviceQuery "CamX.*" "" "" "eth0"]>
               (<["10.0.0.7" := FindGo.mkDeviceQuery "" "" "" "wlan0"]>
                  (<["10.0.0.5" := FindGo.mkDeviceQuery "CamX.*" "" "" "eth0"]>
                     ∅)))
       = Some m
       /\ forall h : string,
            In h ["10.0.0.5"; "10.0.0.7"; "cam1"] <-> is_Some (m !! h).
Proof.
  assert (FindGo.FindHost (E := Sim.env) Sim.background
            [FindGo.mkDeviceQuery "CamX.*" "" "" "eth0";
             FindGo.mkDeviceQuery "" "" "" "wlan0"]
            true []
          = (Ok (["10.0.0.5"; "10.0.0.7"; "cam1"],
                 Some (<["cam1" := FindGo.mkDeviceQuery "CamX.*" "" "" "eth0"]>
                         (<["10.0.0.7" :=
                              FindGo.mkDeviceQuery "" "" "" "wlan0"]>
                            (<["10.0.0.5" :=
                                 FindGo.mkDeviceQuery "CamX.*" "" "" "eth0"]>
                               ∅))),
                 None),
             ["search eth0"; "GET http://10.0.0.5:80/desc.xml"; "read";
              "close"; "GET http://10.0.0.6:80/desc.xml"; "close";
              "GET http://10.0.0.7:80/desc.xml"; "read"; "close";
              "search wlan0"; "GET http://cam1:8080/desc.xml"; "read";
              "close"],
             [Debugf_found_service "upnp:rootdevice"
                "http://10.0.0.5:80/desc.xml";
              Debugf_got_description
                (Some (Sim.descOf "Acme" "CamX200" "SN1"));
              Debugf_found_service "upnp:rootdevice"
                "http://10.0.0.6:80/desc.xml";
              Warnf_cannot_read_description
                (ErrNotOK "http://10.0.0.6:80/desc.xml" 204);
              Debugf_found_service "upnp:rootdevice"
                "http://10.0.0.7:80/desc.xml";
              Debugf_got_description
                (Some (Sim.descOf "Bolt" "Door7" "SN3"));
              Debugf_found_service "upnp:rootdevice"
                "http://cam1:8080/desc.xml";
              Debugf_got_description
                (Some (Sim.descOf "Acme" "CamX300" "SN2"))]))
    as Hrun by (vm_compute; reflexivity).
  destruct (FindHost_first_match Sim.env _ _ _ _ _ _ _ _ _ Hrun)
    as (Hnodup & Hfirst & _).
  split; [exact Hnodup|].
  destruct (Hfirst eq_refl) as (devs & lg0 & m & _ & Hm & _ & _ & Hdom).
  exists m. split; [exact Hm | exact Hdom].
Defined.

(** ** The result of [FindHost] *)

Section NoMatch.
  Context {E : Env}.

Lemma Part000_FindHost_queries_nomatch a queries hs w :
  (forall q, In q queries -> Part000.Matches a q = Some false) ->
  Part000.FindHost_queries a queries hs w = (Ok hs, w, []).
Proof.
  induction queries as [|q rest IH]; intros Hno; [reflexivity|].
  cbn [Part000.FindHost_queries]. unfold mbind, M_bind, bind, orPanic.
  rewrite (Hno q (or_introl eq_refl)). cbn [ret].
  rewrite IH by (intros q' Hq'; apply Hno; right; exact Hq').
  reflexivity.
Qed.

Lemma Part000_FindHost_devices_nomatch all queries hs w :
  (forall a q,
     In a all -> In q queries -> Part000.Matches a q = Some false) ->
  Part000.FindHost_devices all queries hs w = (Ok hs, w, []).
Proof.
  induction all as [|a rest IH]; intros Hno; [reflexivity|].
  cbn [Part000.FindHost_devices]. unfold mbind, M_bind, bind.
  rewrite Part000_FindHost_queries_nomatch
    by (intros q Hq; apply Hno; [left; reflexivity | exact Hq]).
  rewrite IH by (intros a' q Ha Hq; apply Hno; [right; exact Ha | exact Hq]).
  reflexivity.
Qed.

End NoMatch.

Section Returns.
  Context {E : Env}.

Lemma FindGo_Matches_described a q :
  described a -> exists b, FindGo.Matches a q = Some b.
Proof.
  unfold described, FindGo.Matches. destruct (Desc a) as [d|]; [|congruence].
  intros _. simpl.
  destruct (negb (String.eqb (FindGo.ModelName q) "")); simpl;
    [destruct (negb (matches _ _)); simpl; [eauto|] |];
    (destruct (negb (String.eqb (FindGo.Manufacturer q) "")); simpl;
     [destruct (negb (matches _ _)); simpl; [eauto|] |]);
    (destruct (negb (String.eqb (FindGo.SerialNumber q) "")); simpl;
     [destruct (negb (matches _ _)); simpl; eauto | eauto]).
Qed.

Lemma Part000_Matches_described a q :
  described a -> exists b, Part000.Matches a q = Some b.
Proof.
  unfold described, Part000.Matches. destruct (Desc a) as [d|]; [|congruence].
  intros _. simpl.
  destruct (negb (String.eqb (Part000.ModelName q) "")); simpl;
    [destruct (negb (matches _ _)); simpl; [eauto|] |];
    (destruct (negb (String.eqb (Part000.Manufacturer q) "")); simpl;
     [destruct (negb (matches _ _)); simpl; [eauto|] |]);
    (destruct (negb (String.eqb (Part000.SerialNumber q) "")); simpl;
     [destruct (negb (matches _ _)); simpl; eauto | eauto]).
Qed.

Lemma FindGo_FindHost_queries_returns a queries hs fq w :
  described a ->
  exists acc lg, FindGo.FindHost_queries a queries hs fq w = (Ok acc, w, lg).
Proof.
  intros Ha. revert hs fq. induction queries as [|q rest IH]; intros hs fq.
  - eexists _, _. reflexivity.
  - cbn [FindGo.FindHost_queries]. unfold mbind, M_bind, bind, orPanic.
    destruct (FindGo_Matches_described a q Ha) as [b ->]. cbn [ret].
    destruct b.
    + destruct (url_Parse (ssdp.Location (Service a))) as [u|c].
      * destruct (negb (slices.Contains hs (URL_Hostname u))).
        -- destruct (IH (hs ++ [URL_Hostname u])
                        (<[URL_Hostname u := q]> fq)) as (acc & lg & ->).
           eexists _, _. reflexivity.
        -- destruct (IH hs fq) as (acc & lg & ->). eexists _, _. reflexivity.
      * unfold log. destruct (IH hs fq) as (acc & lg & ->).
        eexists _, _. reflexivity.
    + destruct (IH hs fq) as (acc & lg & ->). eexists _, _. reflexivity.
Qed.

Lemma FindGo_FindHost_devices_returns all queries hs fq w :
  Forall described all ->
  exists acc lg, FindGo.FindHost_devices all queries hs fq w = (Ok acc, w, lg).
Proof.
  intros Hall. revert hs fq.
  induction Hall as [|a rest Ha Hrest IH]; intros hs fq.
  - eexists _, _. reflexivity.
  - cbn [FindGo.FindHost_devices]. unfold mbind, M_bind, bind.
    destruct (FindGo_FindHost_queries_returns a queries hs fq w Ha)
      as ([hs1 fq1] & lg1 & ->).
    destruct (IH hs1 fq1) as (acc & lg & ->). eexists _, _. reflexivity.
Qed.

Lemma FindGo_findAll_returns ctx network rootOnly w :
  Context_described ctx ->
  exists all err w' lg,
    FindGo.findAll ctx network rootOnly w = (Ok (all, err), w', lg)
    /\ Forall described all.
Proof.
  unfold Context_described, FindGo.findAll.
  destruct (Value_FindAllTestKey ctx) as [all|].
  - intros Hall. exists all, None, w, []. split; [reflexivity | exact Hall].
  - intros _. run_monad.
    destruct (ssdp_Search _ 1 network w) as [[list_|c] w1].
    + destruct (FindGo_findAll_loop_returns ctx list_ [] w1)
        as (more & w2 & lg2 & -> & Hmore).
      eexists _, _, _, _. split; [reflexivity | exact Hmore].
    + eexists _, _, _, _. split; [reflexivity | constructor].
Qed.

Lemma FindGo_FindHost_networks_returns ctx queries rootOnly networks hs fq w :
  Context_described ctx ->
  exists r w' lg,
    FindGo.FindHost_networks ctx queries rootOnly networks hs fq w
    = (Ok r, w', lg).
Proof.
  intros Hctx. revert hs fq w.
  induction networks as [|network rest IH]; intros hs fq w.
  - eexists _, _, _. reflexivity.
  - cbn [FindGo.FindHost_networks]. unfold mbind, M_bind, bind.
    destruct (FindGo_findAll_returns ctx network rootOnly w Hctx)
      as (all & [err|] & w1 & lg1 & -> & Hall).
    + eexists _, _, _. reflexivity.
    + destruct (FindGo_FindHost_devices_returns all queries hs fq w1 Hall)
        as ([hs1 fq1] & lg2 & ->).
      destruct (IH hs1 fq1 w1) as (r & w' & lg & ->).
      eexists _, _, _. reflexivity.
Qed.

Lemma FindGo_FindHost_returns ctx queries rootOnly w :
  Context_described ctx ->
  exists r w' lg, FindGo.FindHost ctx queries rootOnly w = (Ok r, w', lg).
Proof.
  intros Hctx. unfold FindGo.FindHost. unfold mbind, M_bind, bind.
  destruct (FindGo_FindHost_networks_returns ctx queries rootOnly
              (FindGo.parseNetworks queries) [] ∅ w Hctx)
    as ([err|[hs fq]] & w' & lg & ->).
  - eexists _, _, _. reflexivity.
  - destruct (0 <? length hs)%nat; eexists _, _, _; reflexivity.
Qed.

Lemma Part000_FindHost_queries_returns a queries hs w :
  described a ->
  exists hs' lg, Part000.FindHost_queries a queries hs w = (Ok hs', w, lg).
Proof.
  intros Ha. revert hs. induction queries as [|q rest IH]; intros hs.
  - eexists _, _. reflexivity.
  - cbn [Part000.FindHost_queries]. unfold mbind, M_bind, bind, orPanic.
    destruct (Part000_Matches_described a q Ha) as [b ->]. cbn [ret].
    destruct b.
    + destruct (url_Parse (ssdp.Location (Service a))) as [u|c].
      * destruct (0 <? length (Part000.Endpoints q))%nat.
        -- destruct (IH (Part000.FindHost_endpoints (URL_Hostname u)
                           (Part000.Endpoints q) hs)) as (hs' & lg & ->).
           eexists _, _. reflexivity.
        -- destruct (IH (hs ++ [URL_Hostname u])) as (hs' & lg & ->).
           eexists _, _. reflexivity.
      * unfold log. destruct (IH hs) as (hs' & lg & ->).
        eexists _, _. reflexivity.
    + destruct (IH hs) as (hs' & lg & ->). eexists _, _. reflexivity.
Qed.

Lemma Part000_FindHost_devices_returns all queries hs w :
  Forall described all ->
  exists hs' lg, Part000.FindHost_devices all queries hs w = (Ok hs', w, lg).
Proof.
  intros Hall. revert hs.
  induction Hall as [|a rest Ha Hrest IH]; intros hs.
  - eexists _, _. reflexivity.
  - cbn [Part000.FindHost_devices]. unfold mbind, M_bind, bind.
    destruct (Part000_FindHost_queries_returns a queries hs w Ha)
      as (hs1 & lg1 & ->).
    destruct (IH hs1) as (hs' & lg & ->). eexists _, _. reflexivity.
Qed.

Lemma Part000_findAll_networks_returns ctx searchType networks all w :
  Forall described all ->
  exists r w' lg,
    Part000.findAll_networks ctx searchType networks all w = (Ok r, w', lg)
    /\ match r with inl _ => True | inr all' => Forall described all' end.
Proof.
  revert all w. induction networks as [|network rest IH]; intros all w Hall.
  - eexists _, _, _. split; [reflexivity | exact Hall].
  - cbn [Part000.findAll_networks]. run_monad.
    destruct (ssdp_Search searchType 1 network w) as [[list_|c] w1].
    + destruct (Part000_findAll_services_returns ctx list_ all w1)
        as (more & w2 & lg2 & -> & Hmore).
      destruct (IH (all ++ more) w2) as (r & w' & lg & -> & Hr).
      { apply Forall_app. split; assumption. }
      eexists _, _, _. split; [reflexivity | exact Hr].
    + eexists _, _, _. split; [reflexivity | exact I].
Qed.

Lemma Part000_FindHost_returns ctx queries rootOnly w :
  Context_described ctx ->
  exists r w' lg, Part000.FindHost ctx queries rootOnly w = (Ok r, w', lg).
Proof.
  unfold Context_described, Part000.FindHost, Part000.findAll.
  unfold mbind, M_bind, bind.
  destruct (Value_FindAllTestKey ctx) as [all|]; intros Hctx.
  - cbn [ret].
    destruct (Part000_FindHost_devices_returns all queries [] w Hctx)
      as (hs & lg & ->).
    destruct (0 <? length hs)%nat; eexists _, _, _; reflexivity.
  - destruct (Part000_findAll_networks_returns ctx
                (if rootOnly then ssdp.RootDevice else ssdp.All)
                (Part000.parseNetworks queries) [] w)
      as ([err|all] & w1 & lg1 & -> & Hall); [constructor| |].
    + eexists _, _, _. reflexivity.
    + unfold log. cbn [ret].
      destruct (Part000_FindHost_devices_returns all queries [] w1 Hall)
        as (hs & lg & ->).
      destruct (0 <? length hs)%nat; eexists _, _, _; reflexivity.
Qed.

End Returns.

(** C4 fails as stated in find.go: with the networks eth0 and lo9, the loop
    has two hostnames in its list after eth0, the search of lo9 fails, and
    [FindHost] returns the error. *)
Lemma FindHost_error_despite_hostnames :
  FindGo.parseNetworks
    [FindGo.mkDeviceQuery "" "" "" "eth0";
     FindGo.mkDeviceQuery "" "" "" "lo9"]
  = ["eth0"; "lo9"]
  /\ (exists fq w1 lg1,
        FindGo.FindHost_networks (E := Sim.env) Sim.background
          [FindGo.mkDeviceQuery "" "" "" "eth0";
           FindGo.mkDeviceQuery "" "" "" "lo9"]
          true ["eth0"] [] ∅ []
        = (Ok (inr (["10.0.0.5"; "10.0.0.7"], fq)), w1, lg1))
  /\ ["10.0.0.5"; "10.0.0.7"] <> ([] : list string)
  /\ (exists w' lg,
        FindGo.FindHost (E := Sim.env) Sim.background
          [FindGo.mkDeviceQuery "" "" "" "eth0";
           FindGo.mkDeviceQuery "" "" "" "lo9"]
          true []
        = (Ok ([], None, Some (ErrLibrary "no such interface")), w', lg)).
Proof.
  split; [reflexivity|]. split; [|split].
  - eexists _, _, _. vm_compute. reflexivity.
  - discriminate.
  - eexists _, _. vm_compute. reflexivity.
Qed.

(** The scenario of the specification: the query with model CamX.* and the
    device CamX200 at http://10.0.0.5:80/desc.xml give the hostname
    10.0.0.5, mapped to the query. *)
Example FindHost_CamX200 :
  FindGo.FindHost (E := Sim.env)
    (mkContext
       (Some [mkUPNPDevice (Sim.advert "http://10.0.0.5:80/desc.xml")
                           (Some (Sim.descOf "Acme" "CamX200" "SN1"))]))
    [FindGo.mkDeviceQuery "CamX.*" "" "" ""] true []
  = (Ok (["10.0.0.5"],
         Some {["10.0.0.5" := FindGo.mkDeviceQuery "CamX.*" "" "" ""]},
         None),
     [], []).
Proof. vm_compute. reflexivity. Qed.

(** ** More on the matchers *)

Lemma append_assoc_string (a b c : string) :
  (a +:+ b) +:+ c = a +:+ (b +:+ c).
Proof.
  induction a as [|x a IH]; [reflexivity|].
  change (String x ((a +:+ b) +:+ c) = String x (a +:+ (b +:+ c))).
  f_equal. exact IH.
Qed.

(** X1. A wildcard match persists when the field grows: if a pattern ending
    in [".*"] matches [s], it matches every extension of [s]. *)
Theorem matches_wildcard_extension (P s t : string)
    (Hwild : strings.HasSuffix P ".*" = true)
    (Hmatch : matches P s = true) :
  matches P (s +:+ t) = true.
Proof.
  unfold matches in *. rewrite Hwild in *.
  apply HasSuffix_spec in Hwild as [p ->].
  rewrite length_append in *. simpl String.length in *.
  replace (String.length p + 2 - 2) with (String.length p) in * by lia.
  rewrite substring_0_app in *.
  assert (strings.HasPrefix (s +:+ t) p = true) as Hpre.
  { destruct (String.eqb_spec (p +:+ ".*") s) as [<-|Hne].
    - apply HasPrefix_spec. exists (".*" +:+ t).
      rewrite append_assoc_string. reflexivity.
    - apply HasPrefix_spec in Hmatch as [r ->].
      apply HasPrefix_spec. exists (r +:+ t).
      rewrite append_assoc_string. reflexivity. }
  rewrite Hpre. destruct (String.eqb (p +:+ ".*") (s +:+ t)); reflexivity.
Qed.

Lemma matches_wildcard_extension_witness :
  matches "CamX.*" ("CamX200" +:+ "-v2") = true.
Proof.
  apply (matches_wildcard_extension "CamX.*" "CamX200" "-v2");
    reflexivity.
Defined.

(** X2. Clearing fields of a query never loses a match: when each of the
    three fields of [query'] is empty or equal to that of [query], a device
    record that matches [query] matches [query'].  Both variants. *)
Theorem Matches_relaxed_query (a : UPNPDevice) :
  (forall query query' : FindGo.DeviceQuery,
     (FindGo.ModelName query' = ""
      \/ FindGo.ModelName query' = FindGo.ModelName query) ->
     (FindGo.Manufacturer query' = ""
      \/ FindGo.Manufacturer query' = FindGo.Manufacturer query) ->
     (FindGo.SerialNumber query' = ""
      \/ FindGo.SerialNumber query' = FindGo.SerialNumber query) ->
     FindGo.Matches a query = Some true ->
     FindGo.Matches a query' = Some true)
  /\ (forall query query' : Part000.DeviceQuery,
        (Part000.ModelName query' = ""
         \/ Part000.ModelName query' = Part000.ModelName query) ->
        (Part000.Manufacturer query' = ""
         \/ Part000.Manufacturer query' = Part000.Manufacturer query) ->
        (Part000.SerialNumber query' = ""
         \/ Part000.SerialNumber query' = Part000.SerialNumber query) ->
        Part000.Matches a query = Some true ->
        Part000.Matches a query' = Some true).
Proof.
  split.
  - intros [m f s n] [m' f' s' n']. unfold FindGo.Matches. simpl.
    intros [->| ->] [->| ->] [->| ->]; destruct (Desc a) as [d|]; simpl;
      repeat match goal with
             | |- context [String.eqb ?x ""] =>
                 destruct (String.eqb x ""); simpl
             | |- context [matches ?q ?x] => destruct (matches q x); simpl
             end; congruence.
  - intros [m f s n e] [m' f' s' n' e']. unfold Part000.Matches. simpl.
    intros [->| ->] [->| ->] [->| ->]; destruct (Desc a) as [d|]; simpl;
      repeat match goal with
             | |- context [String.eqb ?x ""] =>
                 destruct (String.eqb x ""); simpl
             | |- context [matches ?q ?x] => destruct (matches q x); simpl
             end; congruence.
Qed.

Lemma Matches_relaxed_query_witness :
  FindGo.Matches
    (mkUPNPDevice (Sim.advert "http://10.0.0.5:80/desc.xml")
                  (Some (Sim.descOf "Acme" "CamX200" "SN1")))
    (FindGo.mkDeviceQuery "CamX.*" "" "" "wlan0")
  = Some true.
Proof.
  apply (proj1 (Matches_relaxed_query
                  (mkUPNPDevice (Sim.advert "http://10.0.0.5:80/desc.xml")
                                (Some (Sim.descOf "Acme" "CamX200" "SN1"))))
               (FindGo.mkDeviceQuery "CamX.*" "Acme" "SN1" "eth0")
               (FindGo.mkDeviceQuery "CamX.*" "" "" "wlan0"));
    [right | left | left |]; reflexivity.
Defined.

(** X3. [Matches] dereferences the descriptor only for a field the query
    sets: it panics exactly when [Desc] is nil and one of the three fields
    of the query is not empty.  Both variants. *)
Theorem Matches_panics_iff (a : UPNPDevice) :
  (forall query : FindGo.DeviceQuery,
     FindGo.Matches a query = None <->
     Desc a = None
     /\ ~ (FindGo.ModelName query = "" /\ FindGo.Manufacturer query = ""
           /\ FindGo.SerialNumber query = ""))
  /\ (forall query : Part000.DeviceQuery,
        Part000.Matches a query = None <->
        Desc a = None
        /\ ~ (Part000.ModelName query = "" /\ Part000.Manufacturer query = ""
              /\ Part000.SerialNumber query = "")).
Proof.
  split.
  - intros [m f s n]. unfold FindGo.Matches. simpl.
    destruct (Desc a) as [d|]; simpl;
      destruct (String.eqb_spec m "") as [->|Hm],
               (String.eqb_spec f "") as [->|Hf],
               (String.eqb_spec s "") as [->|Hs]; simpl;
      repeat match goal with
             | |- context [matches ?q ?x] => destruct (matches q x); simpl
             end;
      split; try discriminate; try tauto;
      intros [? ?]; try discriminate; tauto.
  - intros [m f s n e]. unfold Part000.Matches. simpl.
    destruct (Desc a) as [d|]; simpl;
      destruct (String.eqb_spec m "") as [->|Hm],
               (String.eqb_spec f "") as [->|Hf],
               (String.eqb_spec s "") as [->|Hs]; simpl;
      repeat match goal with
             | |- context [matches ?q ?x] => destruct (matches q x); simpl
             end;
      split; try discriminate; try tauto;
      intros [? ?]; try discriminate; tauto.
Qed.

(** ** More on the set of networks *)

Lemma distinct_in_order_length (l : list string) :
  length (distinct_in_order l) <= length l.
Proof.
  induction l as [|x t IH]; simpl; [lia|].
  pose proof (List.filter_length_le
                (fun y => negb (String.eqb y x)) (distinct_in_order t)).
  lia.
Qed.

Lemma FindGo_parseNetworks_distinct (queries : list FindGo.DeviceQuery) :
  FindGo.parseNetworks queries
  = distinct_in_order (map FindGo.Network queries).
Proof.
  unfold FindGo.parseNetworks.
  rewrite FindGo_parseNetworks_loop_fold. apply fold_add_distinct_nil.
Qed.

(** X4. In find.go the networks of a batch in two parts are those of the
    first part followed by those of the second part that the first part
    does not name. *)
Theorem parseNetworks_app (queries1 queries2 : list FindGo.DeviceQuery) :
  FindGo.parseNetworks (queries1 ++ queries2)
  = FindGo.parseNetworks queries1
    ++ List.filter
         (fun n => negb (slices.Contains (FindGo.parseNetworks queries1) n))
         (FindGo.parseNetworks queries2).
Proof.
  rewrite (FindGo_parseNetworks_distinct queries2).
  unfold FindGo.parseNetworks.
  rewrite !FindGo_parseNetworks_loop_fold, map_app, fold_left_app.
  apply fold_add_distinct.
Qed.

(** X5. In find.go [parseNetworks] returns at most one network for each
    query, and no network only for the empty batch; the first network is the
    one of the first query. *)
Theorem parseNetworks_bounds (queries : list FindGo.DeviceQuery) :
  length (FindGo.parseNetworks queries) <= length queries
  /\ (FindGo.parseNetworks queries = [] <-> queries = [])
  /\ head (FindGo.parseNetworks queries)
     = head (map FindGo.Network queries).
Proof.
  rewrite FindGo_parseNetworks_distinct. split; [|split].
  - rewrite <- (length_map FindGo.Network queries).
    apply distinct_in_order_length.
  - destruct queries; simpl; split; try reflexivity; discriminate.
  - destruct queries; reflexivity.
Qed.

(** ** More on the descriptor fetcher *)

(** X6. [readDeviceDesc] closes the body of every response it obtains, as
    its last action and whatever follows the response (a status other than
    200, a failed read, bad XML or success); when the request cannot be
    built it leaves the world as it is, and when [cli.Do] fails it leaves
    the world of that call: no body is read or closed. *)
Theorem readDeviceDesc_closes_body (E : Env) (Q : Type) (ctx : Context)
    (url : string) (w : World) :
  (forall e,
     http_NewRequestWithContext http.MethodGet url = Failed e ->
     readDeviceDesc (Q := Q) ctx url w
     = (Ok (None, Some (ErrLibrary e)), w, []))
  /\ (forall req e w1,
        http_NewRequestWithContext http.MethodGet url = Returned req ->
        http_Client_Do req w = (Failed e, w1) ->
        readDeviceDesc (Q := Q) ctx url w
        = (Ok (None, Some (ErrCantFetch url e)), w1, []))
  /\ (forall req resp w1,
        http_NewRequestWithContext http.MethodGet url = Returned req ->
        http_Client_Do req w = (Returned resp, w1) ->
        exists r w2,
          readDeviceDesc (Q := Q) ctx url w
          = (Ok r, Body_Close (http.Body_ resp) w2, [])
          /\ (w2 = w1
              \/ exists data,
                   io_ReadAll (http.Body_ resp) w1 = (data, w2))).
Proof.
  split; [|split].
  - intros e Hreq. unfold readDeviceDesc. rewrite Hreq. reflexivity.
  - intros req e w1 Hreq Hdo. unfold readDeviceDesc. rewrite Hreq.
    run_monad. rewrite Hdo. reflexivity.
  - intros req resp w1 Hreq Hdo. unfold readDeviceDesc. rewrite Hreq.
    run_monad. rewrite Hdo.
    destruct (negb (http.StatusCode resp =? http.StatusOK)%Z).
    + eexists _, _. split; [reflexivity | left; reflexivity].
    + destruct (io_ReadAll (http.Body_ resp) w1) as [[data|e] w2] eqn:Hread;
        eexists _, _; (split; [reflexivity | right; eexists; reflexivity]).
Qed.

Lemma readDeviceDesc_closes_body_witness :
  exists r w2,
    readDeviceDesc (E := Sim.env) (Q := FindGo.DeviceQuery) Sim.background
      "http://10.0.0.5:80/desc.xml" []
    = (Ok r, Body_Close (Env := Sim.env) "<CamX200/>" w2, [])
    /\ (w2 = ["GET http://10.0.0.5:80/desc.xml"]
        \/ exists data,
             io_ReadAll (Env := Sim.env) "<CamX200/>"
               ["GET http://10.0.0.5:80/desc.xml"]
             = (data, w2)).
Proof.
  apply (proj2 (proj2 (readDeviceDesc_closes_body Sim.env FindGo.DeviceQuery
                         Sim.background "http://10.0.0.5:80/desc.xml" []))
               "http://10.0.0.5:80/desc.xml"
               (http.mkResponse 200 "<CamX200/>")
               ["GET http://10.0.0.5:80/desc.xml"]
               eq_refl eq_refl).
Defined.

(** X7. [readDeviceDesc] returns a descriptor and no error exactly when the
    request is built, [cli.Do] returns a response of status 200, the body is
    read and the XML decodes; the descriptor is the decoded one and the
    world is the one after the read with the body closed. *)
Theorem readDeviceDesc_success_iff (E : Env) (Q : Type) (ctx : Context)
    (url : string) (w w' : World) (desc : deviceDesc)
    (lg : list (LogEntry Q)) :
  readDeviceDesc (Q := Q) ctx url w = (Ok (Some desc, None), w', lg)
  <-> exists req resp w1 data w2,
        http_NewRequestWithContext http.MethodGet url = Returned req
        /\ http_Client_Do req w = (Returned resp, w1)
        /\ http.StatusCode resp = 200%Z
        /\ io_ReadAll (http.Body_ resp) w1 = (Returned data, w2)
        /\ xml_Unmarshal data = Returned desc
        /\ w' = Body_Close (http.Body_ resp) w2
        /\ lg = [].
Proof.
  unfold readDeviceDesc. split.
  - destruct (http_NewRequestWithContext http.MethodGet url) as [req|e];
      [|discriminate].
    run_monad.
    destruct (http_Client_Do req w) as [[resp|e] w1] eqn:Hdo; [|discriminate].
    destruct (Z.eqb_spec (http.StatusCode resp) http.StatusOK) as [Hs|Hs];
      simpl; [|discriminate].
    destruct (io_ReadAll (http.Body_ resp) w1) as [[data|e] w2] eqn:Hread;
      [|discriminate].
    unfold parseDeviceDesc.
    destruct (xml_Unmarshal data) as [d|e] eqn:Hxml; [|discriminate].
    intros H. injection H as -> <- <-.
    exists req, resp, w1, data, w2. repeat split; assumption.
  - intros (req & resp & w1 & data & w2 & -> & Hdo & Hs & Hread & Hxml
            & -> & ->).
    run_monad. rewrite Hdo.
    change http.StatusOK with 200%Z. rewrite Hs. simpl.
    rewrite Hread. unfold parseDeviceDesc. rewrite Hxml. reflexivity.
Qed.

(** X8. An error of [readDeviceDesc] comes with a nil descriptor and has one
    of five forms: the error of building the request as it is, or an error
    that carries the URL: the fetch error with its cause, the status error
    with a status other than 200, the read error, which always reports
    status 200 and not the cause of the failed read, or the XML error with
    its cause. *)
Theorem readDeviceDesc_error_forms (E : Env) (Q : Type) (ctx : Context)
    (url : string) (w w' : World) (desc : option deviceDesc) (err : error Q)
    (lg : list (LogEntry Q))
    (Hrun : readDeviceDesc ctx url w = (Ok (desc, Some err), w', lg)) :
  desc = None
  /\ ((exists c,
         http_NewRequestWithContext http.MethodGet url = Failed c
         /\ err = ErrLibrary c)
      \/ (exists c, err = ErrCantFetch url c)
      \/ (exists status, status <> 200%Z /\ err = ErrNotOK url status)
      \/ err = ErrCantReadBody url 200
      \/ (exists c, err = ErrBadXML url c)).
Proof.
  unfold readDeviceDesc in Hrun.
  destruct (http_NewRequestWithContext http.MethodGet url) as [req|e].
  2:{ injection Hrun as <- <- _ _. split; [reflexivity|]. left. eauto. }
  revert Hrun. run_monad.
  destruct (http_Client_Do req w) as [[resp|e] w1].
  2:{ intros H. injection H as <- <- _ _. split; [reflexivity|].
      right. left. eauto. }
  destruct (Z.eqb_spec (http.StatusCode resp) http.StatusOK) as [Hs|Hs]; simpl.
  2:{ intros H. injection H as <- <- _ _. split; [reflexivity|].
      right. right. left. eauto. }
  destruct (io_ReadAll (http.Body_ resp) w1) as [[data|e] w2].
  2:{ intros H. injection H as <- <- _ _. split; [reflexivity|].
      right. right. right. left. rewrite Hs. reflexivity. }
  unfold parseDeviceDesc.
  destruct (xml_Unmarshal data) as [d|e]; [discriminate|].
  intros H. injection H as <- <- _ _. split; [reflexivity|].
  right. right. right. right. eauto.
Qed.

Lemma readDeviceDesc_error_forms_witness :
  (None : option deviceDesc) = None
  /\ ((exists c,
         http_NewRequestWithContext (Env := Sim.env) http.MethodGet
           "http://10.0.0.6:80/desc.xml" = Failed c
         /\ ErrNotOK (Q := FindGo.DeviceQuery)
              "http://10.0.0.6:80/desc.xml" 204 = ErrLibrary c)
      \/ (exists c,
            ErrNotOK (Q := FindGo.DeviceQuery)
              "http://10.0.0.6:80/desc.xml" 204
            = ErrCantFetch "http://10.0.0.6:80/desc.xml" c)
      \/ (exists status,
            status <> 200%Z
            /\ ErrNotOK (Q := FindGo.DeviceQuery)
                 "http://10.0.0.6:80/desc.xml" 204
               = ErrNotOK "http://10.0.0.6:80/desc.xml" status)
      \/ ErrNotOK (Q := FindGo.DeviceQuery)
           "http://10.0.0.6:80/desc.xml" 204
         = ErrCantReadBody "http://10.0.0.6:80/desc.xml" 200
      \/ (exists c,
            ErrNotOK (Q := FindGo.DeviceQuery)
              "http://10.0.0.6:80/desc.xml" 204
            = ErrBadXML "http://10.0.0.6:80/desc.xml" c)).
Proof.
  apply (readDeviceDesc_error_forms Sim.env FindGo.DeviceQuery Sim.background
           "http://10.0.0.6:80/desc.xml" []
           ["GET http://10.0.0.6:80/desc.xml"; "close"]
           None (ErrNotOK "http://10.0.0.6:80/desc.xml" 204) []
           eq_refl).
Defined.

(** ** More on the enumeration *)

Section Records.
  Context {E : Env}.

Lemma FindGo_findAll_loop_sublist ctx list_ all w :
  exists more w' lg,
    FindGo.findAll_loop ctx list_ all w = (Ok (all ++ more), w', lg)
    /\ sublist (map Service more) list_
    /\ Forall described more.
Proof.
  revert all w. induction list_ as [|srv rest IH]; intros all w.
  - exists [], w, []. rewrite app_nil_r.
    split; [reflexivity|]. split; constructor.
  - destruct (readDeviceDesc_returns (Q := FindGo.DeviceQuery) ctx
                (ssdp.Location srv) w) as ([desc [err|]] & w1 & Hf & Hs & _).
    + destruct (IH all w1) as (more & w' & lg & Hrest & Hsub & Hmore).
      exists more, w'. eexists. split; [|split; [|exact Hmore]].
      * eapply FindGo_findAll_loop_fail; eassumption.
      * apply sublist_cons. exact Hsub.
    + destruct (IH (all ++ [mkUPNPDevice srv desc]) w1)
        as (more & w' & lg & Hrest & Hsub & Hmore).
      exists (mkUPNPDevice srv desc :: more), w'. eexists.
      split; [|split].
      * rewrite <- app_assoc in Hrest.
        eapply FindGo_findAll_loop_ok; eassumption.
      * simpl. apply sublist_skip. exact Hsub.
      * constructor; [|exact Hmore]. unfold described. simpl.
        destruct (Hs eq_refl) as [x Hx]. simpl in Hx. rewrite Hx. discriminate.
Qed.

Lemma Part000_findAll_services_sublist ctx list_ all w :
  exists more w' lg,
    Part000.findAll_services ctx list_ all w = (Ok (all ++ more), w', lg)
    /\ sublist (map Service more) list_
    /\ Forall described more.
Proof.
  revert all w. induction list_ as [|srv rest IH]; intros all w.
  - exists [], w, []. rewrite app_nil_r.
    split; [reflexivity|]. split; constructor.
  - destruct (readDeviceDesc_returns (Q := Part000.DeviceQuery) ctx
                (ssdp.Location srv) w) as ([desc [err|]] & w1 & Hf & Hs & _).
    + destruct (IH all w1) as (more & w' & lg & Hrest & Hsub & Hmore).
      exists more, w'. eexists. split; [|split; [|exact Hmore]].
      * eapply Part000_findAll_services_fail; eassumption.
      * apply sublist_cons. exact Hsub.
    + destruct (IH (all ++ [mkUPNPDevice srv desc]) w1)
        as (more & w' & lg & Hrest & Hsub & Hmore).
      exists (mkUPNPDevice srv desc :: more), w'. eexists.
      split; [|split].
      * rewrite <- app_assoc in Hrest.
        eapply Part000_findAll_services_ok; eassumption.
      * simpl. apply sublist_skip. exact Hsub.
      * constructor; [|exact Hmore]. unfold described. simpl.
        destruct (Hs eq_refl) as [x Hx]. simpl in Hx. rewrite Hx. discriminate.
Qed.

End Records.

(** X9. The loop over the advertisements of a search never panics, keeps
    the records it starts with, and adds records whose advertisements are
    some of the advertisements of the search, in their order, each with a
    descriptor that is not nil; so does [findAll] of find.go after a
    successful search.  Both variants. *)
Theorem findAll_records_in_order (E : Env) (ctx : Context)
    (list_ : list ssdp.Service) (all : list UPNPDevice) (w : World) :
  (exists more w' lg,
     FindGo.findAll_loop ctx list_ all w = (Ok (all ++ more), w', lg)
     /\ sublist (map Service more) list_
     /\ Forall described more)
  /\ (exists more w' lg,
        Part000.findAll_services ctx list_ all w = (Ok (all ++ more), w', lg)
        /\ sublist (map Service more) list_
        /\ Forall described more)
  /\ (forall (network : string) (rootOnly : bool) (w0 : World),
        Value_FindAllTestKey ctx = None ->
        ssdp_Search (if rootOnly then ssdp.RootDevice else ssdp.All) 1
                    network w0
        = (Returned list_, w) ->
        exists records w' lg,
          FindGo.findAll ctx network rootOnly w0
          = (Ok (records, None), w', lg)
          /\ sublist (map Service records) list_
          /\ Forall described records).
Proof.
  split; [apply FindGo_findAll_loop_sublist|].
  split; [apply Part000_findAll_services_sublist|].
  intros network rootOnly w0 Hctx Hsearch.
  unfold FindGo.findAll. rewrite Hctx. run_monad. rewrite Hsearch.
  destruct (FindGo_findAll_loop_sublist ctx list_ [] w)
    as (more & w' & lg & -> & Hsub & Hmore).
  exists more, w', lg. simpl. rewrite app_nil_r. repeat split; assumption.
Qed.

Lemma findAll_records_in_order_witness :
  exists records w' lg,
    FindGo.findAll (E := Sim.env) Sim.background "eth0" true []
    = (Ok (records, None), w', lg)
    /\ sublist (map Service records)
         [Sim.advert "http://10.0.0.5:80/desc.xml";
          Sim.advert "http://10.0.0.6:80/desc.xml";
          Sim.advert "http://10.0.0.7:80/desc.xml"]
    /\ Forall described records.
Proof.
  apply (proj2 (proj2 (findAll_records_in_order Sim.env Sim.background
                         [Sim.advert "http://10.0.0.5:80/desc.xml";
                          Sim.advert "http://10.0.0.6:80/desc.xml";
                          Sim.advert "http://10.0.0.7:80/desc.xml"]
                         [] ["search eth0"]))
               "eth0" true [] eq_refl eq_refl).
Defined.

(** ** More on [FindHost] of part_000 *)

(** X10. In part_000, without the test value in the context, [FindHost]
    finds no host whatever the queries and the network hold: it searches no
    network, leaves the world as it is, prints the count 0 and returns the
    empty list with the error that carries the queries. *)
Theorem FindHost_part000_never_finds (E : Env) (ctx : Context)
    (queries : list Part000.DeviceQuery) (rootOnly : bool) (w : World)
    (Hctx : Value_FindAllTestKey ctx = None) :
  Part000.FindHost ctx queries rootOnly w
  = (Ok ([], Some (ErrNoMatch queries)), w, [Println_yo_all 0]).
Proof.
  unfold Part000.FindHost, Part000.findAll, Part000.parseNetworks.
  rewrite Part000_parseNetworks_loop_nil, Hctx. reflexivity.
Qed.

Lemma FindHost_part000_never_finds_witness :
  Part000.FindHost (E := Sim.env) Sim.background
    [Part000.mkDeviceQuery "CamX.*" "" "" "eth0" []] true []
  = (Ok ([], Some (ErrNoMatch
                     [Part000.mkDeviceQuery "CamX.*" "" "" "eth0" []])),
     [], [Println_yo_all 0]).
Proof.
  apply (FindHost_part000_never_finds Sim.env Sim.background
           [Part000.mkDeviceQuery "CamX.*" "" "" "eth0" []] true [] eq_refl).
Defined.

Section Part000Loops.
  Context {E : Env}.

Lemma Part000_FindHost_queries_entries a queries hs w :
  described a ->
  exists lg,
    Part000.FindHost_queries a queries hs w
    = (Ok (hs ++ Part000_entriesOf a queries), w, lg).
Proof.
  intros Ha. revert hs. induction queries as [|q rest IH]; intros hs.
  - exists []. simpl. rewrite app_nil_r. reflexivity.
  - cbn [Part000.FindHost_queries Part000_entriesOf flat_map].
    unfold mbind, M_bind, bind, orPanic, Part000_hostOf.
    destruct (Part000_Matches_described a q Ha) as [b ->]. cbn [ret].
    destruct b.
    + destruct (url_Parse (ssdp.Location (Service a))) as [u|c] eqn:Hu.
      * unfold Part000_entry.
        destruct (0 <? length (Part000.Endpoints q))%nat.
        -- rewrite Part000_FindHost_endpoints_map.
           destruct (IH (hs ++ map (Part000.Sprintf_s_slash_s (URL_Hostname u))
                                   (Part000.Endpoints q))) as (lg & Hr).
           unfold Part000_entriesOf, Part000_hostOf in Hr. rewrite Hu in Hr.
           rewrite Hr. rewrite <- app_assoc. eexists. reflexivity.
        -- destruct (IH (hs ++ [URL_Hostname u])) as (lg & Hr).
           unfold Part000_entriesOf, Part000_hostOf in Hr. rewrite Hu in Hr.
           rewrite Hr. rewrite <- app_assoc. eexists. reflexivity.
      * unfold log. destruct (IH hs) as (lg & Hr).
        unfold Part000_entriesOf, Part000_hostOf in Hr. rewrite Hu in Hr.
        rewrite Hr. eexists. reflexivity.
    + destruct (IH hs) as (lg & Hr).
      unfold Part000_entriesOf, Part000_hostOf in Hr.
      rewrite Hr. eexists. reflexivity.
Qed.

Lemma Part000_FindHost_devices_entries all queries hs w :
  Forall described all ->
  exists lg,
    Part000.FindHost_devices all queries hs w
    = (Ok (hs ++ Part000_entries queries all), w, lg).
Proof.
  intros Hall. revert hs. induction Hall as [|a rest Ha Hrest IH]; intros hs.
  - exists []. simpl. rewrite app_nil_r. reflexivity.
  - cbn [Part000.FindHost_devices Part000_entries flat_map].
    unfold mbind, M_bind, bind.
    destruct (Part000_FindHost_queries_entries a queries hs w Ha) as (l1 & ->).
    destruct (IH (hs ++ Part000_entriesOf a queries)) as (l2 & ->).
    rewrite <- app_assoc. eexists. reflexivity.
Qed.

End Part000Loops.

(** X11. In part_000, with the device records [all] as the test value of the
    context, each with a descriptor, [FindHost] leaves the world as it is
    and returns the entries of the matches in iteration order, device-major
    and query-minor, one for each endpoint of the matching query or the bare
    hostname, with no entry removed as a duplicate; when there is no entry
    it returns the error that carries the queries. *)
Theorem FindHost_part000_entries (E : Env) (ctx : Context)
    (all : list UPNPDevice) (queries : list Part000.DeviceQuery)
    (rootOnly : bool) (w : World)
    (Hctx : Value_FindAllTestKey ctx = Some all)
    (Hall : Forall described all) :
  exists lg,
    Part000.FindHost ctx queries rootOnly w
    = (Ok (match Part000_entries queries all with
           | [] => ([], Some (ErrNoMatch queries))
           | _ :: _ => (Part000_entries queries all, None)
           end),
       w, lg).
Proof.
  unfold Part000.FindHost, Part000.findAll. rewrite Hctx.
  unfold mbind, M_bind, bind. cbn [ret].
  destruct (Part000_FindHost_devices_entries all queries [] w Hall)
    as (lg & ->).
  simpl. destruct (Part000_entries queries all); eexists; reflexivity.
Qed.

Lemma FindHost_part000_entries_witness :
  exists lg,
    Part000.FindHost (E := Sim.env)
      (mkContext
         (Some [mkUPNPDevice (Sim.advert "http://cam1:8080/desc.xml")
                             (Some (Sim.descOf "Acme" "CamX300" "SN2"))]))
      [Part000.mkDeviceQuery "CamX.*" "" "" "wlan0" ["a"; "b"];
       Part000.mkDeviceQuery "" "Acme" "" "wlan0" [];
       Part000.mkDeviceQuery "" "" "SN2" "" []]
      true []
    = (Ok (["cam1/a"; "cam1/b"; "cam1"; "cam1"], None), [], lg).
Proof.
  apply (FindHost_part000_entries Sim.env
           (mkContext
              (Some [mkUPNPDevice (Sim.advert "http://cam1:8080/desc.xml")
                                  (Some (Sim.descOf "Acme" "CamX300" "SN2"))]))
           [mkUPNPDevice (Sim.advert "http://cam1:8080/desc.xml")
                         (Some (Sim.descOf "Acme" "CamX300" "SN2"))]
           [Part000.mkDeviceQuery "CamX.*" "" "" "wlan0" ["a"; "b"];
            Part000.mkDeviceQuery "" "Acme" "" "wlan0" [];
            Part000.mkDeviceQuery "" "" "SN2" "" []]
           true [] eq_refl).
  repeat constructor. discriminate.
Defined.

(** ** More on [FindHost] of find.go *)

Section FindGoLoops.
  Context {E : Env}.

Lemma FindGo_FindHost_queries_run a queries hs fq w :
  described a ->
  exists lg,
    FindGo.FindHost_queries a queries hs fq w
    = (Ok (fold_left FindGo.record (FindGo.matchesOf a queries) (hs, fq)),
       w, lg).
Proof.
  intros Ha.
  destruct (FindGo_FindHost_queries_returns a queries hs fq w Ha)
    as ([hs' fq'] & lg & Hr).
  destruct (FindGo_FindHost_queries_fold _ _ _ _ _ _ _ _ _ Hr) as [_ <-].
  exists lg. exact Hr.
Qed.

Lemma FindGo_FindHost_devices_run all queries hs fq w :
  Forall described all ->
  exists lg,
    FindGo.FindHost_devices all queries hs fq w
    = (Ok (fold_left FindGo.record (FindGo.matchEvents queries all) (hs, fq)),
       w, lg).
Proof.
  intros Hall.
  destruct (FindGo_FindHost_devices_returns all queries hs fq w Hall)
    as ([hs' fq'] & lg & Hr).
  destruct (FindGo_FindHost_devices_fold _ _ _ _ _ _ _ _ _ Hr) as [_ <-].
  exists lg. exact Hr.
Qed.

Lemma FindGo_record_absorbed (evs : list (string * FindGo.DeviceQuery))
    (acc : list string * gmap string FindGo.DeviceQuery) :
  (forall ev, In ev evs -> In (fst ev) (fst acc)) ->
  fold_left FindGo.record evs acc = acc.
Proof.
  induction evs as [|ev evs IH]; intros Hin; [reflexivity|].
  cbn [fold_left]. unfold FindGo.record at 2.
  assert (slices.Contains (fst acc) (fst ev) = true) as ->
    by (apply Contains_In, Hin; left; reflexivity).
  cbn [negb]. apply IH. intros ev' Hev'. apply Hin. right. exact Hev'.
Qed.

Lemma FindGo_record_covers (evs : list (string * FindGo.DeviceQuery))
    (acc : list string * gmap string FindGo.DeviceQuery) ev :
  In ev evs -> In (fst ev) (fst (fold_left FindGo.record evs acc)).
Proof.
  intros Hev. rewrite FindGo_fold_record_fst, fold_add_distinct.
  apply in_or_app.
  destruct (slices.Contains (fst acc) (fst ev)) eqn:Hc.
  - left. apply Contains_In. exact Hc.
  - right. apply List.filter_In. split.
    + apply distinct_in_order_In, in_map. exact Hev.
    + rewrite Hc. reflexivity.
Qed.

Lemma FindGo_record_twice (evs : list (string * FindGo.DeviceQuery))
    (acc : list string * gmap string FindGo.DeviceQuery) :
  fold_left FindGo.record evs (fold_left FindGo.record evs acc)
  = fold_left FindGo.record evs acc.
Proof.
  apply FindGo_record_absorbed. intros ev Hev.
  apply FindGo_record_covers. exact Hev.
Qed.

Lemma FindGo_matchEvents_no_queries (devs : list UPNPDevice) :
  FindGo.matchEvents [] devs = [].
Proof. induction devs as [|a devs IH]; [reflexivity | exact IH]. Qed.

Lemma In_FindGo_matchEvents queries devs h q :
  In (h, q) (FindGo.matchEvents queries devs)
  <-> exists a u,
        In a devs /\ In q queries /\ FindGo.Matches a q = Some true
        /\ url_Parse (ssdp.Location (Service a)) = Returned u
        /\ URL_Hostname u = h.
Proof.
  unfold FindGo.matchEvents, FindGo.matchesOf, FindGo.hostOf.
  rewrite in_flat_map. split.
  - intros (a & Ha & Hin). apply in_flat_map in Hin as (q' & Hq' & Hin).
    destruct (FindGo.Matches a q') as [[|]|] eqn:Hm; try destruct Hin.
    destruct (url_Parse (ssdp.Location (Service a))) as [u|c] eqn:Hu;
      [|destruct Hin].
    destruct Hin as [Heq|[]]. injection Heq as <- <-.
    exists a, u. repeat split; assumption.
  - intros (a & u & Ha & Hq & Hm & Hu & <-).
    exists a. split; [exact Ha|]. apply in_flat_map. exists q.
    split; [exact Hq|]. rewrite Hm, Hu. left. reflexivity.
Qed.

  (** With the test value, every network yields the same records: the loop
      over the networks folds their matches once. *)
Lemma FindGo_FindHost_networks_test_value ctx all queries rootOnly networks
    acc w :
  Value_FindAllTestKey ctx = Some all ->
  Forall described all ->
  exists lg,
    FindGo.FindHost_networks ctx queries rootOnly networks (fst acc) (snd acc)
      w
    = (Ok (inr (match networks with
                | [] => acc
                | _ :: _ =>
                    fold_left FindGo.record (FindGo.matchEvents queries all)
                              acc
                end)),
       w, lg).
Proof.
  intros Hctx Hall. revert acc.
  induction networks as [|network rest IH]; intros [hs fq].
  - exists []. reflexivity.
  - cbn [FindGo.FindHost_networks fst snd]. unfold FindGo.findAll.
    rewrite Hctx. unfold mbind, M_bind, bind. cbn [ret].
    destruct (FindGo_FindHost_devices_run all queries hs fq w Hall)
      as (l1 & ->).
    destruct (fold_left FindGo.record (FindGo.matchEvents queries all)
                (hs, fq)) as [hs1 fq1] eqn:Hacc.
    destruct (IH (hs1, fq1)) as (l2 & Hr). cbn [fst snd] in Hr. rewrite Hr.
    eexists. destruct rest; [reflexivity|].
    rewrite <- Hacc, FindGo_record_twice. reflexivity.
Qed.

  (** What [FindHost] returns when no search fails. *)
Lemma FindGo_FindHost_result ctx queries rootOnly w hostnames found err w' lg
    devs w'' lg0 :
  FindGo.FindHost ctx queries rootOnly w
  = (Ok (hostnames, found, err), w', lg) ->
  FindGo.discover ctx rootOnly (FindGo.parseNetworks queries) w
  = (Ok (inr devs), w'', lg0) ->
  exists fq,
    (hostnames, fq)
    = fold_left FindGo.record (FindGo.matchEvents queries devs) ([], ∅)
    /\ (found = Some fq /\ err = None /\ hostnames <> []
        \/ hostnames = [] /\ found = None
           /\ err = Some (ErrNoMatch queries)).
Proof.
  intros Hrun Hdisc. unfold FindGo.FindHost in Hrun.
  unfold mbind, M_bind, bind in Hrun.
  destruct (FindGo.FindHost_networks ctx queries rootOnly
              (FindGo.parseNetworks queries) [] ∅ w)
    as [[[[e|[hs fq]]|] w1] l1] eqn:Hn; [| |discriminate].
  - apply FindGo_FindHost_networks_discover in Hn. destruct Hn as [lg1 Hn].
    rewrite Hn in Hdisc. discriminate.
  - apply FindGo_FindHost_networks_discover in Hn.
    destruct Hn as (devs' & lg1 & Hd & Hacc).
    rewrite Hd in Hdisc. injection Hdisc as -> _ _.
    destruct hs as [|h hs].
    + injection Hrun as <- <- <- _ _. exists fq. split; [exact Hacc|].
      right. repeat split.
    + injection Hrun as <- <- <- _ _. exists fq. split; [exact Hacc|].
      left. repeat split. discriminate.
Qed.

End FindGoLoops.

(** X12. In find.go, with the device records [all] as the test value of the
    context, each with a descriptor, [FindHost] leaves the world as it is
    and returns what one pass over [all] gives, the distinct hostnames of
    the matches and the query of the first match of each: handing the same
    records again for every further network changes nothing.  When nothing
    matches it returns the error that carries the queries. *)
Theorem FindHost_test_value (E : Env) (ctx : Context)
    (all : list UPNPDevice) (queries : list FindGo.DeviceQuery)
    (rootOnly : bool) (w : World)
    (Hctx : Value_FindAllTestKey ctx = Some all)
    (Hall : Forall described all) :
  exists lg,
    FindGo.FindHost ctx queries rootOnly w
    = (Ok (let acc :=
             fold_left FindGo.record (FindGo.matchEvents queries all) ([], ∅)
           in
           if (0 <? length (fst acc))%nat then
             (fst acc, Some (snd acc), None)
           else ([], None, Some (ErrNoMatch queries))),
       w, lg)
    /\ fst (fold_left FindGo.record (FindGo.matchEvents queries all) ([], ∅))
       = distinct_in_order (map fst (FindGo.matchEvents queries all)).
Proof.
  destruct (FindGo_FindHost_networks_test_value ctx all queries rootOnly
              (FindGo.parseNetworks queries) ([], ∅) w Hctx Hall)
    as (lg & Hn).
  cbn [fst snd] in Hn.
  assert (match FindGo.parseNetworks queries with
          | [] => ([], ∅)
          | _ :: _ =>
              fold_left FindGo.record (FindGo.matchEvents queries all)
                        ([], ∅)
          end
          = fold_left FindGo.record (FindGo.matchEvents queries all) ([], ∅))
    as Hsame.
  { destruct queries as [|q rest].
    - rewrite FindGo_matchEvents_no_queries. reflexivity.
    - rewrite FindGo_parseNetworks_distinct. reflexivity. }
  rewrite Hsame in Hn.
  unfold FindGo.FindHost. unfold mbind, M_bind, bind. rewrite Hn.
  destruct (fold_left FindGo.record (FindGo.matchEvents queries all) ([], ∅))
    as [hs fq] eqn:Hacc.
  cbn [fst snd]. eexists. split.
  - destruct (0 <? length hs)%nat; reflexivity.
  - apply (f_equal fst) in Hacc. rewrite FindGo_fold_record_fst in Hacc.
    cbn [fst] in Hacc. rewrite fold_add_distinct_nil in Hacc.
    symmetry. exact Hacc.
Qed.

Lemma FindHost_test_value_witness :
  exists lg,
    FindGo.FindHost (E := Sim.env)
      (mkContext
         (Some [mkUPNPDevice (Sim.advert "http://cam1:8080/desc.xml")
                             (Some (Sim.descOf "Acme" "CamX300" "SN2"))]))
      [FindGo.mkDeviceQuery "CamX.*" "" "" "eth0";
       FindGo.mkDeviceQuery "" "Acme" "" "wlan0"]
      true []
    = (Ok (["cam1"],
           Some {["cam1" := FindGo.mkDeviceQuery "CamX.*" "" "" "eth0"]},
           None),
       [], lg).
Proof.
  destruct (FindHost_test_value Sim.env
              (mkContext
                 (Some [mkUPNPDevice (Sim.advert "http://cam1:8080/desc.xml")
                                     (Some (Sim.descOf "Acme" "CamX300"
                                                       "SN2"))]))
              [mkUPNPDevice (Sim.advert "http://cam1:8080/desc.xml")
                            (Some (Sim.descOf "Acme" "CamX300" "SN2"))]
              [FindGo.mkDeviceQuery "CamX.*" "" "" "eth0";
               FindGo.mkDeviceQuery "" "Acme" "" "wlan0"]
              true [] eq_refl)
    as (lg & Hrun & _).
  - repeat constructor. discriminate.
  - exists lg. rewrite Hrun. vm_compute. reflexivity.
Defined.

(** X13. In find.go, when no search fails, the hostnames [FindHost] returns
    are exactly the hostnames of the discovered device records that match a
    query of the batch and whose location parses. *)
Theorem FindHost_hostnames_iff (E : Env) (ctx : Context)
    (queries : list FindGo.DeviceQuery) (rootOnly : bool) (w w' w'' : World)
    (hostnames : list string)
    (found : option (gmap string FindGo.DeviceQuery))
    (err : option (error FindGo.DeviceQuery))
    (lg lg0 : list (LogEntry FindGo.DeviceQuery)) (devs : list UPNPDevice)
    (Hrun : FindGo.FindHost ctx queries rootOnly w
            = (Ok (hostnames, found, err), w', lg))
    (Hdisc : FindGo.discover ctx rootOnly (FindGo.parseNetworks queries) w
             = (Ok (inr devs), w'', lg0)) :
  forall h : string,
    In h hostnames
    <-> exists a q u,
          In a devs /\ In q queries /\ FindGo.Matches a q = Some true
          /\ url_Parse (ssdp.Location (Service a)) = Returned u
          /\ URL_Hostname u = h.
Proof.
  destruct (FindGo_FindHost_result _ _ _ _ _ _ _ _ _ _ _ _ Hrun Hdisc)
    as (fq & Hacc & _).
  apply (f_equal fst) in Hacc. rewrite FindGo_fold_record_fst in Hacc.
  cbn [fst] in Hacc. rewrite fold_add_distinct_nil in Hacc.
  intros h. rewrite Hacc, distinct_in_order_In, in_map_iff. split.
  - intros ([h' q] & <- & Hin). apply In_FindGo_matchEvents in Hin.
    destruct Hin as (a & u & Hin). exists a, q, u. exact Hin.
  - intros (a & q & u & Hin). exists (h, q). split; [reflexivity|].
    apply In_FindGo_matchEvents. exists a, u. exact Hin.
Qed.

Lemma FindHost_hostnames_iff_witness :
  In "cam1" ["10.0.0.5"; "10.0.0.7"; "cam1"]
  <-> exists a q u,
        In a [mkUPNPDevice (Sim.advert "http://10.0.0.5:80/desc.xml")
                           (Some (Sim.descOf "Acme" "CamX200" "SN1"));
              mkUPNPDevice (Sim.advert "http://10.0.0.7:80/desc.xml")
                           (Some (Sim.descOf "Bolt" "Door7" "SN3"));
              mkUPNPDevice (Sim.advert "http://cam1:8080/desc.xml")
                           (Some (Sim.descOf "Acme" "CamX300" "SN2"))]
        /\ In q [FindGo.mkDeviceQuery "CamX.*" "" "" "eth0";
                 FindGo.mkDeviceQuery "" "" "" "wlan0"]
        /\ FindGo.Matches a q = Some true
        /\ url_Parse (Env := Sim.env) (ssdp.Location (Service a))
           = Returned u
        /\ URL_Hostname (Env := Sim.env) u = "cam1".
Proof.
  eapply (FindHost_hostnames_iff Sim.env Sim.background
            [FindGo.mkDeviceQuery "CamX.*" "" "" "eth0";
             FindGo.mkDeviceQuery "" "" "" "wlan0"]
            true []).
  - vm_compute. reflexivity.
  - vm_compute. reflexivity.
Defined.

Lemma FindGo_firstQuery_In (h : string) (q : FindGo.DeviceQuery)
    (evs : list (string * FindGo.DeviceQuery)) :
  FindGo.firstQuery h evs = Some q -> In (h, q) evs.
Proof.
  unfold FindGo.firstQuery.
  destruct (List.find (fun ev => String.eqb (fst ev) h) evs)
    as [[h' q']|] eqn:Hfind; [|discriminate].
  simpl. intros H. injection H as ->.
  apply List.find_some in Hfind as [Hin Heq]. simpl in Heq.
  apply String.eqb_eq in Heq. subst h'. exact Hin.
Qed.

(** X14. In find.go, the query the returned map holds for a hostname is a
    query of the batch that matched a discovered device record at that
    hostname, and the hostname is in the returned list. *)
Theorem FindHost_found_sound (E : Env) (ctx : Context)
    (queries : list FindGo.DeviceQuery) (rootOnly : bool) (w w' w'' : World)
    (hostnames : list string) (m : gmap string FindGo.DeviceQuery)
    (err : option (error FindGo.DeviceQuery))
    (lg lg0 : list (LogEntry FindGo.DeviceQuery)) (devs : list UPNPDevice)
    (Hrun : FindGo.FindHost ctx queries rootOnly w
            = (Ok (hostnames, Some m, err), w', lg))
    (Hdisc : FindGo.discover ctx rootOnly (FindGo.parseNetworks queries) w
             = (Ok (inr devs), w'', lg0)) :
  forall (h : string) (q : FindGo.DeviceQuery),
    m !! h = Some q ->
    In h hostnames
    /\ exists a u,
         In a devs /\ In q queries /\ FindGo.Matches a q = Some true
         /\ url_Parse (ssdp.Location (Service a)) = Returned u
         /\ URL_Hostname u = h.
Proof.
  destruct (FindGo_FindHost_result _ _ _ _ _ _ _ _ _ _ _ _ Hrun Hdisc)
    as (fq & Hacc & [[Hfound _]|[_ [Hfound _]]]); [|discriminate].
  injection Hfound as ->.
  intros h q Hq.
  assert (In (h, q) (FindGo.matchEvents queries devs)) as Hin.
  { apply FindGo_firstQuery_In.
    apply (f_equal snd) in Hacc. cbn [snd] in Hacc. rewrite Hacc in Hq.
    rewrite FindGo_fold_record_lookup in Hq.
    - cbn [snd] in Hq. rewrite lookup_empty in Hq. exact Hq.
    - intros k. cbn [fst snd]. rewrite lookup_empty.
      split; [intros [] | intros [? ?]; discriminate]. }
  split.
  - apply (f_equal fst) in Hacc. rewrite FindGo_fold_record_fst in Hacc.
    cbn [fst] in Hacc. rewrite fold_add_distinct_nil in Hacc.
    rewrite Hacc, distinct_in_order_In.
    apply (in_map fst) in Hin. exact Hin.
  - apply In_FindGo_matchEvents. exact Hin.
Qed.

Lemma FindHost_found_sound_witness :
  In "cam1" ["cam1"]
  /\ exists a u,
       In a [mkUPNPDevice (Sim.advert "http://cam1:8080/desc.xml")
                          (Some (Sim.descOf "Acme" "CamX300" "SN2"))]
       /\ In (FindGo.mkDeviceQuery "" "Acme" "" "wlan0")
             [FindGo.mkDeviceQuery "" "Acme" "" "wlan0";
              FindGo.mkDeviceQuery "CamX.*" "" "" "wlan0"]
       /\ FindGo.Matches a (FindGo.mkDeviceQuery "" "Acme" "" "wlan0")
          = Some true
       /\ url_Parse (Env := Sim.env) (ssdp.Location (Service a))
          = Returned u
       /\ URL_Hostname (Env := Sim.env) u = "cam1".
Proof.
  eapply (FindHost_found_sound Sim.env Sim.background
            [FindGo.mkDeviceQuery "" "Acme" "" "wlan0";
             FindGo.mkDeviceQuery "CamX.*" "" "" "wlan0"]
            true [] _ _ ["cam1"]
            {["cam1" := FindGo.mkDeviceQuery "" "Acme" "" "wlan0"]}).
  - vm_compute. reflexivity.
  - vm_compute. reflexivity.
  - vm_compute. reflexivity.
Defined.

(** ** Locations that do not parse, and the empty batch *)

(** X15. A device record whose location does not parse is skipped without
    an error: the loop over the queries leaves the hostnames (and in find.go
    the map) and the world as they are, and logs one warning for each query
    the record matches.  Both variants. *)
Theorem unparsable_location_skipped (E : Env) (a : UPNPDevice) (c : cause)
    (Ha : described a)
    (Hurl : url_Parse (ssdp.Location (Service a)) = Failed c) :
  (forall (queries : list FindGo.DeviceQuery) (hs : list string)
          (fq : gmap string FindGo.DeviceQuery) (w : World),
     FindGo.FindHost_queries a queries hs fq w
     = (Ok (hs, fq), w,
        map (fun _ => Warnf_invalid_location (ssdp.Location (Service a)))
            (List.filter
               (fun q => match FindGo.Matches a q with
                         | Some true => true
                         | _ => false
                         end)
               queries)))
  /\ (forall (queries : list Part000.DeviceQuery) (hs : list string)
             (w : World),
        Part000.FindHost_queries a queries hs w
        = (Ok hs, w,
           map (fun _ => Warnf_invalid_location (ssdp.Location (Service a)))
               (List.filter
                  (fun q => match Part000.Matches a q with
                            | Some true => true
                            | _ => false
                            end)
                  queries))).
Proof.
  split.
  - intros queries hs fq w. induction queries as [|q rest IH];
      [reflexivity|].
    cbn [FindGo.FindHost_queries List.filter].
    unfold mbind, M_bind, bind, orPanic.
    destruct (FindGo_Matches_described a q Ha) as [b ->]. cbn [ret].
    destruct b.
    + rewrite Hurl. unfold log. rewrite IH. reflexivity.
    + rewrite IH. reflexivity.
  - intros queries hs w. induction queries as [|q rest IH]; [reflexivity|].
    cbn [Part000.FindHost_queries List.filter].
    unfold mbind, M_bind, bind, orPanic.
    destruct (Part000_Matches_described a q Ha) as [b ->]. cbn [ret].
    destruct b.
    + rewrite Hurl. unfold log. rewrite IH. reflexivity.
    + rewrite IH. reflexivity.
Qed.

Lemma unparsable_location_skipped_witness :
  FindGo.FindHost_queries (E := Sim.env)
    (mkUPNPDevice (Sim.advert "nas/desc.xml")
                  (Some (Sim.descOf "Acme" "CamX200" "SN1")))
    [FindGo.mkDeviceQuery "CamX.*" "" "" "eth0";
     FindGo.mkDeviceQuery "Door.*" "" "" "eth0";
     FindGo.mkDeviceQuery "" "Acme" "" ""]
    ["10.0.0.5"] ∅ []
  = (Ok (["10.0.0.5"], ∅), [],
     [Warnf_invalid_location "nas/desc.xml";
      Warnf_invalid_location "nas/desc.xml"]).
Proof.
  apply (proj1 (unparsable_location_skipped Sim.env
                  (mkUPNPDevice (Sim.advert "nas/desc.xml")
                                (Some (Sim.descOf "Acme" "CamX200" "SN1")))
                  "missing protocol scheme"
                  ltac:(discriminate) eq_refl)
               [FindGo.mkDeviceQuery "CamX.*" "" "" "eth0";
                FindGo.mkDeviceQuery "Door.*" "" "" "eth0";
                FindGo.mkDeviceQuery "" "Acme" "" ""]
               ["10.0.0.5"] ∅ []).
Defined.

(** X16. For the empty batch of queries [FindHost] returns the empty list
    and the error that carries the empty batch, whatever the context holds,
    and leaves the world as it is: no network is searched.  Both
    variants. *)
Theorem FindHost_empty_batch (E : Env) (ctx : Context) (rootOnly : bool)
    (w : World) :
  FindGo.FindHost ctx [] rootOnly w
  = (Ok ([], None, Some (ErrNoMatch [])), w, [])
  /\ exists lg,
       Part000.FindHost ctx [] rootOnly w
       = (Ok ([], Some (ErrNoMatch [])), w, lg).
Proof.
  split; [reflexivity|].
  unfold Part000.FindHost, Part000.findAll.
  destruct (Value_FindAllTestKey ctx) as [all|].
  - unfold mbind, M_bind, bind. cbn [ret].
    rewrite Part000_FindHost_devices_nomatch by (intros a q _ []).
    eexists. reflexivity.
  - eexists. reflexivity.
Qed.

(** X17. In find.go, when no search fails, [FindHost] returns without an
    error exactly when some discovered device record matches some query of
    the batch and its location parses; otherwise the error is the one that
    carries the queries. *)
Theorem FindHost_succeeds_iff (E : Env) (ctx : Context)
    (queries : list FindGo.DeviceQuery) (rootOnly : bool) (w w' w'' : World)
    (hostnames : list string)
    (found : option (gmap string FindGo.DeviceQuery))
    (err : option (error FindGo.DeviceQuery))
    (lg lg0 : list (LogEntry FindGo.DeviceQuery)) (devs : list UPNPDevice)
    (Hrun : FindGo.FindHost ctx queries rootOnly w
            = (Ok (hostnames, found, err), w', lg))
    (Hdisc : FindGo.discover ctx rootOnly (FindGo.parseNetworks queries) w
             = (Ok (inr devs), w'', lg0)) :
  (err = None
   <-> exists a q u,
         In a devs /\ In q queries /\ FindGo.Matches a q = Some true
         /\ url_Parse (ssdp.Location (Service a)) = Returned u)
  /\ (err = None \/ err = Some (ErrNoMatch queries)).
Proof.
  destruct (FindGo_FindHost_result _ _ _ _ _ _ _ _ _ _ _ _ Hrun Hdisc)
    as (fq & Hacc & Hcase).
  apply (f_equal fst) in Hacc. rewrite FindGo_fold_record_fst in Hacc.
  cbn [fst] in Hacc. rewrite fold_add_distinct_nil in Hacc.
  assert (hostnames <> []
          <-> exists a q u,
                In a devs /\ In q queries /\ FindGo.Matches a q = Some true
                /\ url_Parse (ssdp.Location (Service a)) = Returned u)
    as Hiff.
  { split.
    - intros Hne. destruct hostnames as [|h hs]; [contradiction|].
      assert (In h (h :: hs)) as Hin by (left; reflexivity).
      rewrite Hacc, distinct_in_order_In, in_map_iff in Hin.
      destruct Hin as ([h' q] & _ & Hin).
      apply In_FindGo_matchEvents in Hin.
      destruct Hin as (a & u & Ha & Hq & Hm & Hu & _).
      exists a, q, u. repeat split; assumption.
    - intros (a & q & u & Ha & Hq & Hm & Hu) Hnil.
      assert (In (URL_Hostname u) hostnames) as Hin.
      { rewrite Hacc, distinct_in_order_In, in_map_iff.
        exists (URL_Hostname u, q). split; [reflexivity|].
        apply In_FindGo_matchEvents. exists a, u. repeat split; assumption. }
      rewrite Hnil in Hin. destruct Hin. }
  destruct Hcase as [(_ & -> & Hne)|(Hnil & _ & ->)].
  - split; [|left; reflexivity]. split; [intros _; apply Hiff, Hne|reflexivity].
  - split; [|right; reflexivity].
    split; [discriminate|]. intros Hex. apply Hiff in Hex. contradiction.
Qed.

Lemma FindHost_succeeds_iff_witness :
  ((None : option (error FindGo.DeviceQuery)) = None
   <-> exists a q u,
         In a [mkUPNPDevice (Sim.advert "http://cam1:8080/desc.xml")
                            (Some (Sim.descOf "Acme" "CamX300" "SN2"))]
         /\ In q [FindGo.mkDeviceQuery "CamX.*" "" "" "wlan0"]
         /\ FindGo.Matches a q = Some true
         /\ url_Parse (Env := Sim.env) (ssdp.Location (Service a))
            = Returned u)
  /\ ((None : option (error FindGo.DeviceQuery)) = None
      \/ None = Some (ErrNoMatch [FindGo.mkDeviceQuery "CamX.*" "" "" "wlan0"])).
Proof.
  eapply (FindHost_succeeds_iff Sim.env Sim.background
            [FindGo.mkDeviceQuery "CamX.*" "" "" "wlan0"] true []).
  - vm_compute. reflexivity.
  - vm_compute. reflexivity.
Defined.

(** ** The two variants side by side *)

Section Variants.
  Context {E : Env}.

Lemma Matches_withoutEndpoints a (q : Part000.DeviceQuery) :
  FindGo.Matches a (withoutEndpoints q) = Part000.Matches a q.
Proof. destruct q. reflexivity. Qed.

Lemma Part000_entriesOf_withoutEndpoints a queries :
  Forall (fun q => Part000.Endpoints q = []) queries ->
  Part000_entriesOf a queries
  = map fst (FindGo.matchesOf a (map withoutEndpoints queries)).
Proof.
  induction 1 as [|q rest Hq Hrest IH]; [reflexivity|].
  cbn [Part000_entriesOf FindGo.matchesOf flat_map map].
  rewrite map_app. fold (Part000_entriesOf a rest).
  fold (FindGo.matchesOf a (map withoutEndpoints rest)). rewrite IH.
  f_equal. rewrite Matches_withoutEndpoints.
  unfold Part000_hostOf, FindGo.hostOf, Part000_entry. rewrite Hq.
  destruct (Part000.Matches a q) as [[|]|]; try reflexivity.
  destruct (url_Parse (ssdp.Location (Service a))); reflexivity.
Qed.

Lemma Part000_entries_withoutEndpoints all queries :
  Forall (fun q => Part000.Endpoints q = []) queries ->
  Part000_entries queries all
  = map fst (FindGo.matchEvents (map withoutEndpoints queries) all).
Proof.
  intros Hq. induction all as [|a rest IH]; [reflexivity|].
  cbn [Part000_entries FindGo.matchEvents flat_map].
  rewrite map_app. fold (Part000_entries queries rest).
  fold (FindGo.matchEvents (map withoutEndpoints queries) rest).
  rewrite IH, Part000_entriesOf_withoutEndpoints by exact Hq. reflexivity.
Qed.

End Variants.

(** X18. On the same device records, handed over as the test value of the
    context, and queries without endpoints, the two variants agree up to
    duplicates: the hostnames of find.go are those of part_000 with each
    kept at its first appearance, and one returns an error exactly when the
    other does. *)
Theorem variants_agree_without_endpoints (E : Env) (ctx : Context)
    (all : list UPNPDevice) (queries : list Part000.DeviceQuery)
    (rootOnly : bool) (w : World)
    (Hctx : Value_FindAllTestKey ctx = Some all)
    (Hall : Forall described all)
    (Hplain : Forall (fun q => Part000.Endpoints q = []) queries) :
  exists hs1 err1 lg1 hs2 found err2 lg2,
    Part000.FindHost ctx queries rootOnly w = (Ok (hs1, err1), w, lg1)
    /\ FindGo.FindHost ctx (map withoutEndpoints queries) rootOnly w
       = (Ok (hs2, found, err2), w, lg2)
    /\ hs2 = distinct_in_order hs1
    /\ (err1 = None <-> err2 = None).
Proof.
  unfold Part000.FindHost, Part000.findAll. rewrite Hctx.
  unfold mbind, M_bind, bind. cbn [ret].
  destruct (Part000_FindHost_devices_entries all queries [] w Hall)
    as (lg1 & ->). cbn [app].
  destruct (FindGo_FindHost_networks_test_value ctx all
              (map withoutEndpoints queries) rootOnly
              (FindGo.parseNetworks (map withoutEndpoints queries))
              ([], ∅) w Hctx Hall) as (lg2 & Hn).
  cbn [fst snd] in Hn.
  assert (match FindGo.parseNetworks (map withoutEndpoints queries) with
          | [] => ([], ∅)
          | _ :: _ =>
              fold_left FindGo.record
                (FindGo.matchEvents (map withoutEndpoints queries) all)
                ([], ∅)
          end
          = fold_left FindGo.record
              (FindGo.matchEvents (map withoutEndpoints queries) all)
              ([], ∅)) as Hsame.
  { destruct queries as [|q rest].
    - simpl. rewrite FindGo_matchEvents_no_queries. reflexivity.
    - rewrite FindGo_parseNetworks_distinct. reflexivity. }
  rewrite Hsame in Hn. unfold FindGo.FindHost.
  unfold mbind, M_bind, bind. rewrite Hn.
  rewrite (Part000_entries_withoutEndpoints all queries Hplain).
  destruct (fold_left FindGo.record
              (FindGo.matchEvents (map withoutEndpoints queries) all)
              ([], ∅)) as [hs fq] eqn:Hacc.
  apply (f_equal fst) in Hacc. rewrite FindGo_fold_record_fst in Hacc.
  cbn [fst] in Hacc. rewrite fold_add_distinct_nil in Hacc.
  destruct (map fst (FindGo.matchEvents (map withoutEndpoints queries) all))
    as [|h l] eqn:Hev.
  - simpl in Hacc. subst hs. cbn.
    eexists _, _, _, _, _, _, _. split; [reflexivity|].
    split; [reflexivity|]. split; [reflexivity|].
    split; discriminate.
  - simpl in Hacc. subst hs. cbn.
    eexists _, _, _, _, _, _, _. split; [reflexivity|].
    split; [reflexivity|]. split; [reflexivity|].
    split; reflexivity.
Qed.

Lemma variants_agree_without_endpoints_witness :
  exists hs1 err1 lg1 hs2 found err2 lg2,
    Part000.FindHost (E := Sim.env)
      (mkContext
         (Some [mkUPNPDevice (Sim.advert "http://cam1:8080/desc.xml")
                             (Some (Sim.descOf "Acme" "CamX300" "SN2"))]))
      [Part000.mkDeviceQuery "CamX.*" "" "" "wlan0" [];
       Part000.mkDeviceQuery "" "Acme" "" "eth0" []]
      true []
    = (Ok (hs1, err1), [], lg1)
    /\ FindGo.FindHost (E := Sim.env)
         (mkContext
            (Some [mkUPNPDevice (Sim.advert "http://cam1:8080/desc.xml")
                                (Some (Sim.descOf "Acme" "CamX300" "SN2"))]))
         (map withoutEndpoints
              [Part000.mkDeviceQuery "CamX.*" "" "" "wlan0" [];
               Part000.mkDeviceQuery "" "Acme" "" "eth0" []])
         true []
       = (Ok (hs2, found, err2), [], lg2)
    /\ hs2 = distinct_in_order hs1
    /\ (err1 = None <-> err2 = None).
Proof.
  apply (variants_agree_without_endpoints Sim.env
           (mkContext
              (Some [mkUPNPDevice (Sim.advert "http://cam1:8080/desc.xml")
                                  (Some (Sim.descOf "Acme" "CamX300" "SN2"))]))
           [mkUPNPDevice (Sim.advert "http://cam1:8080/desc.xml")
                         (Some (Sim.descOf "Acme" "CamX300" "SN2"))]
           [Part000.mkDeviceQuery "CamX.*" "" "" "wlan0" [];
            Part000.mkDeviceQuery "" "Acme" "" "eth0" []]
           true [] eq_refl).
  - repeat constructor. discriminate.
  - repeat constructor.
Defined.

(** ** [FindHost] and the searches it makes *)

Section SearchRuns.
  Context {E : Env}.

Lemma FindGo_findAll_of_search (ctx : Context) (network : string)
    (rootOnly : bool) (w w1 w2 : World) list_ all lg :
  Value_FindAllTestKey ctx = None ->
  ssdp_Search (if rootOnly then ssdp.RootDevice else ssdp.All) 1 network w
  = (Returned list_, w1) ->
  FindGo.findAll_loop ctx list_ [] w1 = (Ok all, w2, lg) ->
  (exists lg',
     FindGo.findAll ctx network rootOnly w = (Ok (all, None), w2, lg'))
  /\ Forall described all.
Proof.
  intros Hctx Hsearch Hloop. split.
  - unfold FindGo.findAll. rewrite Hctx. run_monad. rewrite Hsearch, Hloop.
    eexists. reflexivity.
  - destruct (FindGo_findAll_loop_returns ctx list_ [] w1)
      as (more & w' & lg' & Heq & Hmore).
    rewrite Hloop in Heq. injection Heq as -> _ _. exact Hmore.
Qed.

Lemma FindGo_all_searched_run ctx rootOnly networks w devs w' queries hs fq :
  Value_FindAllTestKey ctx = None ->
  FindGo_all_searched ctx rootOnly networks w devs w' ->
  exists lg,
    FindGo.FindHost_networks ctx queries rootOnly networks hs fq w
    = (Ok (inr (fold_left FindGo.record (FindGo.matchEvents queries devs)
                          (hs, fq))),
       w', lg).
Proof.
  intros Hctx Hall. revert hs fq.
  induction Hall as [w|network rest w w1 w2 w3 list_ all more lg
                       Hsearch Hloop Hrest IH]; intros hs fq.
  - exists []. reflexivity.
  - destruct (FindGo_findAll_of_search ctx network rootOnly w w1 w2 _ _ _
                Hctx Hsearch Hloop) as [[lg1 Hfind] Hdesc].
    cbn [FindGo.FindHost_networks]. unfold mbind, M_bind, bind.
    rewrite Hfind.
    destruct (FindGo_FindHost_devices_run all queries hs fq w2 Hdesc)
      as (lg2 & Hdev).
    rewrite FindGo_matchEvents_app, fold_left_app.
    destruct (fold_left FindGo.record (FindGo.matchEvents queries all)
                (hs, fq)) as [hs1 fq1].
    rewrite Hdev. destruct (IH hs1 fq1) as (lg3 & ->).
    eexists. reflexivity.
Qed.

Lemma FindGo_search_failed_run ctx rootOnly networks w c w' queries hs fq :
  Value_FindAllTestKey ctx = None ->
  FindGo_search_failed ctx rootOnly networks w c w' ->
  exists lg,
    FindGo.FindHost_networks ctx queries rootOnly networks hs fq w
    = (Ok (inl (ErrLibrary c)), w', lg).
Proof.
  intros Hctx Hfail. revert hs fq.
  induction Hfail as [network rest w w1 c Hsearch
                     |network rest w w1 w2 w3 list_ all lg c
                        Hsearch Hloop Hrest IH]; intros hs fq.
  - cbn [FindGo.FindHost_networks]. unfold mbind, M_bind, bind.
    rewrite (FindGo_findAll_search_fails _ _ _ _ _ _ Hctx Hsearch).
    eexists. reflexivity.
  - destruct (FindGo_findAll_of_search ctx network rootOnly w w1 w2 _ _ _
                Hctx Hsearch Hloop) as [[lg1 Hfind] Hdesc].
    cbn [FindGo.FindHost_networks]. unfold mbind, M_bind, bind.
    rewrite Hfind.
    destruct (FindGo_FindHost_devices_run all queries hs fq w2 Hdesc)
      as (lg2 & Hdev).
    destruct (fold_left FindGo.record (FindGo.matchEvents queries all)
                (hs, fq)) as [hs1 fq1].
    rewrite Hdev. destruct (IH hs1 fq1) as (lg3 & ->).
    eexists. reflexivity.
Qed.

  (** Either every search returns or one fails. *)
Lemma FindGo_searches_total ctx rootOnly networks w :
  (exists devs w', FindGo_all_searched ctx rootOnly networks w devs w')
  \/ (exists c w', FindGo_search_failed ctx rootOnly networks w c w').
Proof.
  revert w. induction networks as [|network rest IH]; intros w.
  - left. exists [], w. constructor.
  - destruct (ssdp_Search (if rootOnly then ssdp.RootDevice else ssdp.All) 1
                network w) as [[list_|c] w1] eqn:Hsearch.
    + destruct (FindGo_findAll_loop_returns ctx list_ [] w1)
        as (all & w2 & lg & Hloop & _).
      simpl in Hloop.
      destruct (IH w2) as [(more & w3 & Hrest)|(c & w3 & Hrest)].
      * left. exists (all ++ more), w3.
        eapply FindGo_searched_cons; eassumption.
      * right. exists c, w3.
        eapply FindGo_failed_later; eassumption.
    + right. exists c, w1. apply FindGo_failed_here. exact Hsearch.
Qed.

  (** What [FindHost] of find.go returns when every search returns, and
      when one fails. *)
Lemma FindGo_FindHost_all_searched ctx rootOnly queries w devs w' :
  Value_FindAllTestKey ctx = None ->
  FindGo_all_searched ctx rootOnly (FindGo.parseNetworks queries) w devs w' ->
  exists lg,
    FindGo.FindHost ctx queries rootOnly w
    = (Ok (let acc :=
             fold_left FindGo.record (FindGo.matchEvents queries devs) ([], ∅)
           in
           if (0 <? length (fst acc))%nat then
             (fst acc, Some (snd acc), None)
           else ([], None, Some (ErrNoMatch queries))),
       w', lg).
Proof.
  intros Hctx Hall.
  destruct (FindGo_all_searched_run ctx rootOnly _ w devs w' queries [] ∅
              Hctx Hall) as (lg & Hn).
  unfold FindGo.FindHost. unfold mbind, M_bind, bind. rewrite Hn.
  destruct (fold_left FindGo.record (FindGo.matchEvents queries devs) ([], ∅))
    as [hs fq].
  cbn [fst snd]. destruct (0 <? length hs)%nat; eexists; reflexivity.
Qed.

Lemma FindGo_FindHost_search_failed ctx rootOnly queries w c w' :
  Value_FindAllTestKey ctx = None ->
  FindGo_search_failed ctx rootOnly (FindGo.parseNetworks queries) w c w' ->
  exists lg,
    FindGo.FindHost ctx queries rootOnly w
    = (Ok ([], None, Some (ErrLibrary c)), w', lg).
Proof.
  intros Hctx Hfail.
  destruct (FindGo_search_failed_run ctx rootOnly _ w c w' queries [] ∅
              Hctx Hfail) as (lg & Hn).
  unfold FindGo.FindHost. unfold mbind, M_bind, bind. rewrite Hn.
  eexists. reflexivity.
Qed.

  (** Whatever the context holds: a run without an error is a run whose
      searches all returned records, with a hostname among their matches. *)
Lemma FindGo_FindHost_error_discover ctx rootOnly queries w hostnames found
    err w' lg :
  FindGo.FindHost ctx queries rootOnly w
  = (Ok (hostnames, found, err), w', lg) ->
  (err = None <->
   exists devs lg0,
     FindGo.discover ctx rootOnly (FindGo.parseNetworks queries) w
     = (Ok (inr devs), w', lg0)
     /\ hostnames
        = fst (fold_left FindGo.record (FindGo.matchEvents queries devs)
                         ([], ∅))
     /\ hostnames <> []).
Proof.
  intros Hrun. split.
  - intros ->. pose proof Hrun as Hrun'.
    unfold FindGo.FindHost in Hrun'. unfold mbind, M_bind, bind in Hrun'.
    destruct (FindGo.FindHost_networks ctx queries rootOnly
                (FindGo.parseNetworks queries) [] ∅ w)
      as [[[[e|[hs fq]]|] w1] l1] eqn:Hn; try discriminate.
    apply FindGo_FindHost_networks_discover in Hn.
    destruct Hn as (devs & lg0 & Hd & Hacc).
    destruct hs as [|h hs]; [discriminate|].
    cbn in Hrun'. injection Hrun' as <- _ <- _.
    exists devs, lg0. rewrite <- Hacc.
    split; [exact Hd|]. split; [reflexivity | discriminate].
  - intros (devs & lg0 & Hd & Hhs & Hne).
    destruct (FindGo_FindHost_result _ _ _ _ _ _ _ _ _ _ _ _ Hrun Hd)
      as (fq & _ & [(_ & He & _)|(Hnil & _)]); [exact He | contradiction].
Qed.

End SearchRuns.

(** C4, as the code has it.  In both variants [FindHost] returns without an
    error exactly when no search failed and the list of hostnames built from
    the discovered device records is not empty.  In find.go, without the
    test value: when every [ssdp.Search] returns, the result is decided by
    the hostnames of the matches of the records found, returned without an
    error when there are some and replaced by the error that carries the
    whole batch of queries when there are none; when a search fails the
    result is the empty list, the nil map and that error, even if hostnames
    were collected before; one of the two cases always holds.  Whatever the
    context holds, a run without an error is one in which every call of
    [findAll] returned records and their matches give a hostname.  With the
    test
    value no search is made and the result is decided by the hostnames
    alone.  In part_000 no search is ever made: without the test value the
    result is always the error that carries the queries, with it the result
    is decided by the entries alone.  When the searches succeed and no
    discovered device matches any query, the result is the empty list and
    the error that carries the queries.  [FindHost] always returns when the
    device records of the context's test value, if any, have descriptors. *)
Theorem FindHost_error_iff (E : Env) (ctx : Context) (rootOnly : bool) :
  (Value_FindAllTestKey ctx = None ->
   forall (queries : list FindGo.DeviceQuery) (w : World),
     (forall (devs : list UPNPDevice) (w' : World),
        FindGo_all_searched ctx rootOnly (FindGo.parseNetworks queries) w
                            devs w' ->
        exists lg,
          FindGo.FindHost ctx queries rootOnly w
          = (Ok (let acc :=
                   fold_left FindGo.record (FindGo.matchEvents queries devs)
                             ([], ∅)
                 in
                 if (0 <? length (fst acc))%nat then
                   (fst acc, Some (snd acc), None)
                 else ([], None, Some (ErrNoMatch queries))),
             w', lg))
     /\ (forall (c : cause) (w' : World),
           FindGo_search_failed ctx rootOnly (FindGo.parseNetworks queries) w
                                c w' ->
           exists lg,
             FindGo.FindHost ctx queries rootOnly w
             = (Ok ([], None, Some (ErrLibrary c)), w', lg))
     /\ ((exists devs w',
            FindGo_all_searched ctx rootOnly (FindGo.parseNetworks queries) w
                                devs w')
         \/ (exists c w',
               FindGo_search_failed ctx rootOnly
                 (FindGo.parseNetworks queries) w c w'))
     /\ (forall (hostnames : list string)
                (found : option (gmap string FindGo.DeviceQuery))
                (err : option (error FindGo.DeviceQuery)) (w' : World)
                (lg : list (LogEntry FindGo.DeviceQuery)),
           FindGo.FindHost ctx queries rootOnly w
           = (Ok (hostnames, found, err), w', lg) ->
           (err = None <->
            exists devs,
              FindGo_all_searched ctx rootOnly (FindGo.parseNetworks queries)
                                  w devs w'
              /\ hostnames
                 = fst (fold_left FindGo.record
                          (FindGo.matchEvents queries devs) ([], ∅))
              /\ hostnames <> [])))
  /\ (forall (queries : list FindGo.DeviceQuery) (w w' : World)
             (hostnames : list string)
             (found : option (gmap string FindGo.DeviceQuery))
             (err : option (error FindGo.DeviceQuery))
             (lg : list (LogEntry FindGo.DeviceQuery)),
        FindGo.FindHost ctx queries rootOnly w
        = (Ok (hostnames, found, err), w', lg) ->
        (err = None <->
         exists devs lg0,
           FindGo.discover ctx rootOnly (FindGo.parseNetworks queries) w
           = (Ok (inr devs), w', lg0)
           /\ hostnames
              = fst (fold_left FindGo.record
                       (FindGo.matchEvents queries devs) ([], ∅))
           /\ hostnames <> []))
  /\ (forall (all : list UPNPDevice),
        Value_FindAllTestKey ctx = Some all -> Forall described all ->
        (forall (queries : list FindGo.DeviceQuery) (w : World),
           exists lg,
             FindGo.FindHost ctx queries rootOnly w
             = (Ok (let acc :=
                      fold_left FindGo.record
                        (FindGo.matchEvents queries all) ([], ∅)
                    in
                    if (0 <? length (fst acc))%nat then
                      (fst acc, Some (snd acc), None)
                    else ([], None, Some (ErrNoMatch queries))),
                w, lg))
        /\ (forall (queries : list Part000.DeviceQuery) (w : World),
              exists lg,
                Part000.FindHost ctx queries rootOnly w
                = (Ok (match Part000_entries queries all with
                       | [] => ([], Some (ErrNoMatch queries))
                       | _ :: _ => (Part000_entries queries all, None)
                       end),
                   w, lg)))
  /\ (Value_FindAllTestKey ctx = None ->
      forall (queries : list Part000.DeviceQuery) (w : World),
        Part000.FindHost ctx queries rootOnly w
        = (Ok ([], Some (ErrNoMatch queries)), w, [Println_yo_all 0]))
  /\ (forall (queries : list FindGo.DeviceQuery) (w w' : World)
             (devs : list UPNPDevice)
             (lg0 : list (LogEntry FindGo.DeviceQuery)),
        FindGo.discover ctx rootOnly (FindGo.parseNetworks queries) w
        = (Ok (inr devs), w', lg0) ->
        (forall a q,
           In a devs -> In q queries -> FindGo.Matches a q = Some false) ->
        exists lg,
          FindGo.FindHost ctx queries rootOnly w
          = (Ok ([], None, Some (ErrNoMatch queries)), w', lg))
  /\ (forall (queries : list Part000.DeviceQuery) (w w' : World)
             (all : list UPNPDevice)
             (lg0 : list (LogEntry Part000.DeviceQuery)),
        Part000.findAll ctx (Part000.parseNetworks queries) rootOnly w
        = (Ok (all, None), w', lg0) ->
        (forall a q,
           In a all -> In q queries -> Part000.Matches a q = Some false) ->
        exists lg,
          Part000.FindHost ctx queries rootOnly w
          = (Ok ([], Some (ErrNoMatch queries)), w', lg))
  /\ (Context_described ctx ->
      (forall (queries : list FindGo.DeviceQuery) (w : World),
         exists r w' lg,
           FindGo.FindHost ctx queries rootOnly w = (Ok r, w', lg))
      /\ (forall (queries : list Part000.DeviceQuery) (w : World),
            exists r w' lg,
              Part000.FindHost ctx queries rootOnly w = (Ok r, w', lg))).
Proof.
  split; [|split; [|split; [|split; [|split; [|split]]]]].
  - intros Hctx queries w.
    assert (forall devs w',
              FindGo_all_searched ctx rootOnly (FindGo.parseNetworks queries)
                                  w devs w' ->
              exists lg,
                FindGo.FindHost ctx queries rootOnly w
                = (Ok (let acc :=
                         fold_left FindGo.record
                           (FindGo.matchEvents queries devs) ([], ∅)
                       in
                       if (0 <? length (fst acc))%nat then
                         (fst acc, Some (snd acc), None)
                       else ([], None, Some (ErrNoMatch queries))),
                   w', lg)) as HA
      by (intros devs w'; apply FindGo_FindHost_all_searched; exact Hctx).
    assert (forall c w',
              FindGo_search_failed ctx rootOnly (FindGo.parseNetworks queries)
                                   w c w' ->
              exists lg,
                FindGo.FindHost ctx queries rootOnly w
                = (Ok ([], None, Some (ErrLibrary c)), w', lg)) as HB
      by (intros c w'; apply FindGo_FindHost_search_failed; exact Hctx).
    split; [exact HA|]. split; [exact HB|].
    split; [apply FindGo_searches_total|].
    intros hostnames found err w' lg Hrun. split.
    + intros ->.
      destruct (FindGo_searches_total ctx rootOnly
                  (FindGo.parseNetworks queries) w)
        as [(devs & w1 & Hall)|(c & w1 & Hfail)].
      * destruct (HA devs w1 Hall) as (lg1 & Heq). rewrite Hrun in Heq.
        cbv zeta in Heq.
        destruct (fold_left FindGo.record (FindGo.matchEvents queries devs)
                    ([], ∅)) as [hs fq] eqn:Hacc.
        cbn [fst snd] in Heq. destruct hs as [|h hs]; [discriminate|].
        cbn in Heq. injection Heq as -> _ -> _.
        exists devs. rewrite Hacc.
        split; [exact Hall|]. split; [reflexivity|discriminate].
      * destruct (HB c w1 Hfail) as (lg1 & Heq). rewrite Hrun in Heq.
        discriminate.
    + intros (devs & Hall & Hhs & Hne).
      destruct (HA devs w' Hall) as (lg1 & Heq). rewrite Hrun in Heq.
      cbv zeta in Heq. rewrite <- Hhs in Heq.
      destruct hostnames as [|h hs]; [contradiction|].
      cbn in Heq. injection Heq as _ -> _. reflexivity.
  - intros queries w w' hostnames found err lg.
    apply FindGo_FindHost_error_discover.
  - intros all Hctx Hall. split; intros queries w.
    + destruct (FindGo_FindHost_networks_test_value ctx all queries rootOnly
                  (FindGo.parseNetworks queries) ([], ∅) w Hctx Hall)
        as (lg & Hn).
      cbn [fst snd] in Hn.
      assert (match FindGo.parseNetworks queries with
              | [] => ([], ∅)
              | _ :: _ =>
                  fold_left FindGo.record (FindGo.matchEvents queries all)
                            ([], ∅)
              end
              = fold_left FindGo.record (FindGo.matchEvents queries all)
                          ([], ∅)) as Hsame.
      { destruct queries as [|q rest].
        - rewrite FindGo_matchEvents_no_queries. reflexivity.
        - rewrite FindGo_parseNetworks_distinct. reflexivity. }
      rewrite Hsame in Hn.
      unfold FindGo.FindHost. unfold mbind, M_bind, bind. rewrite Hn.
      destruct (fold_left FindGo.record (FindGo.matchEvents queries all)
                  ([], ∅)) as [hs fq].
      cbn [fst snd]. destruct (0 <? length hs)%nat; eexists; reflexivity.
    + unfold Part000.FindHost, Part000.findAll. rewrite Hctx.
      unfold mbind, M_bind, bind. cbn [ret].
      destruct (Part000_FindHost_devices_entries all queries [] w Hall)
        as (lg & ->).
      simpl. destruct (Part000_entries queries all); eexists; reflexivity.
  - intros Hctx queries w.
    unfold Part000.FindHost, Part000.findAll, Part000.parseNetworks.
    rewrite Part000_parseNetworks_loop_nil, Hctx. reflexivity.
  - intros queries w w' devs lg0 Hd Hno.
    destruct (FindGo_FindHost_networks_nomatch ctx queries rootOnly _ [] ∅
                _ _ _ _ Hd Hno) as [lg Hn].
    unfold FindGo.FindHost. unfold mbind, M_bind, bind. rewrite Hn.
    eexists. reflexivity.
  - intros queries w w' all lg0 Hf Hno.
    unfold Part000.FindHost. unfold mbind, M_bind, bind. rewrite Hf.
    rewrite Part000_FindHost_devices_nomatch by exact Hno.
    eexists. reflexivity.
  - intros Hctx. split; intros queries w.
    + apply FindGo_FindHost_returns. exact Hctx.
    + apply Part000_FindHost_returns. exact Hctx.
Qed.

Lemma FindHost_error_iff_witness :
  (exists lg,
     FindGo.FindHost (E := Sim.env) Sim.background
       [FindGo.mkDeviceQuery "" "" "" "eth0";
        FindGo.mkDeviceQuery "" "" "" "lo9";
        FindGo.mkDeviceQuery "" "" "" "wlan0"]
       true []
     = (Ok ([], None, Some (ErrLibrary "no such interface")),
        ["search eth0"; "GET http://10.0.0.5:80/desc.xml"; "read"; "close";
         "GET http://10.0.0.6:80/desc.xml"; "close";
         "GET http://10.0.0.7:80/desc.xml"; "read"; "close"; "search lo9"],
        lg))
  /\ (exists lg,
        FindGo.FindHost (E := Sim.env) Sim.background
          [FindGo.mkDeviceQuery "Lamp.*" "" "" "eth0"] true []
        = (Ok ([], None,
               Some (ErrNoMatch
                       [FindGo.mkDeviceQuery "Lamp.*" "" "" "eth0"])),
           ["search eth0"; "GET http://10.0.0.5:80/desc.xml"; "read";
            "close"; "GET http://10.0.0.6:80/desc.xml"; "close";
            "GET http://10.0.0.7:80/desc.xml"; "read"; "close"],
           lg))
  /\ (exists lg,
        FindGo.FindHost (E := Sim.env) Sim.background
          [FindGo.mkDeviceQuery "CamX.*" "" "" "eth0"] true []
        = (Ok (["10.0.0.5"],
               Some {["10.0.0.5" :=
                        FindGo.mkDeviceQuery "CamX.*" "" "" "eth0"]},
               None),
           ["search eth0"; "GET http://10.0.0.5:80/desc.xml"; "read";
            "close"; "GET http://10.0.0.6:80/desc.xml"; "close";
            "GET http://10.0.0.7:80/desc.xml"; "read"; "close"],
           lg)).
Proof.
  pose proof (proj1 (FindHost_error_iff Sim.env Sim.background true) eq_refl)
    as Hsearching.
  split; [|split].
  - apply (proj1 (proj2 (Hsearching
                           [FindGo.mkDeviceQuery "" "" "" "eth0";
                            FindGo.mkDeviceQuery "" "" "" "lo9";
                            FindGo.mkDeviceQuery "" "" "" "wlan0"] []))).
    eapply FindGo_failed_later; [reflexivity | reflexivity |].
    apply FindGo_failed_here. reflexivity.
  - destruct (proj1 (Hsearching [FindGo.mkDeviceQuery "Lamp.*" "" "" "eth0"]
                       [])
                    ([mkUPNPDevice (Sim.advert "http://10.0.0.5:80/desc.xml")
                                   (Some (Sim.descOf "Acme" "CamX200" "SN1"));
                      mkUPNPDevice (Sim.advert "http://10.0.0.7:80/desc.xml")
                                   (Some (Sim.descOf "Bolt" "Door7" "SN3"))]
                     ++ [])
                    ["search eth0"; "GET http://10.0.0.5:80/desc.xml"; "read";
                     "close"; "GET http://10.0.0.6:80/desc.xml"; "close";
                     "GET http://10.0.0.7:80/desc.xml"; "read"; "close"])
      as (lg & Hrun).
    + eapply FindGo_searched_cons; [reflexivity | reflexivity | constructor].
    + exists lg. rewrite Hrun. vm_compute. reflexivity.
  - destruct (proj1 (Hsearching [FindGo.mkDeviceQuery "CamX.*" "" "" "eth0"]
                       [])
                    ([mkUPNPDevice (Sim.advert "http://10.0.0.5:80/desc.xml")
                                   (Some (Sim.descOf "Acme" "CamX200" "SN1"));
                      mkUPNPDevice (Sim.advert "http://10.0.0.7:80/desc.xml")
                                   (Some (Sim.descOf "Bolt" "Door7" "SN3"))]
                     ++ [])
                    ["search eth0"; "GET http://10.0.0.5:80/desc.xml"; "read";
                     "close"; "GET http://10.0.0.6:80/desc.xml"; "close";
                     "GET http://10.0.0.7:80/desc.xml"; "read"; "close"])
      as (lg & Hrun).
    + eapply FindGo_searched_cons; [reflexivity | reflexivity | constructor].
    + exists lg. rewrite Hrun. vm_compute. reflexivity.
Defined.

(** ** Endpoint expansion in the result of [FindHost] *)

Section EndpointEntries.
  Context {E : Env}.

Lemma Part000_entriesOf_app a (qs1 qs2 : list Part000.DeviceQuery) :
  Part000_entriesOf a (qs1 ++ qs2)
  = Part000_entriesOf a qs1 ++ Part000_entriesOf a qs2.
Proof. unfold Part000_entriesOf. apply flat_map_app. Qed.

Lemma Part000_entries_app queries (devs1 devs2 : list UPNPDevice) :
  Part000_entries queries (devs1 ++ devs2)
  = Part000_entries queries devs1 ++ Part000_entries queries devs2.
Proof. unfold Part000_entries. apply flat_map_app. Qed.

  (** The entries around the match of [query] by [a]. *)
Lemma Part000_entries_at_match a query u devs1 devs2 qs1 qs2 :
  Part000.Matches a query = Some true ->
  url_Parse (ssdp.Location (Service a)) = Returned u ->
  Part000.Endpoints query <> [] ->
  Part000_entries (qs1 ++ query :: qs2) (devs1 ++ a :: devs2)
  = (Part000_entries (qs1 ++ query :: qs2) devs1 ++ Part000_entriesOf a qs1)
    ++ map (fun endpoint => URL_Hostname u +:+ "/" +:+ endpoint)
           (Part000.Endpoints query)
    ++ (Part000_entriesOf a qs2
        ++ Part000_entries (qs1 ++ query :: qs2) devs2).
Proof.
  intros Hm Hu He.
  rewrite Part000_entries_app.
  change (Part000_entries (qs1 ++ query :: qs2) (a :: devs2))
    with (Part000_entriesOf a (qs1 ++ query :: qs2)
          ++ Part000_entries (qs1 ++ query :: qs2) devs2).
  rewrite Part000_entriesOf_app.
  change (Part000_entriesOf a (query :: qs2))
    with (match Part000.Matches a query, Part000_hostOf a with
          | Some true, Some h => Part000_entry h query
          | _, _ => []
          end ++ Part000_entriesOf a qs2).
  unfold Part000_hostOf. rewrite Hm, Hu. unfold Part000_entry.
  destruct (Part000.Endpoints query) as [|e eps]; [contradiction|].
  change (0 <? length (e :: eps))%nat with true. cbv iota.
  rewrite <- !app_assoc. reflexivity.
Qed.

End EndpointEntries.

(** C8. In part_000, when a query with a non-empty [Endpoints] list matches
    a device whose location parses, that match appends one entry
    [hostname/endpoint] for each endpoint, in order, and not the bare
    hostname.  [FindHost] returns them without an error: with the device
    among the records of the context's test value, each with a descriptor,
    its result is the entries of the matches before, then these entries,
    then the entries of the matches after. *)
Theorem FindHost_endpoint_expansion (E : Env) (a : UPNPDevice)
    (query : Part000.DeviceQuery) (u : URL)
    (Hmatch : Part000.Matches a query = Some true)
    (Hurl : url_Parse (ssdp.Location (Service a)) = Returned u)
    (Hendpoints : Part000.Endpoints query <> []) :
  (forall (rest : list Part000.DeviceQuery) (hostnames : list string)
          (w : World),
     Part000.FindHost_queries a (query :: rest) hostnames w
     = Part000.FindHost_queries a rest
         (hostnames
          ++ map (fun endpoint => URL_Hostname u +:+ "/" +:+ endpoint)
                 (Part000.Endpoints query))
         w)
  /\ ~ In (URL_Hostname u)
          (map (fun endpoint => URL_Hostname u +:+ "/" +:+ endpoint)
               (Part000.Endpoints query))
  /\ (forall (ctx : Context) (queries : list Part000.DeviceQuery)
             (rootOnly : bool) (all : list UPNPDevice) (w w1 w' : World)
             (lg1 lg : list (LogEntry Part000.DeviceQuery))
             (hostnames : list string)
             (err : option (error Part000.DeviceQuery)),
        Part000.findAll ctx (Part000.parseNetworks queries) rootOnly w
        = (Ok (all, None), w1, lg1) ->
        In a all -> In query queries ->
        Part000.FindHost ctx queries rootOnly w
        = (Ok (hostnames, err), w', lg) ->
        err = None
        /\ forall endpoint : string,
             In endpoint (Part000.Endpoints query) ->
             In (URL_Hostname u +:+ "/" +:+ endpoint) hostnames)
  /\ (forall (ctx : Context) (devs1 devs2 : list UPNPDevice)
             (qs1 qs2 : list Part000.DeviceQuery) (rootOnly : bool)
             (w : World),
        Value_FindAllTestKey ctx = Some (devs1 ++ a :: devs2) ->
        Forall described (devs1 ++ a :: devs2) ->
        exists lg,
          Part000.FindHost ctx (qs1 ++ query :: qs2) rootOnly w
          = (Ok ((Part000_entries (qs1 ++ query :: qs2) devs1
                  ++ Part000_entriesOf a qs1)
                 ++ map (fun endpoint =>
                           URL_Hostname u +:+ "/" +:+ endpoint)
                        (Part000.Endpoints query)
                 ++ (Part000_entriesOf a qs2
                     ++ Part000_entries (qs1 ++ query :: qs2) devs2),
                 None),
             w, lg)).
Proof.
  split; [|split; [|split]].
  - intros rest hostnames w. simpl. unfold mbind, M_bind, bind, orPanic.
    rewrite Hmatch. simpl. rewrite Hurl.
    destruct (Part000.Endpoints query) as [|e eps] eqn:He; [contradiction|].
    change (0 <? length (e :: eps))%nat with true. cbv iota.
    rewrite Part000_FindHost_endpoints_map.
    destruct (Part000.FindHost_queries a rest _ w) as [[r1 w1] l1].
    reflexivity.
  - rewrite List.in_map_iff. intros (e & He & _).
    exact (Sprintf_s_slash_s_neq _ _ He).
  - intros ctx queries rootOnly all w w1 w' lg1 lg hostnames err
           Hall Ha Hq Hrun.
    unfold Part000.FindHost in Hrun.
    unfold mbind, M_bind, bind in Hrun. rewrite Hall in Hrun.
    destruct (Part000.FindHost_devices all queries [] w1)
      as [[[hs|] w2] l2] eqn:Hd; [|discriminate].
    destruct (Part000_FindHost_devices_grows _ _ _ _ _ _ _ Hd)
      as (-> & more & -> & Hin).
    destruct (Part000.Endpoints query) as [|e0 eps] eqn:He; [contradiction|].
    assert (In (Part000.Sprintf_s_slash_s (URL_Hostname u) e0) more) as H0.
    { apply (Hin a query u e0); try assumption. rewrite He. left. reflexivity. }
    destruct more as [|m more]; [destruct H0|].
    simpl in Hrun. injection Hrun as <- <- _ _.
    split; [reflexivity|].
    intros endpoint Hep.
    apply (Hin a query u endpoint); try assumption. rewrite He. exact Hep.
  - intros ctx devs1 devs2 qs1 qs2 rootOnly w Hctx Hall.
    unfold Part000.FindHost, Part000.findAll. rewrite Hctx.
    unfold mbind, M_bind, bind. cbn [ret].
    destruct (Part000_FindHost_devices_entries (devs1 ++ a :: devs2)
                (qs1 ++ query :: qs2) [] w Hall) as (lg & ->).
    cbn [app].
    rewrite (Part000_entries_at_match a query u devs1 devs2 qs1 qs2
               Hmatch Hurl Hendpoints).
    destruct (Part000.Endpoints query) as [|e eps] eqn:He; [contradiction|].
    destruct ((Part000_entries (qs1 ++ query :: qs2) devs1
               ++ Part000_entriesOf a qs1)
              ++ map (fun endpoint => URL_Hostname u +:+ "/" +:+ endpoint)
                     (e :: eps)
              ++ (Part000_entriesOf a qs2
                  ++ Part000_entries (qs1 ++ query :: qs2) devs2))
      as [|h hs] eqn:Hentries.
    + apply app_eq_nil in Hentries as [_ Hentries].
      apply app_eq_nil in Hentries as [Hentries _]. discriminate.
    + eexists. reflexivity.
Qed.

Lemma FindHost_endpoint_expansion_witness :
  (exists lg,
     Part000.FindHost (E := Sim.env)
       (mkContext
          (Some [mkUPNPDevice (Sim.advert "http://10.0.0.5:80/desc.xml")
                              (Some (Sim.descOf "Acme" "CamX200" "SN1"));
                 mkUPNPDevice (Sim.advert "http://cam1:8080/desc.xml")
                              (Some (Sim.descOf "Acme" "CamX300" "SN2"))]))
       [Part000.mkDeviceQuery "" "Acme" "" "" [];
        Part000.mkDeviceQuery "CamX3.*" "" "" "wlan0" ["a"; "b"]]
       true []
     = (Ok (["10.0.0.5"; "cam1"; "cam1/a"; "cam1/b"], None), [], lg))
  /\ Part000.FindHost_queries (E := Sim.env)
       (mkUPNPDevice (Sim.advert "http://cam1:8080/desc.xml")
                     (Some (Sim.descOf "Acme" "CamX300" "SN2")))
       [Part000.mkDeviceQuery "CamX3.*" "" "" "wlan0" ["a"; "b"]] [] []
     = (Ok ["cam1/a"; "cam1/b"], [], [])
  /\ ~ In "cam1" ["cam1/a"; "cam1/b"].
Proof.
  destruct (FindHost_endpoint_expansion Sim.env
              (mkUPNPDevice (Sim.advert "http://cam1:8080/desc.xml")
                            (Some (Sim.descOf "Acme" "CamX300" "SN2")))
              (Part000.mkDeviceQuery "CamX3.*" "" "" "wlan0" ["a"; "b"])
              "cam1" eq_refl eq_refl ltac:(discriminate))
    as (Hstep & Hbare & _ & Hfind).
  split; [|split].
  - destruct (Hfind
                (mkContext
                   (Some [mkUPNPDevice
                            (Sim.advert "http://10.0.0.5:80/desc.xml")
                            (Some (Sim.descOf "Acme" "CamX200" "SN1"));
                          mkUPNPDevice
                            (Sim.advert "http://cam1:8080/desc.xml")
                            (Some (Sim.descOf "Acme" "CamX300" "SN2"))]))
                [mkUPNPDevice (Sim.advert "http://10.0.0.5:80/desc.xml")
                              (Some (Sim.descOf "Acme" "CamX200" "SN1"))]
                []
                [Part000.mkDeviceQuery "" "Acme" "" "" []] []
                true [] eq_refl) as (lg & Hrun).
    + repeat constructor; discriminate.
    + exists lg. exact Hrun.
  - rewrite Hstep. reflexivity.
  - exact Hbare.
Defined.
